(** * AlterEcho ingestion pipeline: a shallow embedding of the Python sources

    Sources embedded here:
    - [backend/Jorvan testing ground/processor.py]: [classify_file],
      [extract_participants];
    - [backend/api.py]: [extract_message_fingerprints],
      [get_existing_fingerprints], [check_content_overlap];
    - [backend/instagram_zip_processor.py]: [extract_zip],
      [find_inbox_path], [find_conversations], [get_conversation_preview],
      [merge_conversation_messages], [cleanup_zip], [cleanup_all_temp];
    - [backend/discord_zip_processor.py]: [extract_zip],
      [find_messages_path], [load_index_json], [build_user_id_map],
      [find_dm_conversations], [convert_discord_to_instagram_format],
      [cleanup_zip].

    Conventions of the model.
    - A Python [str] is a [string]; one [ascii] stands for one character, so
      the model is exact on Latin-1 text.
    - What [json.load] returns is a [json] value: [None], [bool], [int],
      [str], [list], [dict].  JSON numbers with a fraction or an exponent are
      not represented.
    - A [dict] is an association list in insertion order; [json.load] never
      produces a repeated key, and every lookup below takes the first binding.
    - A Python function that can let an exception escape returns a
      [result]; one whose body is entirely guarded by [try/except Exception]
      returns a plain value.
    - A library function whose result is not computed here ([hashlib.md5],
      [datetime.strptime], the Latin-1/UTF-8 round trip of names,
      [ZipFile.extractall]) is a variable of the section that uses it. *)

From Stdlib Require Import Floats Ascii.
From stdpp Require Import gmap strings list sorting pretty.

Set Warnings "-inexact-float,-register-all".
Local Open Scope Z_scope.

(** ** Exceptions *)

Inductive result (A : Type) : Type :=
| Ok (a : A)
| Raise.
Arguments Ok {A} a.
Arguments Raise {A}.

#[global] Instance result_ret : MRet result := λ A a, Ok a.
#[global] Instance result_bind : MBind result := λ A B f r,
  match r with Ok a => f a | Raise => Raise end.
#[global] Instance result_fmap : FMap result := λ A B f r,
  match r with Ok a => Ok (f a) | Raise => Raise end.

(** [try: r except: d] is [try r except Exception: d]. *)
Definition try_except {A} (r : result A) (d : A) : A :=
  match r with Ok a => a | Raise => d end.

Fixpoint mapM_result {A B} (f : A → result B) (l : list A) : result (list B) :=
  match l with
  | [] => Ok []
  | x :: l' => y ← f x; ys ← mapM_result f l'; Ok (y :: ys)
  end.

(** ** Python values *)

Inductive json : Type :=
| JNull
| JBool (b : bool)
| JNum (z : Z)
| JStr (s : string)
| JArr (items : list json)
| JObj (fields : list (string * json)).

(** The double quote character, and a string in double quotes. *)
Definition dq : string := String (Ascii.ascii_of_nat 34) EmptyString.
Definition quoted (s : string) : string := dq +:+ s +:+ dq.

Module Py.

(** [bool(x)] *)
Definition truthy (x : json) : bool :=
  match x with
  | JNull => false
  | JBool b => b
  | JNum z => negb (z =? 0)
  | JStr s => negb (String.eqb s EmptyString)
  | JArr l => match l with [] => false | _ => true end
  | JObj o => match o with [] => false | _ => true end
  end.

Fixpoint assoc {V} (k : string) (o : list (string * V)) : option V :=
  match o with
  | [] => None
  | (k', v) :: o' => if String.eqb k k' then Some v else assoc k o'
  end.

(** [d[k] = v] on a [dict]: an existing key keeps its place. *)
Fixpoint assoc_set {V} (k : string) (v : V) (o : list (string * V))
  : list (string * V) :=
  match o with
  | [] => [(k, v)]
  | (k', v') :: o' =>
      if String.eqb k k' then (k, v) :: o' else (k', v') :: assoc_set k v o'
  end.

(** [x.get(k, d)]: only a [dict] has [get]. *)
Definition get (x : json) (k : string) (d : json) : result json :=
  match x with
  | JObj o => Ok (default d (assoc k o))
  | _ => Raise
  end.

(** [x[k]] for a string [k]: [KeyError] on a [dict] without [k],
    [TypeError] on anything else. *)
Definition getitem (x : json) (k : string) : result json :=
  match x with
  | JObj o => match assoc k o with Some v => Ok v | None => Raise end
  | _ => Raise
  end.

(** [x[k] = v] for a string [k]. *)
Definition setitem (x : json) (k : string) (v : json) : result json :=
  match x with
  | JObj o => Ok (JObj (assoc_set k v o))
  | _ => Raise
  end.

Definition chars (s : string) : list json :=
  (λ c, JStr (String c EmptyString)) <$> String.list_ascii_of_string s.

(** [for v in x]: the elements of a [list], the characters of a [str],
    the keys of a [dict]. *)
Definition iter (x : json) : result (list json) :=
  match x with
  | JArr l => Ok l
  | JStr s => Ok (chars s)
  | JObj o => Ok ((λ kv, JStr kv.1) <$> o)
  | _ => Raise
  end.

(** [len(x)] *)
Definition len (x : json) : result nat :=
  match x with
  | JArr l => Ok (length l)
  | JStr s => Ok (String.length s)
  | JObj o => Ok (length o)
  | _ => Raise
  end.

(** [needle in hay] on two [str]. *)
Fixpoint contains (needle hay : string) : bool :=
  String.prefix needle hay ||
  match hay with
  | EmptyString => false
  | String _ hay' => contains needle hay'
  end.

(** [x.startswith(p)] on a value: only a [str] has [startswith]. *)
Definition startswith (x : json) (p : string) : result bool :=
  match x with
  | JStr s => Ok (String.prefix p s)
  | _ => Raise
  end.

(** The number an [int] or a [bool] is. *)
Definition as_int (x : json) : option Z :=
  match x with
  | JNum z => Some z
  | JBool b => Some (if b then 1 else 0)
  | _ => None
  end.

(** Can [x] be a set element or a dict key. *)
Definition hashable (x : json) : bool :=
  match x with JArr _ | JObj _ => false | _ => true end.

(** [x == y] when one side is not a list or a dict. *)
Definition eqb (x y : json) : bool :=
  match as_int x, as_int y with
  | Some a, Some b => a =? b
  | None, None =>
      match x, y with
      | JStr a, JStr b => String.eqb a b
      | JNull, JNull => true
      | _, _ => false
      end
  | _, _ => false
  end.

(** [s.add(v)] on a set kept as the list of its elements: for a hashable
    [v], and for any [v]. *)
Definition set_insert (v : json) (s : list json) : list json :=
  if existsb (eqb v) s then s else s ++ [v].

Definition set_add (v : json) (s : list json) : result (list json) :=
  if hashable v then Ok (set_insert v s) else Raise.

(** A stable insertion sort for a strict order on keys: what [sorted]
    returns when every comparison succeeds. *)
Section stable_sort.
Context {A K : Type} (lt : K → K → bool) (key : A → K).

Fixpoint insert_by (x : A) (l : list A) : list A :=
  match l with
  | [] => [x]
  | y :: l' => if lt (key y) (key x) then y :: insert_by x l' else x :: l
  end.

Fixpoint sort_by (l : list A) : list A :=
  match l with
  | [] => []
  | x :: l' => insert_by x (sort_by l')
  end.

(** [sorted(l, key=key, reverse=True)]: CPython reverses, sorts, and
    reverses again, so that equal keys keep their order. *)
Definition sort_by_reverse (l : list A) : list A :=
  reverse (sort_by (reverse l)).
End stable_sort.

Definition as_str (x : json) : option string :=
  match x with JStr s => Some s | _ => None end.

(** [sorted(l, key=key)] when the keys are arbitrary values.  [<] is defined
    between two numbers and between two strings and raises [TypeError]
    otherwise; a sort of two or more elements compares each key with some
    other one, so it succeeds exactly when the keys are all numbers or all
    strings.  Keys that are lists are not modelled and are reported as
    [Raise] when there are two or more of them. *)
Definition sorted_by_key {A} (key : A → result json) (l : list A)
  : result (list A) :=
  keyed ← mapM_result (λ x, k ← key x; Ok (k, x)) l;
  match mapM (λ kx : json * A, (λ z, (z, kx.2)) <$> as_int kx.1) keyed with
  | Some zs => Ok (snd <$> sort_by Z.ltb fst zs)
  | None =>
      match mapM (λ kx : json * A, (λ z, (z, kx.2)) <$> as_str kx.1) keyed with
      | Some ss => Ok (snd <$> sort_by String.ltb fst ss)
      | None => match keyed with [_] => Ok l | _ => Raise end
      end
  end.

(** [repr(x)] and [str(x)], for values whose strings need no escape. *)
Fixpoint repr (x : json) : string :=
  match x with
  | JNull => "None"
  | JBool b => if b then "True" else "False"
  | JNum z => pretty z
  | JStr s => "'" +:+ s +:+ "'"
  | JArr l =>
      "[" +:+ (fix items l :=
                 match l with
                 | [] => EmptyString
                 | [y] => repr y
                 | y :: l' => repr y +:+ ", " +:+ items l'
                 end) l +:+ "]"
  | JObj o =>
      "{" +:+ (fix fields o :=
                 match o with
                 | [] => EmptyString
                 | [(k, v)] => "'" +:+ k +:+ "': " +:+ repr v
                 | (k, v) :: o' => "'" +:+ k +:+ "': " +:+ repr v +:+ ", " +:+ fields o'
                 end) o +:+ "}"
  end.

Definition str (x : json) : string :=
  match x with JStr s => s | _ => repr x end.

(** [d.get(k, dflt)] for a key that is a value: the keys of [d] are strings,
    so only a string can be found; an unhashable key raises. *)
Definition get_value (d k dflt : json) : result json :=
  match d with
  | JObj o =>
      if hashable k
      then Ok (match k with JStr s => default dflt (assoc s o) | _ => dflt end)
      else Raise
  | _ => Raise
  end.

(** [k in x] for a string [k]. *)
Definition contains_key (k : string) (x : json) : result bool :=
  match x with
  | JObj o => Ok (bool_decide (is_Some (assoc k o)))
  | JArr l => Ok (existsb (eqb (JStr k)) l)
  | JStr s => Ok (contains k s)
  | _ => Raise
  end.

End Py.

(** ** DuplicateGate: [check_content_overlap] (api.py) *)

Module Gate.

(** [len(s)] of a set as a Python float; exact below [2^53]. *)
Definition float_of_nat (n : nat) : float :=
  PrimFloat.of_uint63 (Uint63.of_Z (Z.of_nat n)).

(** [overlap / min_size >= threshold]: true division of two [int]s is the
    correctly rounded quotient, which is the binary64 division of the two
    converted operands. *)
Definition ratio_reaches (overlap min_size : nat) (threshold : float) : bool :=
  PrimFloat.leb threshold
    (PrimFloat.div (float_of_nat overlap) (float_of_nat min_size)).

(** The body of the [for filename, existing_fps in ...items()] loop, on the
    items of the dict in iteration order. *)
Fixpoint scan (new_fingerprints : gset string) (threshold : float)
    (items : list (string * gset string)) : bool * option string :=
  match items with
  | [] => (false, None)
  | (filename, existing_fps) :: rest =>
      if decide (existing_fps = ∅) then scan new_fingerprints threshold rest
      else
        let overlap := size (new_fingerprints ∩ existing_fps) in
        let min_size := (size new_fingerprints `min` size existing_fps)%nat in
        if bool_decide (0 < min_size)%nat && ratio_reaches overlap min_size threshold
        then (true, Some filename)
        else scan new_fingerprints threshold rest
  end.

Definition check_content_overlap (new_fingerprints : gset string)
    (existing_fingerprints : list (string * gset string))
    (threshold : float) : bool * option string :=
  if decide (new_fingerprints = ∅) then (false, None)
  else scan new_fingerprints threshold existing_fingerprints.

(** The default [threshold=0.8]. *)
Definition default_threshold : float := 0.8%float.

(** A candidate that the spec calls a match: its set is non-empty and
    [|new ∩ cand| / min(|new|, |cand|) >= threshold]. *)
Definition is_match (new : gset string) (threshold : float)
    (cand : string * gset string) : Prop :=
  cand.2 ≠ ∅ ∧
  ratio_reaches (size (new ∩ cand.2)) (size new `min` size cand.2)%nat threshold = true.

(** The match of the spec at the default threshold, in exact arithmetic:
    the candidate's set is non-empty and
    [|new ∩ cand| / min(|new|, |cand|) >= 4/5]. *)
Definition four_fifths_match (new : gset string) (cand : string * gset string)
  : Prop :=
  cand.2 ≠ ∅
  ∧ (4 * (size new `min` size cand.2) ≤ 5 * size (new ∩ cand.2))%nat.

End Gate.

(** ** Text: the [str] methods and the regular expressions of the sources *)

Module Text.

Definition code (c : ascii) : N := Ascii.N_of_ascii c.

(** [c.isspace()], which is also what [\s] matches in a [str] pattern. *)
Definition is_space (c : ascii) : bool :=
  let n := code c in
  ((9 <=? n) && (n <=? 13) || (28 <=? n) && (n <=? 32)
   || (n =? 133) || (n =? 160))%N.

(** What [\d] matches. *)
Definition is_digit (c : ascii) : bool :=
  let n := code c in ((48 <=? n) && (n <=? 57))%N.

(** What [.] matches: anything but a newline. *)
Definition not_newline (c : ascii) : bool := negb (code c =? 10)%N.

Fixpoint lstrip (s : string) : string :=
  match s with
  | String c s' => if is_space c then lstrip s' else s
  | EmptyString => EmptyString
  end.

Fixpoint rstrip (s : string) : string :=
  match s with
  | String c s' =>
      match rstrip s' with
      | EmptyString => if is_space c then EmptyString else String c EmptyString
      | r => String c r
      end
  | EmptyString => EmptyString
  end.

(** [s.strip()] *)
Definition strip (s : string) : string := rstrip (lstrip s).

Fixpoint take (n : nat) (s : string) : string :=
  match n, s with
  | S n', String c s' => String c (take n' s')
  | _, _ => EmptyString
  end.

Fixpoint drop (n : nat) (s : string) : string :=
  match n, s with
  | S n', String _ s' => drop n' s'
  | _, _ => s
  end.

(** [s.split(sep)] for a one-character separator. *)
Fixpoint split (sep : ascii) (s : string) : list string :=
  match s with
  | EmptyString => [EmptyString]
  | String c s' =>
      if Ascii.eqb c sep then EmptyString :: split sep s'
      else match split sep s' with
           | [] => [String c EmptyString]
           | w :: ws => String c w :: ws
           end
  end.

(** [s.rsplit(sep, 1)[0]]: [s] up to its last [sep], all of [s] without one. *)
Fixpoint rsplit1_head (sep : ascii) (s : string) : string :=
  match s with
  | EmptyString => EmptyString
  | String c s' =>
      if Ascii.eqb c sep && negb (Py.contains (String sep EmptyString) s')
      then EmptyString
      else String c (rsplit1_head sep s')
  end.

(** [f.readlines()]: every line keeps its newline. *)
Fixpoint readlines (s : string) : list string :=
  match s with
  | EmptyString => []
  | String c s' =>
      if (code c =? 10)%N then String c EmptyString :: readlines s'
      else match readlines s' with
           | [] => [String c EmptyString]
           | l :: ls => String c l :: ls
           end
  end.

Definition ends_with (suffix s : string) : bool :=
  (String.length suffix <=? String.length s)%nat
  && String.eqb (drop (String.length s - String.length suffix) s) suffix.

Fixpoint digits_value (acc : Z) (s : string) : option Z :=
  match s with
  | EmptyString => Some acc
  | String c s' =>
      if is_digit c then digits_value (10 * acc + (Z.of_N (code c) - 48)) s'
      else None
  end.

(** [int(s)]: white space around, an optional sign, decimal digits.  (The
    [_] that [int] allows between digits never reaches it here.) *)
Definition int (s : string) : result Z :=
  let body := strip s in
  let '(sign, ds) :=
    match body with
    | String "-" ds => (-1, ds)
    | String "+" ds => (1, ds)
    | _ => (1, body)
    end in
  match ds with
  | EmptyString => Raise
  | _ => match digits_value 0 ds with Some v => Ok (sign * v) | None => Raise end
  end.

(** [sep.join(parts)]: every part must be a [str]. *)
Fixpoint join (sep : string) (parts : list json) : result string :=
  match parts with
  | [] => Ok EmptyString
  | [JStr s] => Ok s
  | JStr s :: rest => r ← join sep rest; Ok (s +:+ sep +:+ r)
  | _ => Raise
  end.

End Text.

(** The fragment of [re] the sources use: a sequence of character classes,
    each repeated between [lo] and [hi] times, greedily or lazily, possibly
    captured, with the end anchor.  Alternatives are tried in the order of a
    backtracking matcher, so the groups are those [re] reports. *)
Module Re.

Inductive mode := Greedy | Lazy.

Inductive item :=
| Rep (cls : ascii → bool) (lo : nat) (hi : option nat) (m : mode)
      (capture : bool)
| Eos.

(** Length of the longest prefix of [s] inside [cls], at most [cap]. *)
Fixpoint run (cls : ascii → bool) (cap : option nat) (s : string) : nat :=
  match s with
  | String c s' =>
      if cls c then
        match cap with
        | Some O => O
        | Some (S k) => S (run cls (Some k) s')
        | None => S (run cls None s')
        end
      else O
  | EmptyString => O
  end.

(** The repetition counts to try, in order. *)
Definition counts (lo longest : nat) (m : mode) : list nat :=
  let up := seq lo (S longest - lo) in
  match m with Lazy => up | Greedy => reverse up end.

Definition first_success {A B} (f : A → option B) : list A → option B :=
  fix go l :=
    match l with
    | [] => None
    | x :: l' => match f x with Some b => Some b | None => go l' end
    end.

(** Is the end anchor satisfied at [s]: at the end, or before a final
    newline. *)
Definition at_end (s : string) : bool :=
  match s with
  | EmptyString => true
  | String c EmptyString => (Text.code c =? 10)%N
  | _ => false
  end.

(** Match [items] at the start of [s]; the captured groups in order. *)
Fixpoint match_here (items : list item) (s : string) : option (list string) :=
  match items with
  | [] => Some []
  | Eos :: rest => if at_end s then match_here rest s else None
  | Rep cls lo hi m capture :: rest =>
      first_success
        (λ k, groups ← match_here rest (Text.drop k s);
              Some (if capture then Text.take k s :: groups else groups))
        (counts lo (run cls hi s) m)
  end.

(** [re.match(items, s)] *)
Definition re_match (items : list item) (s : string) : option (list string) :=
  match_here items s.

(** [re.search(items, s)]: the leftmost start that matches. *)
Fixpoint search (items : list item) (s : string) : option (list string) :=
  match match_here items s with
  | Some groups => Some groups
  | None =>
      match s with
      | EmptyString => None
      | String _ s' => search items s'
      end
  end.

Definition lit (c : ascii) : item := Rep (Ascii.eqb c) 1 (Some 1%nat) Greedy false.
Definition digits (lo hi : nat) : item := Rep Text.is_digit lo (Some hi) Greedy false.
Definition space : item := Rep Text.is_space 1 (Some 1%nat) Greedy false.

(** [\d{1,2}/\d{1,2}/\d{2,4},\s\d{1,2}:\d{2}.*-\s], item by item *)
Definition wa_pattern : list item :=
  [ digits 1 2; lit "/"; digits 1 2; lit "/"; digits 2 4; lit ","; space;
    digits 1 2; lit ":"; digits 2 2;
    Rep Text.not_newline 0 None Greedy false; lit "-"; space ].

(** [wa_pattern] followed by a lazy captured [.*?] and [:] *)
Definition msg_pattern : list item :=
  wa_pattern ++ [ Rep Text.not_newline 0 None Lazy true; lit ":" ].

(** [^], [wa_pattern], a lazy captured [.*?], [:], [\s], a greedy captured
    [.*] and [$]; used with [re.match], which already anchors at the start.
    The pattern has no letter, so [re.IGNORECASE] changes nothing. *)
Definition fp_pattern : list item :=
  wa_pattern
  ++ [ Rep Text.not_newline 0 None Lazy true; lit ":"; space;
       Rep Text.not_newline 0 None Greedy true; Eos ].

End Re.

(** ** Files and directories *)

(** A regular file that opens and decodes: [text] is what [read()] returns in
    text mode, [parsed] is what [json.load] makes of it, [None] when
    [json.load] raises. *)
Record file := { text : string; parsed : option json }.

(** An entry of a directory: a readable file; a file that [open] refuses; a
    file that opens but is not UTF-8 throughout, so that reading it whole
    raises, with what [f.read(4096)] returns of it ([None] when that raises
    as well); or a directory with its listing in [iterdir] order. *)
Inductive node :=
| File (f : file)
| Locked
| Garbled (head : option string)
| Dir (entries : list (string * node)).

Module FS.

(** [path / name] below a directory listing; [None] when nothing is there. *)
Definition child (entries : list (string * node)) (name : string) : option node :=
  Py.assoc name entries.

(** The listing of [path / name / ...]: empty unless it is a directory. *)
Definition listing (n : option node) : list (string * node) :=
  match n with Some (Dir es) => es | _ => [] end.

Definition is_dir (n : option node) : bool :=
  match n with Some (Dir _) => true | _ => false end.

Definition exists_ (n : option node) : bool :=
  match n with Some _ => true | None => false end.

(** The node at [n / name1 / ... / namek]. *)
Fixpoint walk (n : option node) (path : list string) : option node :=
  match path with
  | [] => n
  | name :: path' => walk (child (listing n) name) path'
  end.

(** [path.iterdir()] raises unless [path] is a directory. *)
Definition iterdir (n : option node) : result (list (string * node)) :=
  match n with Some (Dir es) => Ok es | _ => Raise end.

(** [open(path, 'r', encoding='utf-8')] then [f.read()]. *)
Definition read (n : option node) : result string :=
  match n with Some (File f) => Ok (text f) | _ => Raise end.

(** [open(path, 'r', encoding='utf-8')] then [f.read(4096)]. *)
Definition read_head (n : option node) : result string :=
  match n with
  | Some (File f) => Ok (Text.take 4096 (text f))
  | Some (Garbled (Some head)) => Ok head
  | _ => Raise
  end.

(** [open(path, 'r', encoding='utf-8')] then [json.load(f)]. *)
Definition json_load (n : option node) : result json :=
  match n with
  | Some (File f) => match parsed f with Some j => Ok j | None => Raise end
  | _ => Raise
  end.

(** A path that [open] refuses: nothing is there, the file cannot be
    opened, or it is a directory. *)
Definition unopenable (n : option node) : bool :=
  match n with
  | None | Some Locked | Some (Dir _) => true
  | Some (File _) | Some (Garbled _) => false
  end.

End FS.

(** ** FormatClassifier and participant extractors (processor.py) *)

Module Processor.

Definition participants_marker : string := quoted "participants" +:+ ":".
Definition messages_marker : string := quoted "messages" +:+ ":".

(** The part of [classify_file] after the prefix has been read. *)
Definition classify_content (content : string) : string :=
  let content_stripped := Text.strip content in
  if (String.prefix "{" content_stripped || String.prefix "[" content_stripped)
     && (Py.contains participants_marker content
         && Py.contains messages_marker content)
  then "Instagram"
  else if bool_decide (is_Some (Re.search Re.wa_pattern content))
  then "WhatsApp"
  else "NULL".

(** [classify_file(file_path)]: the whole body is inside [try], and
    [except Exception] returns ['NULL']. *)
Definition classify_file (path : option node) : string :=
  try_except
    (content ← FS.read_head path;
     Ok (classify_content content))
    "NULL".

(** The [for p in data['participants']] loop; an exception ends it and
    leaves the set as it is. *)
Fixpoint add_names (ps : list json) (participants : list json) : list json :=
  match ps with
  | [] => participants
  | p :: ps' =>
      match (has ← Py.contains_key "name" p;
             if has : bool then v ← Py.getitem p "name"; Py.set_add v participants
             else Ok participants) with
      | Ok participants' => add_names ps' participants'
      | Raise => participants
      end
  end.

(** The [for line in lines] loop of the WhatsApp branch. *)
Fixpoint add_senders (lines : list string) (participants : list json) : list json :=
  match lines with
  | [] => participants
  | line :: lines' =>
      match Re.search Re.msg_pattern line with
      | Some (sender :: _) =>
          add_senders lines' (Py.set_insert (JStr sender) participants)
      | _ => add_senders lines' participants
      end
  end.

(** The set [participants] when the [try] block is left. *)
Definition collect_participants (path : option node) (file_type : string)
  : list json :=
  if String.eqb file_type "Instagram" then
    match FS.json_load path with
    | Raise => []
    | Ok data =>
        match (has ← Py.contains_key "participants" data;
               if has : bool then ps ← Py.getitem data "participants"; Py.iter ps
               else Ok []) with
        | Ok ps => add_names ps []
        | Raise => []
        end
    end
  else if String.eqb file_type "WhatsApp" then
    match FS.read path with
    | Raise => []
    | Ok whole => add_senders (Text.readlines whole) []
    end
  else [].

(** [extract_participants(file_path, file_type)]: [sorted] runs after the
    [try] block, so its [TypeError] on names of mixed types escapes. *)
Definition extract_participants (path : option node) (file_type : string)
  : result (list json) :=
  Py.sorted_by_key Ok (collect_participants path file_type).

End Processor.

(** ** FingerprintEngine: [extract_message_fingerprints] (api.py)

    api.py imports [classify_file] from its module [processor]; the
    classifier of processor.py above stands for it. *)

Module Fingerprint.
Section with_hash.

(** [hashlib.md5(f"{sender}:{content}".encode()).hexdigest()[:12]] *)
Context (md5_hex12 : json → json → string).

(** [l[:n] + l[-n:]] for [n >= 0]; [l[-0:]] is all of [l]. *)
Definition boundary {A} (n : nat) (l : list A) : list A :=
  take n l ++ (if (n =? 0)%nat then l else drop (length l - n) l).

(** The [for msg in boundary] loop of the Instagram branch; an exception
    ends it and leaves the set as it is. *)
Fixpoint add_fingerprints (msgs : list json) (fingerprints : gset string)
  : gset string :=
  match msgs with
  | [] => fingerprints
  | msg :: msgs' =>
      match (sender ← Py.get msg "sender_name" (JStr "");
             content ← Py.get msg "content" (JStr "");
             Ok (sender, content)) with
      | Ok (sender, content) =>
          add_fingerprints msgs'
            (if Py.truthy content then {[ md5_hex12 sender content ]} ∪ fingerprints
             else fingerprints)
      | Raise => fingerprints
      end
  end.

(** The lines that [re.match] the message pattern, as [(sender, content)]. *)
Fixpoint msg_lines (lines : list string) : list (string * string) :=
  match lines with
  | [] => []
  | line :: lines' =>
      match Re.re_match Re.fp_pattern line with
      | Some [sender; content] => (sender, content) :: msg_lines lines'
      | _ => msg_lines lines'
      end
  end.

(** The [for sender, content in boundary] loop of the WhatsApp branch. *)
Definition add_line_fingerprints (pairs : list (string * string))
    (fingerprints : gset string) : gset string :=
  foldl (λ fps '(sender, content),
           if Py.truthy (JStr content)
           then {[ md5_hex12 (JStr sender) (JStr content) ]} ∪ fps else fps)
        fingerprints pairs.

(** [messages[:n] + messages[-n:]] on what [data.get('messages', [])]
    returned: a list or a string can be sliced. *)
Definition boundary_of (n : nat) (messages : json) : result (list json) :=
  match messages with
  | JArr l => Ok (boundary n l)
  | JStr s => Ok (boundary n (Py.chars s))
  | _ => Raise
  end.

(** [extract_message_fingerprints(file_path, n)], for [n >= 0]. *)
Definition extract_message_fingerprints (path : option node) (n : nat)
  : gset string :=
  let detected_type := Processor.classify_file path in
  if String.eqb detected_type "Instagram" then
    match (data ← FS.json_load path;
           messages ← Py.get data "messages" (JArr []);
           boundary_of n messages) with
    | Ok msgs => add_fingerprints msgs ∅
    | Raise => ∅
    end
  else if String.eqb detected_type "WhatsApp" then
    match FS.read path with
    | Ok whole =>
        add_line_fingerprints (boundary n (msg_lines (Text.readlines whole))) ∅
    | Raise => ∅
    end
  else ∅.

End with_hash.
End Fingerprint.

(** ** Vendor A: instagram_zip_processor.py *)

Module Instagram.

(** Does [name] match the glob [message_*.json]. *)
Definition glob_message (name : string) : bool :=
  String.prefix "message_" name && Text.ends_with ".json" name
  && (13 <=? String.length name)%nat.

(** [folder_path.glob("message_*.json")], in listing order. *)
Definition glob_messages (folder : option node) : list (string * node) :=
  filter (λ e, glob_message e.1 = true) (FS.listing folder).

(** [x.stem] for a name that ends in [.json]. *)
Definition stem (name : string) : string :=
  Text.take (String.length name - 5) name.

(** The sort key [int(x.stem.split('_')[1])]. *)
Definition file_number (name : string) : result Z :=
  match Text.split "_" (stem name) with
  | _ :: x :: _ => Text.int x
  | _ => Raise
  end.

(** The body of the [for msg_file in message_files] loop of the merger: a
    file that cannot be read contributes nothing. *)
Definition read_messages (all_messages : list json) (msg_file : string * node)
  : list json :=
  try_except
    (data ← FS.json_load (Some msg_file.2);
     messages ← Py.get data "messages" (JArr []);
     items ← Py.iter messages;
     Ok (all_messages ++ items))
    all_messages.

Definition collect_messages (message_files : list (string * node)) : list json :=
  foldl read_messages [] message_files.

(** The key of [all_messages.sort]. *)
Definition timestamp_key (x : json) : result json :=
  Py.get x "timestamp_ms" (JNum 0).

(** The message files in reading order: highest number first. *)
Definition message_files (folder : option node) : result (list (string * node)) :=
  keyed ← mapM_result (λ e, k ← file_number e.1; Ok (k, e)) (glob_messages folder);
  Ok (snd <$> Py.sort_by_reverse Z.ltb fst keyed).

(** The file the merged record starts from. *)
Definition base_file (folder : option node) (files : list (string * node))
  : option node :=
  match FS.child (FS.listing folder) "message_1.json" with
  | Some n => Some n
  | None => snd <$> last files
  end.

(** [merge_conversation_messages(folder_path)] *)
Definition merge_conversation_messages (folder : option node)
  : result (option json) :=
  files ← message_files folder;
  match files with
  | [] => Ok None
  | _ =>
      combined_data ← FS.json_load (base_file folder files);
      all_messages ← Py.sorted_by_key timestamp_key (collect_messages files);
      combined_data ← Py.setitem combined_data "messages" (JArr all_messages);
      Ok (Some combined_data)
  end.

Record preview := {
  preview_display_name : string;
  preview_participants : list json;
  preview_message_count : nat;
}.

Record conversation := {
  folder_name : string;
  display_name : string;
  path : list string;
  participants : list json;
  message_count : nat;
}.

Section with_codec.

(** [name.encode('latin-1').decode('utf-8')] on a [str], the name itself
    when either step raises. *)
Context (fix_mojibake : string → string).

Definition repair (name : json) : json :=
  match name with JStr s => JStr (fix_mojibake s) | _ => name end.

(** The message count of the preview: unreadable files count for 0. *)
Definition count_messages (folder : option node) : nat :=
  foldl (λ message_count msg_file,
           try_except
             (msg_data ← FS.json_load (Some msg_file.2);
              messages ← Py.get msg_data "messages" (JArr []);
              k ← Py.len messages;
              Ok (message_count + k)%nat)
             message_count)
        0%nat (glob_messages folder).

Definition preview_name (participants : list json) : result string :=
  display_name ← Text.join ", " (take 2 participants);
  Ok (if bool_decide (2 < length participants)%nat
      then display_name +:+ " +" +:+ pretty (length participants - 2)%nat
      else display_name).

(** [get_conversation_preview(folder_path)] *)
Definition get_conversation_preview (folder : option node) : option preview :=
  let message_1 := FS.child (FS.listing folder) "message_1.json" in
  if negb (FS.exists_ message_1) then None
  else
    match (data ← FS.json_load message_1;
           has ← Py.contains_key "participants" data;
           participants ←
             (if has : bool then
                ps ← Py.getitem data "participants";
                items ← Py.iter ps;
                mapM_result
                  (λ p, name ← Py.get p "name" (JStr "Unknown"); Ok (repair name))
                  items
              else Ok []);
           let message_count := count_messages folder in
           display_name ← preview_name participants;
           Ok {| preview_display_name := display_name;
                 preview_participants := participants;
                 preview_message_count := message_count |}) with
    | Ok p => Some p
    | Raise => None
    end.

(** [find_inbox_path(extracted_path)]: the candidate paths in order, and
    the first that is a directory. *)
Definition inbox_patterns (top : list (string * node)) : list (list string) :=
  ["your_instagram_activity"; "messages"; "inbox"]
  :: flat_map (λ item,
       if FS.is_dir (Some item.2)
       then [ [item.1; "your_instagram_activity"; "messages"; "inbox"];
              [item.1; "messages"; "inbox"] ]
       else []) top.

Definition find_inbox_path (extracted : option node) : result (option (list string)) :=
  top ← FS.iterdir extracted;
  Ok (List.find (λ pattern, FS.is_dir (FS.walk extracted pattern))
                (inbox_patterns top)).

(** The body of the [for folder in inbox_path.iterdir()] loop. *)
Definition conversation_of (inbox : list string) (folder : string * node)
  : option conversation :=
  if negb (FS.is_dir (Some folder.2)) then None
  else match glob_messages (Some folder.2) with
       | [] => None
       | _ =>
           p ← get_conversation_preview (Some folder.2);
           Some {| folder_name := folder.1;
                   display_name := preview_display_name p;
                   path := inbox ++ [folder.1];
                   participants := preview_participants p;
                   message_count := preview_message_count p |}
       end.

(** [find_conversations(extracted_path)] *)
Definition find_conversations (extracted : option node)
  : result (list conversation) :=
  inbox_path ← find_inbox_path extracted;
  match inbox_path with
  | None => Ok []
  | Some inbox =>
      let conversations :=
        omap (conversation_of inbox) (FS.listing (FS.walk extracted inbox)) in
      Ok (Py.sort_by_reverse Z.ltb (λ x, Z.of_nat (message_count x)) conversations)
  end.

End with_codec.

(** What the spec says of a vendor-A export, as far as the merger reads it. *)

(** A message: an object whose [timestamp_ms], when there is one, is an
    integer. *)
Definition is_message (m : json) : bool :=
  match m with
  | JObj fields =>
      bool_decide (is_Some (Py.as_int (default (JNum 0) (Py.assoc "timestamp_ms" fields))))
  | _ => false
  end.

(** The [timestamp_ms] of a message, [0] without one. *)
Definition timestamp (m : json) : Z :=
  match m with
  | JObj fields => default 0 (Py.as_int (default (JNum 0) (Py.assoc "timestamp_ms" fields)))
  | _ => 0
  end.

(** The message array of a message file: the file holds an object, and its
    [messages], when there are any, are a list of messages. *)
Definition message_array (n : node) : option (list json) :=
  match FS.json_load (Some n) with
  | Ok (JObj fields) =>
      match default (JArr []) (Py.assoc "messages" fields) with
      | JArr msgs => if forallb is_message msgs then Some msgs else None
      | _ => None
      end
  | _ => None
  end.

(** A numbered message file. *)
Definition numbered_message_file (e : string * node) : Prop :=
  (∃ k, file_number e.1 = Ok k) ∧ is_Some (message_array e.2).

(** A vendor-A conversation folder: whatever matches [message_*.json] in it
    is a numbered message file. *)
Definition vendorA_folder (folder : option node) : Prop :=
  Forall numbered_message_file (glob_messages folder).

(** A participant entry whose name, ['Unknown'] without one, is a string. *)
Definition named_participant (p : json) : bool :=
  match p with
  | JObj fields =>
      match default (JStr "Unknown") (Py.assoc "name" fields) with
      | JStr _ => true
      | _ => false
      end
  | _ => false
  end.

(** The folder has a [message_1.json] that holds an object whose
    [participants], when there are any, are a list of named participants. *)
Definition readable_first_file (folder : option node) : bool :=
  match FS.json_load (FS.child (FS.listing folder) "message_1.json") with
  | Ok (JObj fields) =>
      match Py.assoc "participants" fields with
      | None => true
      | Some (JArr ps) => forallb named_participant ps
      | Some _ => false
      end
  | _ => false
  end.

(** The message arrays of all the numbered files, one after the other. *)
Definition all_message_arrays (folder : option node) : list json :=
  flat_map (λ e, default [] (message_array e.2)) (glob_messages folder).

End Instagram.

(** ** Vendor B: discord_zip_processor.py *)

Module Discord.

Definition dm_prefix : string := "Direct Message with ".

(** [find_messages_path(extracted_path)] *)
Definition find_messages_path (extracted : option node)
  : result (option (list string)) :=
  if FS.exists_ (FS.walk extracted ["messages"]) then Ok (Some ["messages"])
  else if FS.exists_ (FS.walk extracted ["Messages"]) then Ok (Some ["Messages"])
  else
    top ← FS.iterdir extracted;
    Ok (List.find (λ pattern, FS.exists_ (FS.walk extracted pattern))
          (flat_map (λ item,
             if FS.is_dir (Some item.2)
             then [ [item.1; "messages"]; [item.1; "Messages"] ] else []) top)).

(** [load_index_json(messages_path)] *)
Definition load_index_json (messages_path : option node) : json :=
  let index_path := FS.child (FS.listing messages_path) "index.json" in
  if negb (FS.exists_ index_path) then JObj []
  else try_except (FS.json_load index_path) (JObj []).

(** The [for msg in messages] loop of [build_user_id_map]; an exception
    ends it and leaves the map as it is. *)
Fixpoint add_authors (messages : list json) (user_map : list (string * json))
  : list (string * json) :=
  match messages with
  | [] => user_map
  | msg :: messages' =>
      match Py.get msg "Author" JNull with
      | Raise => user_map
      | Ok (JObj author) =>
          let user_id := default JNull (Py.assoc "ID" author) in
          let username := default JNull (Py.assoc "Username" author) in
          add_authors messages'
            (if Py.truthy user_id && Py.truthy username
             then Py.assoc_set (Py.str user_id) username user_map
             else user_map)
      | Ok _ => add_authors messages' user_map
      end
  end.

(** [build_user_id_map(messages_json_path)] *)
Definition build_user_id_map (messages_json : option node) : list (string * json) :=
  if negb (FS.exists_ messages_json) then []
  else match (messages ← FS.json_load messages_json; Py.iter messages) with
       | Ok messages => add_authors messages []
       | Raise => []
       end.

Record conversation := {
  folder_name : string;
  display_name : string;
  path : list string;
  message_count : nat;
  channel_id : json;
}.

(** [display_name[20:]] when the name starts with the prefix. *)
Definition strip_dm_prefix (display_name : string) : string :=
  if String.prefix dm_prefix display_name then Text.drop 20 display_name
  else display_name.

(** [len(json.load(messages.json))], [0] when the file is missing or the
    guarded block raises. *)
Definition count_messages (folder : option node) : nat :=
  let messages_json := FS.child (FS.listing folder) "messages.json" in
  if FS.exists_ messages_json
  then try_except (messages ← FS.json_load messages_json; Py.len messages) 0%nat
  else 0%nat.

(** The [try] block of the loop of [find_dm_conversations]: [Ok None] is
    [continue]. *)
Definition read_channel (index : json) (messages_path : list string)
    (folder : string * node) : result (option conversation) :=
  channel_data ← FS.json_load (FS.child (FS.listing (Some folder.2)) "channel.json");
  channel_type ← Py.get channel_data "type" (JStr "");
  if negb (Py.eqb channel_type (JStr "DM")) then Ok None
  else
    channel_id ← Py.get channel_data "id" (JStr (Text.drop 1 folder.1));
    let message_count := count_messages (Some folder.2) in
    display_name ← Py.get_value index channel_id (JStr ("DM " +:+ Py.str channel_id));
    has_prefix ← Py.startswith display_name dm_prefix;
    let display_name :=
      if has_prefix : bool then Text.drop 20 (Py.str display_name)
      else Py.str display_name in
    Ok (Some {| folder_name := folder.1;
                display_name := display_name;
                path := messages_path ++ [folder.1];
                message_count := message_count;
                channel_id := channel_id |}).

(** The body of the [for folder in messages_path.iterdir()] loop. *)
Definition conversation_of (index : json) (messages_path : list string)
    (folder : string * node) : option conversation :=
  if negb (FS.is_dir (Some folder.2)) then None
  else if negb (String.prefix "c" folder.1) then None
  else if negb (FS.exists_ (FS.child (FS.listing (Some folder.2)) "channel.json"))
  then None
  else try_except (read_channel index messages_path folder) None.

(** [find_dm_conversations(extracted_path)] *)
Definition find_dm_conversations (extracted : option node)
  : result (list conversation) :=
  messages_path ← find_messages_path extracted;
  match messages_path with
  | None => Ok []
  | Some mp =>
      let index := load_index_json (FS.walk extracted mp) in
      folders ← FS.iterdir (FS.walk extracted mp);
      let conversations := omap (conversation_of index mp) folders in
      Ok (Py.sort_by_reverse Z.ltb (λ x, Z.of_nat (message_count x)) conversations)
  end.

Definition warning_text : string :=
  "This Discord export uses an older format without sender information. "
  +:+ "All messages will appear as 'Discord_User'. For proper AI training, "
  +:+ "request a new data export from Discord which includes Author data.".

Definition name_entry (name : json) : json := JObj [("name", name)].

(** The first loop over [user_id_map.items()]: the participants and the set
    of names seen; a name that cannot be hashed raises. *)
Fixpoint add_usernames (items : list (string * json))
    (participants seen_names : list json) : result (list json * list json) :=
  match items with
  | [] => Ok (participants, seen_names)
  | (_, username) :: items' =>
      if Py.hashable username then
        if existsb (Py.eqb username) seen_names
        then add_usernames items' participants seen_names
        else add_usernames items' (participants ++ [name_entry username])
               (seen_names ++ [username])
      else Raise
  end.

(** The fallback that reads the other party from the index. *)
Definition index_participants (index_map : json) (channel_json : option node)
  : result (list json) :=
  channel_data ← FS.json_load channel_json;
  channel_id ← Py.get channel_data "id" (JStr "");
  if Py.truthy channel_id then
    display_name ← Py.get index_map (Py.str channel_id) (JStr "");
    has_prefix ← Py.startswith display_name dm_prefix;
    if has_prefix : bool then
      let username := Text.drop 20 (Py.str display_name) in
      let username :=
        if Py.contains "#" username then Text.rsplit1_head "#" username
        else username in
      let named :=
        if negb (String.eqb username EmptyString) then [name_entry (JStr username)]
        else [] in
      Ok (if String.eqb username "Me" then named
          else named ++ [name_entry (JStr "Me")])
    else Ok []
  else Ok [].

Section with_clock.

(** [int(datetime.strptime(s, "%Y-%m-%d %H:%M:%S").timestamp() * 1000)] in
    the local time zone, [None] when [strptime] raises. *)
Context (strptime_ms : string → option Z).

Definition timestamp_ms (timestamp_str : json) : Z :=
  match timestamp_str with
  | JStr s => default 0 (strptime_ms s)
  | _ => 0
  end.

(** The sender of one message. *)
Definition sender_of (msg : list (string * json)) : json :=
  match Py.assoc "Author" msg with
  | Some (JObj author) =>
      default (default (JStr "Unknown") (Py.assoc "ID" author))
              (Py.assoc "Username" author)
  | Some author => JStr (Py.str author)
  | None => JStr "Discord_User"
  end.

Definition converted (sender content : json) (ts : Z) : json :=
  JObj [("sender_name", sender); ("content", content); ("timestamp_ms", JNum ts)].

(** The body of the [for msg in discord_messages] loop: [Ok None] is
    [continue]; [msg.get] raises on anything but a [dict]. *)
Definition convert_message (msg : json) : result (option json) :=
  match msg with
  | JObj fields =>
      let content := default (JStr "") (Py.assoc "Contents" fields) in
      if negb (Py.truthy content) then Ok None
      else
        let timestamp_str := default (JStr "") (Py.assoc "Timestamp" fields) in
        Ok (Some (converted (sender_of fields) content (timestamp_ms timestamp_str)))
  | _ => Raise
  end.

Definition convert_messages (discord_messages : list json) : result (list json) :=
  match mapM_result convert_message discord_messages with
  | Ok kept => Ok (omap id kept)
  | Raise => Raise
  end.

(** [msg.get('sender_name') not in ['Unknown', 'Discord_User', None]] *)
Definition real_sender (msg : json) : bool :=
  let sender := try_except (Py.get msg "sender_name" JNull) JNull in
  negb (existsb (Py.eqb sender) [JStr "Unknown"; JStr "Discord_User"; JNull]).

(** The key of [instagram_messages.sort]: always an [int] here. *)
Definition converted_timestamp (msg : json) : Z :=
  match try_except (Py.getitem msg "timestamp_ms") JNull with
  | JNum z => z
  | _ => 0
  end.

(** The [try] block of [convert_discord_to_instagram_format]. *)
Definition convert_body (parent : option node) (folder : option node)
  : result json :=
  let messages_json := FS.child (FS.listing folder) "messages.json" in
  let channel_json := FS.child (FS.listing folder) "channel.json" in
  discord_messages ← FS.json_load messages_json;
  let index_map := load_index_json parent in
  let user_id_map := build_user_id_map messages_json in
  '(participants, seen_names) ← add_usernames user_id_map [] [];
  participants ←
    (match participants with
     | [] => if FS.exists_ channel_json
             then index_participants index_map channel_json
             else Ok []
     | _ => Ok participants
     end);
  let participants :=
    match participants with
    | [] => [name_entry (JStr "Discord_User")]
    | _ => participants
    end in
  msgs ← Py.iter discord_messages;
  instagram_messages ← convert_messages msgs;
  let has_sender_info := existsb real_sender instagram_messages in
  let instagram_messages :=
    reverse (Py.sort_by Z.ltb converted_timestamp instagram_messages) in
  let result :=
    [("participants", JArr participants);
     ("messages", JArr instagram_messages);
     ("has_sender_info", JBool has_sender_info)] in
  Ok (JObj (if has_sender_info then result
            else result ++ [("warning", JStr warning_text)])).

(** [convert_discord_to_instagram_format(folder_path)], with
    [parent = folder_path.parent]. *)
Definition convert_discord_to_instagram_format (parent folder : option node)
  : option json :=
  if negb (FS.exists_ (FS.child (FS.listing folder) "messages.json")) then None
  else match convert_body parent folder with
       | Ok r => Some r
       | Raise => None
       end.

End with_clock.

(** What the spec says of a vendor-B export, as far as the locator reads it. *)

(** A channel folder (a directory whose name starts with [c]) whose
    descriptor [channel.json] holds an object of type [DM]. *)
Definition tagged_dm (e : string * node) : bool :=
  FS.is_dir (Some e.2) && String.prefix "c" e.1
  && match FS.json_load (FS.child (FS.listing (Some e.2)) "channel.json") with
     | Ok (JObj fields) =>
         Py.eqb (default (JStr "") (Py.assoc "type" fields)) (JStr "DM")
     | _ => false
     end.

(** The channel id of a channel folder: the [id] of its descriptor, the
    folder name without its first character when there is none. *)
Definition channel_id_of (e : string * node) : json :=
  match FS.json_load (FS.child (FS.listing (Some e.2)) "channel.json") with
  | Ok (JObj fields) => default (JStr (Text.drop 1 e.1)) (Py.assoc "id" fields)
  | _ => JNull
  end.


(** The name the index gives a channel id: its entry when that is a string,
    ["DM "] followed by the id when it has no entry; no name when the entry
    is not a string, when the id cannot be a key (a list or an object), or
    when the index is not an object. *)
Definition index_name (index channel_id : json) : option string :=
  match index with
  | JObj o =>
      match channel_id with
      | JArr _ | JObj _ => None
      | JStr k =>
          match Py.assoc k o with
          | Some (JStr s) => Some s
          | Some _ => None
          | None => Some ("DM " +:+ k)
          end
      | _ => Some ("DM " +:+ Py.str channel_id)
      end
  | _ => None
  end.

(** The number of messages a channel folder stores: the length of what
    [messages.json] holds, [0] when it is missing, cannot be parsed or has
    no length. *)
Definition stored_messages (e : string * node) : nat :=
  match FS.json_load (FS.child (FS.listing (Some e.2)) "messages.json") with
  | Ok (JArr messages) => length messages
  | Ok (JObj fields) => length fields
  | Ok (JStr s) => String.length s
  | _ => 0%nat
  end.

(** A direct-message channel folder that the index can name. *)
Definition named_dm (index : json) (e : string * node) : bool :=
  tagged_dm e && bool_decide (is_Some (index_name index (channel_id_of e))).

End Discord.

(** ** Archive extraction: [extract_zip] (both processors, same code) *)

Module Zip.

(** [TEMP_ZIP_DIR / zip_id] names an entry of [TEMP_ZIP_DIR] when [zip_id]
    is a single path component, as the identifiers of the callers are
    ([uuid4().hex[:12]]).  Any other identifier (['.'], ['..'], ['a/b'], an
    absolute path) names another place of the file system, which this model
    of [TEMP_ZIP_DIR] does not reach. *)
Definition plain_name (zip_id : string) : bool :=
  negb (String.eqb zip_id EmptyString)
  && negb (String.eqb zip_id ".") && negb (String.eqb zip_id "..")
  && negb (Py.contains "/" zip_id)
  && negb (Py.contains (String (ascii_of_nat 0) EmptyString) zip_id).

(** The entries of [TEMP_ZIP_DIR], by name. *)
Abbreviation entries := (gmap string node).

(** [TEMP_ZIP_DIR]: [None] when it does not exist, else its entries.  The
    module creates it when it is imported, so it is never a file. *)
Abbreviation temp_dir := (option (gmap string node)).

(** [if extract_dir.exists(): shutil.rmtree(extract_dir)]: [rmtree] raises
    on what is not a directory, and removes nothing then. *)
Definition clean_up (name : string) (temp : entries) : result entries :=
  match temp !! name with
  | None => Ok temp
  | Some (Dir _) => Ok (delete name temp)
  | Some _ => Raise
  end.

(** [extract_dir.mkdir(parents=True)]: raises when the path exists. *)
Definition mkdir (name : string) (temp : entries) : result entries :=
  match temp !! name with
  | None => Ok (<[name := Dir []]> temp)
  | Some _ => Raise
  end.

Section with_zipfile.

(** What [zipfile.ZipFile(zip_path, 'r')] gives for an archive it accepts. *)
Context {zipfile : Type}.

(** [zip_ref.extractall(extract_dir)], a library function that writes below
    [extract_dir] only: the listing of [extract_dir] afterwards, from the
    archive and the listing before, and whether the call raised. *)
Context (extractall :
  zipfile → list (string * node) → list (string * node) * result unit).

(** The file at [zip_path]: [None] when [zipfile.ZipFile] rejects it. *)
Definition archive := option zipfile.

(** [with zipfile.ZipFile(zip_path, 'r') as zip_ref:
     zip_ref.extractall(extract_dir)] *)
Definition unpack (zip : archive) (name : string) (temp : entries)
  : entries * result unit :=
  match zip with
  | None => (temp, Raise)
  | Some z =>
      let unpacked := extractall z (FS.listing (temp !! name)) in
      (<[name := Dir unpacked.1]> temp, unpacked.2)
  end.

(** [extract_zip(zip_path, zip_id)] for an identifier that names an entry
    of [TEMP_ZIP_DIR]: the new state of [TEMP_ZIP_DIR], and the name of the
    returned directory below it or the exception. *)
Definition extract_zip (zip : archive) (zip_id : string) (temp : temp_dir)
  : option (temp_dir * result string) :=
  if plain_name zip_id then
    Some
      match clean_up zip_id (default ∅ temp) with
      | Raise => (temp, Raise)
      | Ok cleaned =>
          match mkdir zip_id cleaned with
          | Raise => (Some cleaned, Raise)
          | Ok made =>
              let unpacked := unpack zip zip_id made in
              (Some unpacked.1,
               match unpacked.2 with Ok _ => Ok zip_id | Raise => Raise end)
          end
      end
  else None.

End with_zipfile.

(** Nothing at the path, or a directory: what [rmtree] accepts. *)
Definition free_or_directory (n : option node) : bool :=
  match n with
  | None | Some (Dir _) => true
  | _ => false
  end.

End Zip.

(** The number of a numbered message file, [0] for any other name. *)
Definition number_of (e : string * node) : Z :=
  try_except (Instagram.file_number e.1) 0.

(** The name a participant entry declares, when it is an object with a
    string under [name]. *)
Definition declared_name (p : json) : option string :=
  match p with
  | JObj fields =>
      match Py.assoc "name" fields with Some (JStr s) => Some s | _ => None end
  | _ => None
  end.

(** A participant entry as the exports have it: an object whose [name], when
    there is one, is a string. *)
Definition participant_entry (p : json) : bool :=
  match p with
  | JObj fields =>
      match Py.assoc "name" fields with Some (JStr _) | None => true | _ => false end
  | _ => false
  end.

(** Adding a name to a set of names kept as a list. *)
Definition add_name (l : list string) (s : string) : list string :=
  if bool_decide (s ∈ l) then l else l ++ [s].

(** The username a message gives to the user id [k]: that of its [Author]
    object, when its [ID] and its [Username] are both truthy. *)
Definition named_author (k : string) (msg : json) : option json :=
  match msg with
  | JObj fields =>
      match Py.assoc "Author" fields with
      | Some (JObj author) =>
          let user_id := default JNull (Py.assoc "ID" author) in
          let username := default JNull (Py.assoc "Username" author) in
          if Py.truthy user_id && Py.truthy username
             && String.eqb (Py.str user_id) k
          then Some username else None
      | _ => None
      end
  | _ => None
  end.

(** The inbox of an export that was unpacked without a wrapping folder. *)
Definition direct_inbox : list string :=
  ["your_instagram_activity"; "messages"; "inbox"].

(** ** Cleaning the temporary directory: [cleanup_zip], [cleanup_all_temp] *)

Module Cleanup.

(** [cleanup_zip(zip_id)], the same in both processors, for an identifier
    that names an entry of [TEMP_ZIP_DIR]: [shutil.rmtree] behind
    [if extract_dir.exists()]. *)
Definition cleanup_zip (zip_id : string) (temp : Zip.temp_dir)
  : option (Zip.temp_dir * result unit) :=
  if Zip.plain_name zip_id then
    Some
      match temp with
      | None => (None, Ok ())
      | Some entries =>
          match Zip.clean_up zip_id entries with
          | Ok cleaned => (Some cleaned, Ok ())
          | Raise => (temp, Raise)
          end
      end
  else None.

(** The body of the loop of [cleanup_all_temp]: [shutil.rmtree(item)] for a
    directory, [item.unlink()] for anything else. *)
Definition remove_item (temp : Zip.entries) (item : string * node) : Zip.entries :=
  if FS.is_dir (Some item.2) then delete item.1 temp
  else delete item.1 temp.

(** [cleanup_all_temp()]: behind [if TEMP_ZIP_DIR.exists()], the loop over
    [TEMP_ZIP_DIR.iterdir()]. *)
Definition cleanup_all_temp (temp : Zip.temp_dir) : Zip.temp_dir :=
  match temp with
  | None => None
  | Some entries => Some (foldl remove_item entries (map_to_list entries))
  end.

End Cleanup.

(** ** The fingerprints of the stored files: [get_existing_fingerprints] *)

Module Upload.
Section with_hash.
Context (md5_hex12 : json → json → string).

(** [file_path.is_file()]: an entry that cannot be opened is still a file;
    its fingerprints are empty either way. *)
Definition is_file (n : node) : bool :=
  match n with Dir _ => false | _ => true end.

(** The body of the [for file_path in folder.iterdir()] loop, with the
    default [n=20] of [extract_message_fingerprints], which does not raise. *)
Definition add_file (file_fingerprints : list (string * gset string))
    (entry : string * node) : list (string * gset string) :=
  if is_file entry.2 && negb (Text.ends_with ".meta.json" entry.1) then
    let fps := Fingerprint.extract_message_fingerprints md5_hex12 (Some entry.2) 20 in
    if decide (fps = ∅) then file_fingerprints
    else Py.assoc_set entry.1 fps file_fingerprints
  else file_fingerprints.

(** [get_existing_fingerprints(folder)]; [iterdir] is outside any [try]. *)
Definition get_existing_fingerprints (folder : option node)
  : result (list (string * gset string)) :=
  if negb (FS.exists_ folder) then Ok []
  else
    entries ← FS.iterdir folder;
    Ok (foldl add_file [] entries).

End with_hash.
End Upload.

(** ** Sample inputs *)

Module Samples.

(** Both markers, no opening brace. *)
Definition markers_only : file :=
  {| text := Processor.participants_marker +:+ " [], " +:+ Processor.messages_marker +:+ " []";
     parsed := None |}.

(** Both markers after a transcript line, no opening brace. *)
Definition markers_after_date : file :=
  {| text := "25/10/2025, 12:33 - Ami: " +:+ Processor.participants_marker
             +:+ " " +:+ Processor.messages_marker;
     parsed := None |}.

(** An export cut off in the middle: [json.load] raises on it. *)
Definition truncated_export : file :=
  {| text := "{" +:+ Processor.participants_marker +:+ " [], "
             +:+ Processor.messages_marker +:+ " [";
     parsed := None |}.

(** [json.dumps] for values whose strings need no escape. *)
Fixpoint dumps (j : json) : string :=
  match j with
  | JNull => "null"
  | JBool b => if b then "true" else "false"
  | JNum z => pretty z
  | JStr s => quoted s
  | JArr l =>
      "[" +:+ (fix items l :=
                 match l with
                 | [] => EmptyString
                 | [x] => dumps x
                 | x :: l' => dumps x +:+ ", " +:+ items l'
                 end) l +:+ "]"
  | JObj o =>
      "{" +:+ (fix fields o :=
                 match o with
                 | [] => EmptyString
                 | [(k, v)] => quoted k +:+ ": " +:+ dumps v
                 | (k, v) :: o' => quoted k +:+ ": " +:+ dumps v +:+ ", " +:+ fields o'
                 end) o +:+ "}"
  end.

(** The file that holds [j]. *)
Definition json_file (j : json) : node :=
  File {| text := dumps j; parsed := Some j |}.

(** A file whose text is not JSON. *)
Definition garbage_file : node :=
  File {| text := "not json"; parsed := None |}.

Definition msg (sender content : string) (ts : Z) : json :=
  JObj [("sender_name", JStr sender); ("content", JStr content);
        ("timestamp_ms", JNum ts)].

Definition export (names : list string) (messages : list json) : json :=
  JObj [("participants", JArr ((λ n, JObj [("name", JStr n)]) <$> names));
        ("messages", JArr messages)].

(** A complete export whose one message quotes a transcript line. *)
Definition export_quoting_transcript : node :=
  json_file (export [] [JObj [("content", JStr "25/10/2025, 12:33 - Ami: hi")]]).

Definition two_chunks_first : node :=
  json_file (export ["Ann"; "Bob"] [msg "Ann" "c" 300; msg "Bob" "d" 400]).

(** The folder of the spec: [message_1.json] holds the newer messages. *)
Definition two_chunks : node :=
  Dir [("message_1.json", two_chunks_first);
       ("message_2.json",
        json_file (export ["Ann"; "Bob"] [msg "Ann" "a" 100; msg "Bob" "b" 200]))].

(** A vendor-B message with an author. *)
Definition dmsg (user_id username : json) (contents timestamp : string) : json :=
  JObj [("ID", JNum 1); ("Timestamp", JStr timestamp); ("Contents", JStr contents);
        ("Author", JObj [("ID", user_id); ("Username", username)])].

Definition channel (id type : string) (messages : list json) : node :=
  Dir [("channel.json", json_file (JObj [("id", JStr id); ("type", JStr type)]));
       ("messages.json", json_file (JArr messages))].

(** One DM channel with two authors, and one server channel. *)
Definition discord_messages_dir : node :=
  Dir [("index.json",
        json_file (JObj [("111", JStr "Direct Message with bob#0");
                         ("222", JStr "general in Some Server")]));
       ("c111", channel "111" "DM"
                  [dmsg (JStr "7") (JStr "ann") "hello" "2025-06-16 09:24:12";
                   dmsg (JStr "8") (JStr "bob") "hi" "2025-06-16 09:25:00"]);
       ("c222", channel "222" "GUILD_TEXT"
                  [dmsg (JStr "7") (JStr "ann") "x" "2025-06-16 09:24:12";
                   dmsg (JStr "7") (JStr "ann") "y" "2025-06-16 09:24:13";
                   dmsg (JStr "7") (JStr "ann") "z" "2025-06-16 09:24:14"])].

Definition discord_archive : node := Dir [("messages", discord_messages_dir)].

(** An inbox with two folders that hold a numbered message file and are
    not listed: one has only [message_2.json], the other a [message_1.json]
    that is not JSON. *)
Definition unlisted_inbox : node :=
  Dir [("only_second",
        Dir [("message_2.json", json_file (export ["Ann"; "Bob"] [msg "Ann" "a" 100]))]);
       ("broken_first",
        Dir [("message_1.json", garbage_file);
             ("message_2.json", json_file (export ["Ann"; "Bob"] [msg "Ann" "a" 100]))])].

(** An inbox with two conversation folders of different sizes, in ascending
    order of size, between a folder without [message_1.json], a folder
    whose [message_1.json] is not JSON, and a file. *)
Definition mixed_inbox : node :=
  Dir [("cid_5",
        Dir [("message_2.json", json_file (export ["Cid"] [msg "Cid" "a" 100]))]);
       ("bob_9", Dir [("message_1.json", two_chunks_first)]);
       ("notes.txt", garbage_file);
       ("dee_7",
        Dir [("message_1.json", garbage_file);
             ("message_2.json", json_file (export ["Dee"] [msg "Dee" "a" 100]))]);
       ("ann_123", two_chunks)].

(** The units of [mixed_inbox]: the larger folder first. *)
Definition mixed_inbox_units : list Instagram.conversation :=
  [ {| Instagram.folder_name := "ann_123"; Instagram.display_name := "Ann, Bob";
       Instagram.path := ["your_instagram_activity"; "messages"; "inbox"; "ann_123"];
       Instagram.participants := [JStr "Ann"; JStr "Bob"];
       Instagram.message_count := 4 |};
    {| Instagram.folder_name := "bob_9"; Instagram.display_name := "Ann, Bob";
       Instagram.path := ["your_instagram_activity"; "messages"; "inbox"; "bob_9"];
       Instagram.participants := [JStr "Ann"; JStr "Bob"];
       Instagram.message_count := 2 |} ].

Definition archive_of (inbox : node) : node :=
  Dir [("your_instagram_activity", Dir [("messages", Dir [("inbox", inbox)])])].

(** A folder without [message_1.json], whose files name different
    participants. *)
Definition later_chunks : node :=
  Dir [("message_3.json", json_file (export ["Cid"] [msg "Cid" "a" 100]));
       ("message_2.json", json_file (export ["Ann"] [msg "Ann" "b" 200]))].

(** An inbox with the folder of the spec. *)
Definition listed_inbox : node := Dir [("ann_123", two_chunks)].

(** A DM channel whose only message has an author without a username. *)
Definition null_username_channel : node :=
  channel "111" "DM" [dmsg (JStr "7") JNull "a" "2025-06-16 09:24:12"].

(** A stand-in for the library's [extractall] on archives whose members
    are files with plain names: each member is written over what is
    there. *)
Definition write_members (members : list (string * node))
    (listing : list (string * node)) : list (string * node) * result unit :=
  (foldl (λ l m, Py.assoc_set m.1 m.2 l) listing members, Ok ()).

(** A temporary directory with an earlier extraction under [upload] and a
    neighbour. *)
Definition temp_with_upload : Zip.temp_dir :=
  Some {[ "upload" := Dir [("old.txt", garbage_file)];
          "other" := Dir [("kept.txt", garbage_file)] ]}.

(** A temporary directory where a regular file has the name [upload]. *)
Definition temp_with_file : Zip.temp_dir :=
  Some {[ "upload" := garbage_file;
          "other" := Dir [("kept.txt", garbage_file)] ]}.




(** A messages folder without index, with two DM channels. *)
Definition discord_no_index_archive : node :=
  Dir [("messages",
        Dir [("c111", channel "111" "DM"
                        [dmsg (JStr "7") (JStr "ann") "hello" "2025-06-16 09:24:12"]);
             ("c222", channel "222" "GUILD_TEXT" []);
             ("c333", channel "333" "DM"
                        [dmsg (JStr "7") (JStr "ann") "a" "2025-06-16 09:24:12";
                         dmsg (JStr "9") (JStr "cy") "b" "2025-06-16 09:24:13"])])].

(** A DM channel folder with its descriptor only. *)
Definition channel_without_messages : node :=
  Dir [("channel.json", json_file (JObj [("id", JStr "111"); ("type", JStr "DM")]))].

(** A DM channel in the older format: no message has an [Author]. *)
Definition old_format_channel : node :=
  channel "111" "DM"
    [JObj [("ID", JNum 1); ("Timestamp", JStr "2025-06-16 09:24:12");
           ("Contents", JStr "hello")];
     JObj [("ID", JNum 2); ("Timestamp", JStr "2025-06-16 09:25:00");
           ("Contents", JStr "hi")]].

(** A DM channel where the user [7] changes name, and one author has no
    name. *)
Definition renamed_author_channel : node :=
  channel "111" "DM"
    [dmsg (JStr "7") (JStr "ann") "hello" "2025-06-16 09:24:12";
     dmsg (JStr "8") JNull "hi" "2025-06-16 09:25:00";
     dmsg (JStr "7") (JStr "anna") "bye" "2025-06-16 09:26:00"].

(** A DM channel that holds the same message twice. *)
Definition repeated_channel : node :=
  channel "111" "DM"
    [dmsg (JStr "7") (JStr "ann") "hello" "2025-06-16 09:24:12";
     dmsg (JStr "7") (JStr "ann") "hello" "2025-06-16 09:24:12"].

(** A vendor-A folder with messages of one timestamp in both files,
    between an earlier and a later one. *)
Definition same_time_chunks : node :=
  Dir [("message_1.json",
        json_file (export ["Ann"; "Bob"; "Cy"]
                     [msg "Ann" "x" 100; msg "Bob" "y" 100; msg "Ann" "late" 200]));
       ("message_2.json",
        json_file (export ["Ann"; "Bob"; "Cy"]
                     [msg "Bob" "z" 100; msg "Cy" "early" 50]))].

(** A vendor-A folder whose two files hold the same message, one of them
    twice. *)
Definition repeated_chunks : node :=
  Dir [("message_1.json",
        json_file (export ["Ann"; "Bob"] [msg "Ann" "a" 100; msg "Ann" "a" 100]));
       ("message_2.json",
        json_file (export ["Ann"; "Bob"] [msg "Ann" "a" 100]))].

(** [strptime_ms] of a process whose local time zone is UTC, for timestamps
    written with all their digits ([YYYY-MM-DD HH:MM:SS], 19 characters):
    the days since 1970-01-01 by the civil calendar, then the time of day. *)
Definition field (s : string) (start len : nat) : option Z :=
  Text.digits_value 0 (Text.take len (Text.drop start s)).

Definition is_leap (y : Z) : bool :=
  (y mod 4 =? 0) && (negb (y mod 100 =? 0) || (y mod 400 =? 0)).

Definition days_in_month (y m : Z) : Z :=
  if m =? 2 then (if is_leap y then 29 else 28)
  else if (m =? 4) || (m =? 6) || (m =? 9) || (m =? 11) then 30
  else 31.

Definition days_from_civil (y m d : Z) : Z :=
  let y := if m <=? 2 then y - 1 else y in
  let era := y / 400 in
  let yoe := y - era * 400 in
  let doy := (153 * (if 2 <? m then m - 3 else m + 9) + 2) / 5 + d - 1 in
  let doe := yoe * 365 + yoe / 4 - yoe / 100 + doy in
  era * 146097 + doe - 719468.

Definition utc_clock (s : string) : option Z :=
  if negb ((String.length s =? 19)%nat
           && String.eqb (Text.take 1 (Text.drop 4 s)) "-"
           && String.eqb (Text.take 1 (Text.drop 7 s)) "-"
           && String.eqb (Text.take 1 (Text.drop 10 s)) " "
           && String.eqb (Text.take 1 (Text.drop 13 s)) ":"
           && String.eqb (Text.take 1 (Text.drop 16 s)) ":")
  then None
  else
    y ← field s 0 4; m ← field s 5 2; d ← field s 8 2;
    hh ← field s 11 2; mm ← field s 14 2; ss ← field s 17 2;
    if (1 <=? y) && (1 <=? m) && (m <=? 12) && (1 <=? d) && (d <=? days_in_month y m)
       && (hh <=? 23) && (mm <=? 59) && (ss <=? 59)
    then Some (1000 * (days_from_civil y m d * 86400 + hh * 3600 + mm * 60 + ss))
    else None.

End Samples.

(** * Theorems *)

(** ** DuplicateGate *)

Section GateFacts.
Import Gate.
Context (new : gset string) (threshold : float).

Lemma is_match_dec (cand : string * gset string) :
  {is_match new threshold cand} + {¬ is_match new threshold cand}.
Proof. unfold is_match. apply and_dec; [apply not_dec|]; apply _. Qed.

Lemma min_size_pos (fps : gset string) :
  new ≠ ∅ → fps ≠ ∅ → (0 < size new `min` size fps)%nat.
Proof.
  intros Hn Hf.
  assert (size new ≠ 0%nat) by (by rewrite size_non_empty_iff, leibniz_equiv_iff).
  assert (size fps ≠ 0%nat) by (by rewrite size_non_empty_iff, leibniz_equiv_iff).
  lia.
Qed.

(** One step of the loop, read through [is_match]. *)
Lemma scan_cons filename fps rest :
  new ≠ ∅ →
  scan new threshold ((filename, fps) :: rest) =
    if is_match_dec (filename, fps) then (true, Some filename)
    else scan new threshold rest.
Proof.
  intros Hn. cbn [scan].
  destruct (is_match_dec _) as [[Hne Hr]|Hno]; cbn [snd] in *.
  - rewrite decide_False by done.
    rewrite bool_decide_eq_true_2 by (by apply min_size_pos).
    by rewrite Hr.
  - destruct (decide (fps = ∅)) as [|Hne]; [done|].
    destruct (ratio_reaches _ _ _) eqn:Hr; [|by rewrite andb_false_r].
    destruct Hno. by split.
Qed.

Lemma scan_true items name :
  new ≠ ∅ →
  scan new threshold items = (true, Some name) ↔
  ∃ before fps after,
    items = before ++ (name, fps) :: after
    ∧ is_match new threshold (name, fps)
    ∧ Forall (λ c, ¬ is_match new threshold c) before.
Proof.
  intros Hn. induction items as [|[f fps] rest IH].
  - split; [done|]. intros (b & ? & ? & Hb & _). by destruct b.
  - rewrite scan_cons by done. destruct (is_match_dec _) as [Hm|Hno].
    + split.
      * intros [= <-]. exists [], fps, rest. split_and!; [done|done|constructor].
      * intros ([|c b] & fps' & a & Heq & Hm' & Hb); simplify_eq/=; [done|].
        by apply Forall_cons in Hb as [? _].
    + rewrite IH. split.
      * intros (b & fps' & a & -> & Hm & Hb).
        exists ((f, fps) :: b), fps', a. split_and!; [done|done|by constructor].
      * intros ([|c b] & fps' & a & Heq & Hm' & Hb); simplify_eq/=; try done.
        apply Forall_cons in Hb as [_ Hb]. by exists b, fps', a.
Qed.

Lemma scan_false items :
  new ≠ ∅ →
  scan new threshold items = (false, None) ↔
  Forall (λ c, ¬ is_match new threshold c) items.
Proof.
  intros Hn. induction items as [|[f fps] rest IH]; [by split|].
  rewrite scan_cons by done. destruct (is_match_dec _) as [Hm|Hno].
  - split; [done|]. by intros [? _]%Forall_cons.
  - rewrite IH. split; [by constructor|]. by intros [_ ?]%Forall_cons.
Qed.

Lemma scan_shape items :
  (∃ name, scan new threshold items = (true, Some name))
  ∨ scan new threshold items = (false, None).
Proof.
  induction items as [|[f fps] rest IH]; [by right|]. cbn [scan].
  repeat case_match; eauto.
Qed.
End GateFacts.

Section GateArithmetic.
Import Gate.

(** The binary64 test [overlap / min_size >= 0.8] against the exact one,
    for every pair of sizes up to 500. *)
Lemma ratio_table :
  forallb (λ m, forallb (λ o,
     Bool.eqb (PrimFloat.leb default_threshold
                 (PrimFloat.div (PrimFloat.of_uint63 (Uint63.of_Z o))
                                (PrimFloat.of_uint63 (Uint63.of_Z m))))
              (4 * m <=? 5 * o))
     (seqZ 0 (m + 1))) (seqZ 1 500) = true.
Proof. vm_compute. reflexivity. Qed.

Lemma ratio_reaches_exact (overlap min_size : nat) :
  (1 ≤ min_size ≤ 500)%nat → (overlap ≤ min_size)%nat →
  ratio_reaches overlap min_size default_threshold = true
  ↔ (4 * min_size ≤ 5 * overlap)%nat.
Proof.
  intros Hm Ho. pose proof ratio_table as Ht.
  rewrite forallb_forall in Ht.
  specialize (Ht (Z.of_nat min_size)). rewrite forallb_forall in Ht.
  specialize (Ht ltac:(apply list_elem_of_In, elem_of_seqZ; lia) (Z.of_nat overlap)
                 ltac:(apply list_elem_of_In, elem_of_seqZ; lia)).
  apply eqb_prop in Ht. unfold ratio_reaches, float_of_nat. rewrite Ht.
  rewrite Z.leb_le. lia.
Qed.

Lemma intersection_size_min (X Y : gset string) :
  (size (X ∩ Y) ≤ size X `min` size Y)%nat.
Proof.
  pose proof (subseteq_size (X ∩ Y) X (intersection_subseteq_l X Y)).
  pose proof (subseteq_size (X ∩ Y) Y (intersection_subseteq_r X Y)).
  lia.
Qed.

Lemma is_match_exact (new : gset string) (cand : string * gset string) :
  new ≠ ∅ → (size new ≤ 500)%nat →
  is_match new default_threshold cand ↔ four_fifths_match new cand.
Proof.
  intros Hn Hsize. unfold is_match, four_fifths_match.
  split; intros [Hc Hr]; (split; [done|]);
    pose proof (min_size_pos new cand.2 Hn Hc);
    pose proof (intersection_size_min new cand.2);
    apply (ratio_reaches_exact (size (new ∩ cand.2)) (size new `min` size cand.2));
    (lia || done).
Qed.

Lemma Forall_not_iff {A} (P Q : A → Prop) (l : list A) :
  (∀ x, P x ↔ Q x) → Forall (λ x, ¬ P x) l ↔ Forall (λ x, ¬ Q x) l.
Proof. intros H. apply Forall_iff. intros x. by rewrite H. Qed.
End GateArithmetic.

(** C1.  [check_content_overlap] never reports a duplicate for an empty new
    set.  For a non-empty new set it answers [(True, name)] exactly when
    [name] is the first candidate in iteration order whose set is non-empty
    and whose ratio [|new ∩ cand| / min(|new|, |cand|)] reaches the threshold,
    and [(False, None)] exactly when no candidate does; there is no third
    answer.  The ratio and the comparison are those of binary64 numbers, as
    Python computes them; at the default threshold and for a new set of at
    most 500 fingerprints (the upload path makes at most 40) they agree with
    exact arithmetic: the candidate matches exactly when
    [5 * |new ∩ cand| >= 4 * min(|new|, |cand|)].  With the default
    threshold, [{a,b,c,d}] against the single candidate [{a}] is a duplicate
    (1/1 >= 0.8), as it is against [{a,b,c}]; four common fingerprints out
    of five are a duplicate, three out of five are not, nor is a disjoint
    candidate; and a candidate below the threshold is passed over for a
    later one that reaches it. *)
Theorem check_content_overlap_first_match
    (new : gset string) (existing : list (string * gset string))
    (threshold : float) :
  let res := Gate.check_content_overlap new existing threshold in
  (new = ∅ → res = (false, None))
  ∧ (new ≠ ∅ →
      (∀ name, res = (true, Some name) ↔
         ∃ before fps after,
           existing = before ++ (name, fps) :: after
           ∧ Gate.is_match new threshold (name, fps)
           ∧ Forall (λ c, ¬ Gate.is_match new threshold c) before)
      ∧ (res = (false, None) ↔
           Forall (λ c, ¬ Gate.is_match new threshold c) existing))
  ∧ ((∃ name, res = (true, Some name)) ∨ res = (false, None))
  ∧ (new ≠ ∅ → (size new ≤ 500)%nat →
      (∀ name,
         Gate.check_content_overlap new existing Gate.default_threshold
         = (true, Some name) ↔
         ∃ before fps after,
           existing = before ++ (name, fps) :: after
           ∧ Gate.four_fifths_match new (name, fps)
           ∧ Forall (λ c, ¬ Gate.four_fifths_match new c) before)
      ∧ (Gate.check_content_overlap new existing Gate.default_threshold
         = (false, None) ↔
         Forall (λ c, ¬ Gate.four_fifths_match new c) existing))
  ∧ Gate.check_content_overlap {["a"; "b"; "c"; "d"]}
      [("old.json", {["a"]})] Gate.default_threshold = (true, Some "old.json")
  ∧ Gate.check_content_overlap {["a"; "b"; "c"; "d"]}
      [("old.json", {["a"; "b"; "c"]})] Gate.default_threshold
    = (true, Some "old.json")
  ∧ Gate.check_content_overlap {["a"; "b"; "c"; "d"; "e"]}
      [("old.json", {["a"; "b"; "c"; "d"; "x"]})] Gate.default_threshold
    = (true, Some "old.json")
  ∧ Gate.check_content_overlap {["a"; "b"; "c"; "d"; "e"]}
      [("old.json", {["a"; "b"; "c"; "x"; "y"]})] Gate.default_threshold
    = (false, None)
  ∧ Gate.check_content_overlap {["a"; "b"; "c"; "d"]}
      [("old.json", {["x"; "y"]})] Gate.default_threshold
    = (false, None)
  ∧ Gate.check_content_overlap {["a"; "b"; "c"; "d"; "e"]}
      [("empty.json", ∅); ("far.json", {["a"; "b"; "c"; "x"; "y"]});
       ("near.json", {["a"; "b"; "c"; "d"; "x"]}); ("same.json", {["a"; "b"; "c"; "d"; "e"]})]
      Gate.default_threshold
    = (true, Some "near.json").
Proof.
  cbv zeta. unfold Gate.check_content_overlap. split_and!.
  - intros ->. by rewrite decide_True.
  - intros Hn. rewrite decide_False by done. split.
    + intros name. by apply scan_true.
    + by apply scan_false.
  - destruct (decide (new = ∅)); [by right|apply scan_shape].
  - intros Hn Hsize. rewrite decide_False by done. split.
    + intros name. rewrite scan_true by done.
      split; intros (before & fps & after & -> & Hm & Hb);
        exists before, fps, after; (split; [done|]); split;
        first [by apply is_match_exact
              |by apply (Forall_not_iff _ _ _ (λ c, is_match_exact new c Hn Hsize))].
    + rewrite scan_false by done.
      apply Forall_not_iff. intros c. by apply is_match_exact.
  - by vm_compute.
  - by vm_compute.
  - by vm_compute.
  - by vm_compute.
  - by vm_compute.
  - by vm_compute.
Qed.

(** ** FormatClassifier *)

Section ClassifierFacts.
Import Processor.

Lemma classify_file_readable (f : file) :
  classify_file (Some (File f)) = classify_content (Text.take 4096 (text f)).
Proof. reflexivity. Qed.

Lemma classify_file_unopenable (path : option node) :
  FS.unopenable path = true → classify_file path = "NULL".
Proof. by destruct path as [[| |[]|]|]. Qed.
End ClassifierFacts.

(** C3, as stated, fails: a prefix can contain both markers and still not be
    classified as Instagram, because the classifier first asks for an opening
    brace or bracket.  Without one the result is ['NULL'], or ['WhatsApp']
    when the timestamp pattern matches. *)
Lemma classify_markers_need_brace :
  Py.contains Processor.participants_marker (text Samples.markers_only) = true
  ∧ Py.contains Processor.messages_marker (text Samples.markers_only) = true
  ∧ Processor.classify_file (Some (File Samples.markers_only)) = "NULL"
  ∧ Py.contains Processor.participants_marker (text Samples.markers_after_date) = true
  ∧ Py.contains Processor.messages_marker (text Samples.markers_after_date) = true
  ∧ Processor.classify_file (Some (File Samples.markers_after_date)) = "WhatsApp".
Proof. by vm_compute. Qed.

(** C3, amended.  When the stripped prefix starts with an opening brace or
    bracket and the prefix contains both markers, [classify_file] answers
    ['Instagram'], whether or not the timestamp pattern matches somewhere. *)
Theorem classify_json_markers_first (f : file) :
  let content := Text.take 4096 (text f) in
  String.prefix "{" (Text.strip content) || String.prefix "[" (Text.strip content) = true →
  Py.contains Processor.participants_marker content = true →
  Py.contains Processor.messages_marker content = true →
  Processor.classify_file (Some (File f)) = "Instagram".
Proof.
  intros content Hb Hp Hm. rewrite classify_file_readable.
  unfold Processor.classify_content. fold content. by rewrite Hb, Hp, Hm.
Qed.

Lemma classify_json_markers_first_witness :
  is_Some (Re.search Re.wa_pattern
             (Text.take 4096 (Samples.dumps
                (Samples.export [] [JObj [("content", JStr "25/10/2025, 12:33 - Ami: hi")]]))))
  ∧ Processor.classify_file (Some Samples.export_quoting_transcript) = "Instagram".
Proof.
  split.
  - vm_compute. eauto.
  - apply (classify_json_markers_first
             {| text := Samples.dumps (Samples.export []
                          [JObj [("content", JStr "25/10/2025, 12:33 - Ami: hi")]]);
                parsed := Some (Samples.export []
                          [JObj [("content", JStr "25/10/2025, 12:33 - Ami: hi")]]) |});
      vm_compute; reflexivity.
Defined.

(** ** Error handling of the three file readers *)

Section ReaderFacts.
Import Processor Fingerprint.
Context (md5_hex12 : json → json → string).

Lemma unopenable_read (path : option node) :
  FS.unopenable path = true → FS.read path = Raise ∧ FS.json_load path = Raise.
Proof. by destruct path as [[]|]. Qed.

Lemma read_raise_json_load (path : option node) :
  FS.read path = Raise → FS.json_load path = Raise.
Proof. by destruct path as [[]|]. Qed.

Lemma extract_participants_unparsable (path : option node) :
  FS.json_load path = Raise → extract_participants path "Instagram" = Ok [].
Proof.
  intros H. unfold extract_participants, collect_participants.
  by rewrite H.
Qed.

Lemma extract_participants_unreadable (path : option node) (file_type : string) :
  FS.read path = Raise → extract_participants path file_type = Ok [].
Proof.
  intros H. unfold extract_participants, collect_participants.
  rewrite H, (read_raise_json_load _ H). by repeat case_match.
Qed.

Lemma fingerprints_unreadable (path : option node) (n : nat) :
  FS.read path = Raise → extract_message_fingerprints md5_hex12 path n = ∅.
Proof.
  intros H. unfold extract_message_fingerprints.
  rewrite H, (read_raise_json_load _ H). by repeat case_match.
Qed.

Lemma fingerprints_unparsable (path : option node) (n : nat) :
  FS.json_load path = Raise →
  classify_file path = "Instagram" →
  extract_message_fingerprints md5_hex12 path n = ∅.
Proof.
  intros H Hc. unfold extract_message_fingerprints. by rewrite Hc, H.
Qed.
End ReaderFacts.

(** C7, as stated, fails for the classifier: it never parses, so a file
    whose content [json.load] rejects is still classified by its markers.  A
    truncated export is ['Instagram'], not ['NULL']. *)
Lemma classify_unparsable_is_not_unknown :
  FS.json_load (Some (File Samples.truncated_export)) = Raise
  ∧ Processor.classify_file (Some (File Samples.truncated_export)) = "Instagram"
  ∧ "Instagram" ≠ "NULL".
Proof. by vm_compute. Qed.

(** C7, amended.  No exception escapes on a file that is missing or cannot
    be opened (nothing at the path, a file that [open] refuses, or a
    directory): [classify_file] answers ['NULL'], [extract_participants]
    returns the empty list for every requested type, and
    [extract_message_fingerprints] returns the empty set.  On a file whose
    content [json.load] rejects, [extract_participants] asked for Instagram
    returns the empty list, and [extract_message_fingerprints] returns the
    empty set when the file is classified as Instagram.  A file that opens
    but cannot be read to its end gives the empty list and the empty set as
    well, while [classify_file] judges it by its first block when that can
    be read. *)
Theorem readers_fail_soft
    (md5_hex12 : json → json → string) (path : option node) (n : nat) :
  (FS.unopenable path = true →
     Processor.classify_file path = "NULL"
     ∧ (∀ file_type, Processor.extract_participants path file_type = Ok [])
     ∧ Fingerprint.extract_message_fingerprints md5_hex12 path n = ∅)
  ∧ (FS.json_load path = Raise →
     Processor.extract_participants path "Instagram" = Ok []
     ∧ (Processor.classify_file path = "Instagram" →
        Fingerprint.extract_message_fingerprints md5_hex12 path n = ∅))
  ∧ (∀ head, path = Some (Garbled head) →
     Processor.classify_file path
     = match head with
       | Some content => Processor.classify_content content
       | None => "NULL"
       end
     ∧ (∀ file_type, Processor.extract_participants path file_type = Ok [])
     ∧ Fingerprint.extract_message_fingerprints md5_hex12 path n = ∅).
Proof.
  split_and!.
  - intros Hu. pose proof (unopenable_read _ Hu) as [Hread _]. split_and!.
    + by apply classify_file_unopenable.
    + intros ?. by apply extract_participants_unreadable.
    + by apply fingerprints_unreadable.
  - intros H. split.
    + by apply extract_participants_unparsable.
    + by apply fingerprints_unparsable.
  - intros head ->. split_and!.
    + by destruct head.
    + intros ?. by apply extract_participants_unreadable.
    + by apply fingerprints_unreadable.
Qed.

Lemma readers_fail_soft_witness :
  (Processor.classify_file (Some Locked) = "NULL"
   ∧ Processor.extract_participants (Some Locked) "WhatsApp" = Ok []
   ∧ Fingerprint.extract_message_fingerprints (λ _ _, "0123456789ab") (Some Locked) 20 = ∅)
  ∧ (Processor.extract_participants (Some (File Samples.truncated_export)) "Instagram" = Ok []
     ∧ Fingerprint.extract_message_fingerprints (λ _ _, "0123456789ab")
         (Some (File Samples.truncated_export)) 20 = ∅)
  ∧ (Processor.classify_file (Some (Garbled (Some "25/10/2025, 12:33 - Ami: hi")))
     = "WhatsApp"
     ∧ Processor.extract_participants
         (Some (Garbled (Some "25/10/2025, 12:33 - Ami: hi"))) "WhatsApp" = Ok []
     ∧ Fingerprint.extract_message_fingerprints (λ _ _, "0123456789ab")
         (Some (Garbled (Some "25/10/2025, 12:33 - Ami: hi"))) 20 = ∅).
Proof.
  split; [|split].
  - destruct (readers_fail_soft (λ _ _, "0123456789ab") (Some Locked) 20) as [H _].
    destruct (H eq_refl) as (H1 & H2 & H3). split_and!; [exact H1|apply H2|exact H3].
  - destruct (readers_fail_soft (λ _ _, "0123456789ab")
                (Some (File Samples.truncated_export)) 20) as (_ & H & _).
    destruct (H eq_refl) as [H1 H2]. split; [exact H1|]. apply H2. by vm_compute.
  - destruct (readers_fail_soft (λ _ _, "0123456789ab")
                (Some (Garbled (Some "25/10/2025, 12:33 - Ami: hi"))) 20)
      as (_ & _ & H).
    destruct (H _ eq_refl) as (H1 & H2 & H3).
    split_and!; [rewrite H1; by vm_compute|apply H2|exact H3].
Defined.

(** ** Archive extraction *)

Section ZipFacts.
Import Zip.
Context {zipfile : Type}.
Context (extractall :
  zipfile → list (string * node) → list (string * node) * result unit).

(** An extraction over nothing or over a directory: the entry is replaced
    by a directory that holds what the archive unpacks into an empty one. *)
Lemma extract_zip_spec (zip : archive) (zip_id : string) (temp : temp_dir) :
  plain_name zip_id = true →
  free_or_directory (default ∅ temp !! zip_id) = true →
  extract_zip extractall zip zip_id temp
  = Some (Some (<[zip_id := Dir match zip with
                                | Some z => (extractall z []).1
                                | None => []
                                end]> (default ∅ temp)),
          match zip with
          | Some z => match (extractall z []).2 with
                      | Ok _ => Ok zip_id
                      | Raise => Raise
                      end
          | None => Raise
          end).
Proof.
  intros Hplain Hfree. unfold extract_zip. rewrite Hplain.
  set (d := default ∅ temp) in *. unfold clean_up.
  destruct (d !! zip_id) as [[| | |old]|] eqn:Hd; try done.
  - unfold mkdir. rewrite lookup_delete_eq. unfold unpack.
    destruct zip as [z|]; cbn [fst snd].
    + by rewrite lookup_insert_eq, insert_insert_eq, insert_delete_eq.
    + by rewrite insert_delete_eq.
  - unfold mkdir. rewrite Hd. unfold unpack.
    destruct zip as [z|]; cbn [fst snd]; [|done].
    by rewrite lookup_insert_eq, insert_insert_eq.
Qed.

(** An extraction over something that is not a directory raises at
    [rmtree] and changes nothing. *)
Lemma extract_zip_blocked (zip : archive) (zip_id : string) (temp : temp_dir) :
  plain_name zip_id = true →
  free_or_directory (default ∅ temp !! zip_id) = false →
  extract_zip extractall zip zip_id temp = Some (temp, Raise).
Proof.
  intros Hplain Hfree. unfold extract_zip. rewrite Hplain. unfold clean_up.
  by destruct (default ∅ temp !! zip_id) as [[]|].
Qed.
End ZipFacts.

(** C5.  For an identifier that names an entry of the temporary directory
    (a single path component, as every identifier the callers make) with
    nothing or a directory under it: extracting [a1] and then [a2] under
    the identifier leaves the temporary directory, and gives the result,
    that one extraction of [a2] gives, also onto a directory from which the
    entry was removed first.  The identifier then names one directory, the
    other entries are untouched, and when [a2] is an archive that opens the
    directory holds what [a2] unpacks into an empty directory: nothing of
    [a1] or of an earlier directory. *)
Theorem extract_zip_idempotent
    {zipfile : Type}
    (extractall : zipfile → list (string * node) → list (string * node) * result unit)
    (a1 a2 : Zip.archive) (zip_id : string) (temp : Zip.temp_dir) :
  Zip.plain_name zip_id = true →
  Zip.free_or_directory (default ∅ temp !! zip_id) = true →
  ∃ after1 r1 after2 r2,
    Zip.extract_zip extractall a1 zip_id temp = Some (after1, r1)
    ∧ Zip.extract_zip extractall a2 zip_id after1 = Some (Some after2, r2)
    ∧ Zip.extract_zip extractall a2 zip_id temp = Some (Some after2, r2)
    ∧ Zip.extract_zip extractall a2 zip_id (Some (delete zip_id (default ∅ temp)))
      = Some (Some after2, r2)
    ∧ dom after2 = {[zip_id]} ∪ dom (default ∅ temp)
    ∧ (∀ other, other ≠ zip_id → after2 !! other = default ∅ temp !! other)
    ∧ FS.is_dir (after2 !! zip_id) = true
    ∧ (∀ z, a2 = Some z → after2 !! zip_id = Some (Dir (extractall z []).1)).
Proof.
  intros Hplain Hfree.
  rewrite (extract_zip_spec extractall a1), (extract_zip_spec extractall a2 _ temp)
    by done.
  eexists _, _, _, _. split; [reflexivity|].
  rewrite !(extract_zip_spec extractall a2); cbn [from_option id];
    [|first [done|by rewrite lookup_insert_eq|by rewrite lookup_delete_eq]..].
  rewrite insert_insert_eq, insert_delete_eq.
  split_and!; [done..| | | |].
  - by rewrite dom_insert_L.
  - intros other Hne. by rewrite lookup_insert_ne.
  - by rewrite lookup_insert_eq.
  - intros z ->. by rewrite lookup_insert_eq.
Qed.

Lemma extract_zip_idempotent_witness :
  ∃ after1 r1 after2 r2,
    Zip.extract_zip Samples.write_members
      (Some [("a.txt", Samples.garbage_file); ("c.txt", Samples.garbage_file)])
      "upload"
      Samples.temp_with_upload
    = Some (after1, r1)
    ∧ Zip.extract_zip Samples.write_members
        (Some [("b.txt", Samples.garbage_file)]) "upload" after1
      = Some (Some after2, r2)
    ∧ Zip.extract_zip Samples.write_members
        (Some [("b.txt", Samples.garbage_file)]) "upload"
        Samples.temp_with_upload
      = Some (Some after2, r2)
    ∧ Zip.extract_zip Samples.write_members
        (Some [("b.txt", Samples.garbage_file)]) "upload"
        (Some (delete "upload"
                 (default ∅
                    Samples.temp_with_upload)))
      = Some (Some after2, r2)
    ∧ dom after2
      = {["upload"]}
        ∪ dom (default ∅
                 Samples.temp_with_upload)
    ∧ (∀ other, other ≠ "upload" →
         after2 !! other
         = default ∅
             Samples.temp_with_upload !! other)
    ∧ FS.is_dir (after2 !! "upload") = true
    ∧ (∀ z, Some [("b.txt", Samples.garbage_file)] = Some z →
         after2 !! "upload" = Some (Dir (Samples.write_members z []).1)).
Proof.
  apply (extract_zip_idempotent Samples.write_members
           (Some [("a.txt", Samples.garbage_file); ("c.txt", Samples.garbage_file)])
           (Some [("b.txt", Samples.garbage_file)]) "upload"
           Samples.temp_with_upload).
  - reflexivity.
  - by vm_compute.
Defined.

(** ** Sorting *)

Section SortFacts.
Context {A K : Type} (lt : K → K → bool) (key : A → K).

Lemma insert_by_Permutation (x : A) (l : list A) :
  Py.insert_by lt key x l ≡ₚ x :: l.
Proof.
  induction l as [|y l IH]; cbn; [done|].
  destruct (lt (key y) (key x)); [|done].
  rewrite IH. apply Permutation_swap.
Qed.

Lemma sort_by_Permutation (l : list A) : Py.sort_by lt key l ≡ₚ l.
Proof.
  induction l as [|x l IH]; cbn; [done|].
  by rewrite insert_by_Permutation, IH.
Qed.

Lemma sort_by_reverse_Permutation (l : list A) :
  Py.sort_by_reverse lt key l ≡ₚ l.
Proof.
  unfold Py.sort_by_reverse.
  by rewrite reverse_Permutation, sort_by_Permutation, reverse_Permutation.
Qed.

(** Sorting commutes with decorating the elements. *)
Lemma sort_by_fmap {B} (f : B → A) (l : list B) :
  Py.sort_by lt key (f <$> l) = f <$> Py.sort_by lt (key ∘ f) l.
Proof.
  induction l as [|x l IH]; cbn; [done|]. rewrite IH.
  generalize (Py.sort_by lt (key ∘ f) l). intros s.
  induction s as [|y s IHs]; cbn; [done|].
  destruct (lt (key (f y)) (key (f x))); cbn; [by rewrite IHs|done].
Qed.
End SortFacts.

Section SortZFacts.
Context {A : Type} (key : A → Z).

Lemma insert_by_Sorted (x : A) (l : list A) :
  Sorted (λ a b, key a ≤ key b) l →
  Sorted (λ a b, key a ≤ key b) (Py.insert_by Z.ltb key x l).
Proof.
  induction 1 as [|y l Hs IH Hd]; cbn; [by repeat constructor|].
  destruct (Z.ltb_spec (key y) (key x)).
  - constructor; [done|].
    destruct Hd as [|z l Hyz]; cbn; [constructor; lia|].
    destruct (Z.ltb_spec (key z) (key x)); constructor; lia.
  - repeat constructor; [done..|lia].
Qed.

Lemma sort_by_Sorted (l : list A) :
  Sorted (λ a b, key a ≤ key b) (Py.sort_by Z.ltb key l).
Proof.
  induction l as [|x l IH]; cbn; [constructor|]. by apply insert_by_Sorted.
Qed.

Lemma sort_by_reverse_Sorted (l : list A) :
  Sorted (λ a b, key b ≤ key a) (Py.sort_by_reverse Z.ltb key l).
Proof.
  unfold Py.sort_by_reverse. apply Sorted_reverse. apply sort_by_Sorted.
Qed.

(** The last element of a list sorted downwards has the least key. *)
Lemma sorted_down_last (l : list A) (z : A) :
  Sorted (λ a b, key b ≤ key a) l → last l = Some z →
  ∀ y, y ∈ l → key z ≤ key y.
Proof.
  intros Hs%Sorted_StronglySorted; [|intros a b c ??; lia].
  induction Hs as [|x l Hs IH Hall]; [done|].
  intros Hlast y Hy. destruct l as [|x' l'].
  - cbn in Hlast. simplify_eq. apply list_elem_of_singleton in Hy. by subst.
  - change (last (x :: x' :: l')) with (last (x' :: l')) in Hlast.
    apply elem_of_cons in Hy as [->|Hy]; [|by apply IH].
    rewrite Forall_forall in Hall. apply Hall.
    apply last_Some in Hlast as [l'' ->]. set_solver.
Qed.
End SortZFacts.

(** ** Vendor-A merger *)

Section ResultFacts.
Context {A B : Type} (f : A → result B).

Lemma mapM_result_Ok (l : list A) (ys : list B) :
  mapM_result f l = Ok ys ↔ Forall2 (λ x y, f x = Ok y) l ys.
Proof.
  revert ys. induction l as [|x l IH]; intros ys; cbn.
  - split; [intros [= <-]; constructor|by inversion 1].
  - split.
    + destruct (f x) as [y|] eqn:Hx; cbn; [|done].
      destruct (mapM_result f l) as [ys'|] eqn:Hl; cbn; [|done].
      intros [= <-]. constructor; [done|]. by apply IH.
    + inversion 1 as [|? y ? ys' Hy Hys]; subst.
      apply IH in Hys. by rewrite Hy, Hys.
Qed.

Lemma mapM_result_total (l : list A) :
  Forall (λ x, ∃ y, f x = Ok y) l → ∃ ys, mapM_result f l = Ok ys.
Proof.
  induction 1 as [|x l [y Hy] _ [ys IH]]; cbn; [by eexists|].
  rewrite Hy, IH. by eexists.
Qed.
End ResultFacts.

Section MergeFacts.
Import Instagram.

Lemma assoc_elem_of {V} (k : string) (v : V) (o : list (string * V)) :
  Py.assoc k o = Some v → (k, v) ∈ o.
Proof.
  induction o as [|[k' v'] o IH]; cbn; [done|].
  destruct (String.eqb_spec k k') as [->|]; [intros [= ->]; left|right; auto].
Qed.

Lemma assoc_set_same {V} (k : string) (v : V) (o : list (string * V)) :
  Py.assoc k (Py.assoc_set k v o) = Some v.
Proof.
  induction o as [|[k' v'] o IH]; cbn.
  - by rewrite String.eqb_refl.
  - destruct (String.eqb k k') eqn:E; cbn; [by rewrite String.eqb_refl|].
    by rewrite E.
Qed.

Lemma assoc_set_other {V} (k k' : string) (v : V) (o : list (string * V)) :
  k' ≠ k → Py.assoc k' (Py.assoc_set k v o) = Py.assoc k' o.
Proof.
  intros Hne%String.eqb_neq. induction o as [|[k0 v0] o IH]; cbn.
  - by rewrite Hne.
  - destruct (String.eqb k k0) eqn:E; cbn; [|by rewrite IH].
    apply String.eqb_eq in E as <-. by rewrite Hne.
Qed.

(** The files read by the merger are those the glob finds. *)
Lemma message_files_inv (folder : option node) (files : list (string * node)) :
  message_files folder = Ok files →
  ∃ keyed : list (Z * (string * node)),
    Forall2 (λ e ke, file_number e.1 = Ok ke.1 ∧ ke.2 = e) (glob_messages folder) keyed
    ∧ files = snd <$> Py.sort_by_reverse Z.ltb fst keyed.
Proof.
  unfold message_files.
  destruct (mapM_result _ _) as [keyed|] eqn:Hk; [|done]. intros [= <-].
  exists keyed. split; [|done]. apply mapM_result_Ok in Hk.
  eapply Forall2_impl; [exact Hk|]. intros e [k e']; cbn.
  destruct (file_number e.1); cbn; [|done]. by intros [= -> ->].
Qed.

Lemma keyed_snd (l : list (string * node)) (keyed : list (Z * (string * node))) :
  Forall2 (λ e ke, file_number e.1 = Ok ke.1 ∧ ke.2 = e) l keyed →
  snd <$> keyed = l.
Proof. induction 1 as [|e ke l k' [_ <-] _ IH]; cbn; [done|by rewrite IH]. Qed.

Lemma message_files_Permutation (folder : option node) (files : list (string * node)) :
  message_files folder = Ok files → files ≡ₚ glob_messages folder.
Proof.
  intros (keyed & Hk & ->)%message_files_inv.
  by rewrite sort_by_reverse_Permutation, (keyed_snd _ _ Hk).
Qed.

Lemma message_files_total (folder : option node) :
  Forall (λ e, ∃ k, file_number e.1 = Ok k) (glob_messages folder) →
  ∃ files, message_files folder = Ok files.
Proof.
  intros H. unfold message_files.
  destruct (mapM_result_total (λ e, k ← file_number e.1; Ok (k, e))
              (glob_messages folder)) as [keyed ->]; [|by eexists].
  eapply Forall_impl; [exact H|]. intros e [k ->]. by eexists.
Qed.

(** On message files, the loop of the merger concatenates the arrays. *)
Lemma read_messages_array (acc : list json) (e : string * node) (msgs : list json) :
  message_array e.2 = Some msgs → read_messages acc e = acc ++ msgs.
Proof.
  unfold message_array, read_messages.
  destruct (FS.json_load _) as [[| | | | |fields]|]; try done; cbn.
  destruct (default _ _); try done. cbn. by case_match; intros [= ->].
Qed.

Lemma foldl_read_messages (files : list (string * node)) (acc : list json) :
  Forall (λ e, is_Some (message_array e.2)) files →
  foldl read_messages acc files
  = acc ++ flat_map (λ e, default [] (message_array e.2)) files.
Proof.
  intros H. revert acc.
  induction H as [|e files [msgs He] _ IH]; intros acc; cbn; [by rewrite app_nil_r|].
  by rewrite (read_messages_array _ _ _ He), IH, He, app_assoc.
Qed.

Lemma collect_messages_arrays (files : list (string * node)) :
  Forall (λ e, is_Some (message_array e.2)) files →
  collect_messages files = flat_map (λ e, default [] (message_array e.2)) files.
Proof. intros H. unfold collect_messages. by rewrite foldl_read_messages. Qed.

Lemma message_array_messages (n : node) (msgs : list json) :
  message_array n = Some msgs → Forall (λ m, is_message m = true) msgs.
Proof.
  unfold message_array.
  destruct (FS.json_load _) as [[| | | | |fields]|]; try done.
  destruct (default _ _) as [| | | |l|]; try done.
  destruct (forallb is_message l) eqn:Hall; [|done]. intros [= <-].
  apply Forall_forall. intros m Hm%list_elem_of_In.
  by eapply forallb_forall in Hall.
Qed.

(** On messages, [sorted_by_key timestamp_key] is the stable sort by
    [timestamp]. *)
Lemma sorted_by_key_messages (msgs : list json) :
  Forall (λ m, is_message m = true) msgs →
  Py.sorted_by_key timestamp_key msgs = Ok (Py.sort_by Z.ltb timestamp msgs).
Proof.
  intros H. unfold Py.sorted_by_key.
  assert (mapM_result (λ x, k ← timestamp_key x; Ok (k, x)) msgs
          = Ok ((λ m, (default (JNum 0) (Py.assoc "timestamp_ms"
                         match m with JObj o => o | _ => [] end), m)) <$> msgs)) as ->.
  { apply mapM_result_Ok. apply Forall2_fmap_r, Forall_Forall2_diag.
    eapply Forall_impl; [exact H|]. by intros [| | | | |o] ?. }
  cbn.
  assert (mapM (λ kx : json * json, (λ z, (z, kx.2)) <$> Py.as_int kx.1)
            ((λ m, (default (JNum 0) (Py.assoc "timestamp_ms"
                      match m with JObj o => o | _ => [] end), m)) <$> msgs)
          = Some ((λ m, (timestamp m, m)) <$> msgs)) as ->.
  { apply mapM_Some. apply Forall2_fmap, Forall_Forall2_diag.
    eapply Forall_impl; [exact H|]. intros [| | | | |o]; try done. cbn.
    intros [z Hz]%bool_decide_eq_true. by rewrite Hz. }
  f_equal. rewrite (sort_by_fmap Z.ltb fst (λ m, (timestamp m, m))).
  rewrite <-list_fmap_compose. apply list_fmap_id.
Qed.
End MergeFacts.

Section MergeSpec.
Import Instagram.

Lemma message_array_load (n : node) :
  is_Some (message_array n) → ∃ fields, FS.json_load (Some n) = Ok (JObj fields).
Proof.
  unfold message_array. intros [msgs H].
  destruct (FS.json_load _) as [[| | | | |fields]|]; try done. by eexists.
Qed.

(** The file the merge starts from is one of the globbed files. *)
Lemma base_file_globbed (folder : option node) (files : list (string * node)) :
  files ≡ₚ glob_messages folder → files ≠ [] →
  ∃ e, e ∈ glob_messages folder ∧ base_file folder files = Some e.2
       ∧ (FS.child (FS.listing folder) "message_1.json" = Some e.2
            ∧ e.1 = "message_1.json"
          ∨ FS.child (FS.listing folder) "message_1.json" = None
            ∧ last files = Some e).
Proof.
  intros Hp Hne. unfold base_file, FS.child.
  destruct (Py.assoc _ _) as [n|] eqn:Hn.
  - exists ("message_1.json", n). split_and!; [|done|by left].
    apply list_elem_of_filter. split; [done|]. by apply assoc_elem_of.
  - destruct (last files) as [e|] eqn:Hl; [|by apply last_None in Hl].
    exists e. split_and!; [|done|by right].
    rewrite <-Hp. apply last_Some in Hl as [l ->]. set_solver.
Qed.

Lemma merge_unfold (folder : option node) (files : list (string * node)) :
  message_files folder = Ok files → files ≠ [] →
  merge_conversation_messages folder
  = (combined_data ← FS.json_load (base_file folder files);
     all_messages ← Py.sorted_by_key timestamp_key (collect_messages files);
     combined_data ← Py.setitem combined_data "messages" (JArr all_messages);
     Ok (Some combined_data)).
Proof.
  intros H Hne. unfold merge_conversation_messages. rewrite H.
  by destruct files.
Qed.

(** What the merger returns on a vendor-A conversation folder. *)
Lemma merge_vendorA (folder : option node) :
  vendorA_folder folder → glob_messages folder ≠ [] →
  ∃ files base_fields,
    message_files folder = Ok files
    ∧ FS.json_load (base_file folder files) = Ok (JObj base_fields)
    ∧ merge_conversation_messages folder
      = Ok (Some (JObj (Py.assoc_set "messages"
              (JArr (Py.sort_by Z.ltb timestamp
                 (flat_map (λ e, default [] (message_array e.2)) files)))
              base_fields))).
Proof.
  unfold vendorA_folder. intros Hwf Hne.
  destruct (message_files_total folder) as [files Hfiles].
  { eapply Forall_impl; [exact Hwf|]. by intros e [? _]. }
  pose proof (message_files_Permutation _ _ Hfiles) as Hp.
  assert (files ≠ []) as Hne'.
  { intros ->. by apply Permutation_nil_l in Hp. }
  assert (Forall (λ e, is_Some (message_array e.2)) files) as Harr.
  { rewrite Hp. eapply Forall_impl; [exact Hwf|]. by intros e [_ ?]. }
  destruct (base_file_globbed _ _ Hp Hne') as (e & He & Hbase & _).
  rewrite Forall_forall in Hwf. destruct (Hwf _ He) as [_ Hload].
  apply message_array_load in Hload as [base_fields Hload].
  exists files, base_fields. split_and!; [done|by rewrite Hbase|].
  rewrite (merge_unfold _ _ Hfiles Hne'), Hbase, Hload.
  rewrite collect_messages_arrays by done.
  rewrite sorted_by_key_messages; [done|].
  apply Forall_flat_map. eapply Forall_impl; [exact Harr|].
  intros e' [msgs Hm]. rewrite Hm. by eapply message_array_messages.
Qed.

Lemma merge_no_files (folder : option node) :
  glob_messages folder = [] → merge_conversation_messages folder = Ok None.
Proof.
  intros H. unfold merge_conversation_messages, message_files. by rewrite H.
Qed.
End MergeSpec.

(** C2.  A folder without a numbered message file merges to [None].  On a
    vendor-A conversation folder with at least one, the merger returns a
    record whose [messages] are the message arrays of all the numbered
    files put together (each message as often as it occurs in them) and
    sorted upwards by [timestamp_ms].  For the folder of the spec, with
    [message_1.json] holding 300 and 400 and [message_2.json] holding 100
    and 200, the four messages come out as 100, 200, 300, 400. *)
Theorem merge_concatenates_and_sorts (folder : option node) :
  (Instagram.glob_messages folder = [] →
     Instagram.merge_conversation_messages folder = Ok None)
  ∧ (Instagram.glob_messages folder ≠ [] → Instagram.vendorA_folder folder →
     ∃ record msgs,
       Instagram.merge_conversation_messages folder = Ok (Some (JObj record))
       ∧ Py.assoc "messages" record = Some (JArr msgs)
       ∧ msgs ≡ₚ Instagram.all_message_arrays folder
       ∧ Sorted (λ a b, Instagram.timestamp a ≤ Instagram.timestamp b) msgs)
  ∧ (∃ record,
       Instagram.merge_conversation_messages (Some Samples.two_chunks)
       = Ok (Some (JObj record))
       ∧ Py.assoc "messages" record
         = Some (JArr [Samples.msg "Ann" "a" 100; Samples.msg "Bob" "b" 200;
                       Samples.msg "Ann" "c" 300; Samples.msg "Bob" "d" 400])).
Proof.
  split_and!.
  - apply merge_no_files.
  - intros Hne Hwf.
    destruct (merge_vendorA folder Hwf Hne) as (files & base & Hfiles & _ & Hmerge).
    eexists _, _. split_and!; [exact Hmerge|apply assoc_set_same| |apply sort_by_Sorted].
    rewrite sort_by_Permutation. unfold Instagram.all_message_arrays.
    apply message_files_Permutation in Hfiles.
    rewrite !flat_map_concat_map. by rewrite Hfiles.
  - eexists. split; [by vm_compute|by vm_compute].
Qed.

Lemma merge_concatenates_and_sorts_witness :
  ∃ record msgs,
    Instagram.merge_conversation_messages (Some Samples.two_chunks)
    = Ok (Some (JObj record))
    ∧ Py.assoc "messages" record = Some (JArr msgs)
    ∧ msgs ≡ₚ Instagram.all_message_arrays (Some Samples.two_chunks)
    ∧ Sorted (λ a b, Instagram.timestamp a ≤ Instagram.timestamp b) msgs.
Proof.
  apply (merge_concatenates_and_sorts (Some Samples.two_chunks)).
  - vm_compute. discriminate.
  - repeat constructor; try (by eexists; vm_compute).
Defined.

Section BaseFacts.
Import Instagram.

Lemma keyed_forward (l : list (string * node)) (keyed : list (Z * (string * node))) :
  Forall2 (λ e ke, file_number e.1 = Ok ke.1 ∧ ke.2 = e) l keyed →
  ∀ e, e ∈ l → ∃ k, (k, e) ∈ keyed ∧ file_number e.1 = Ok k.
Proof.
  induction 1 as [|e0 [k0 e0'] l keyed [Hk He] _ IH]; intros e; [by intros ?%elem_of_nil|].
  cbn in *. subst e0'. intros [->|Hin]%elem_of_cons.
  - exists k0. split; [left|done].
  - destruct (IH _ Hin) as (k & ? & ?). exists k. split; [by right|done].
Qed.

Lemma keyed_backward (l : list (string * node)) (keyed : list (Z * (string * node))) :
  Forall2 (λ e ke, file_number e.1 = Ok ke.1 ∧ ke.2 = e) l keyed →
  ∀ ke, ke ∈ keyed → file_number ke.2.1 = Ok ke.1.
Proof.
  induction 1 as [|e0 [k0 e0'] l keyed [Hk He] _ IH]; intros ke; [by intros ?%elem_of_nil|].
  cbn in *. subst e0'. intros [->|Hin]%elem_of_cons; [done|by apply IH].
Qed.

(** Without [message_1.json], the merge starts from a file whose number is
    the least. *)
Lemma last_file_lowest (folder : option node) (files : list (string * node))
    (e : string * node) :
  message_files folder = Ok files → last files = Some e →
  ∃ kb, file_number e.1 = Ok kb
        ∧ ∀ e' k, e' ∈ glob_messages folder → file_number e'.1 = Ok k → kb ≤ k.
Proof.
  intros (keyed & Hk & ->)%message_files_inv Hlast.
  rewrite fmap_last in Hlast.
  destruct (last (Py.sort_by_reverse Z.ltb fst keyed)) as [[kb eb]|] eqn:Hl;
    [|done]. cbn in Hlast. simplify_eq.
  assert ((kb, e) ∈ keyed) as Hin.
  { rewrite <-(sort_by_reverse_Permutation Z.ltb fst keyed).
    apply last_Some in Hl as [l' ->]. set_solver. }
  exists kb. split; [by apply (keyed_backward _ _ Hk (kb, e))|].
  intros e' k He' Hnum.
  destruct (keyed_forward _ _ Hk _ He') as (k' & Hin' & Hnum').
  rewrite Hnum in Hnum'. simplify_eq.
  apply (sorted_down_last fst _ (kb, e) (sort_by_reverse_Sorted fst keyed) Hl (k', e')).
  by rewrite sort_by_reverse_Permutation.
Qed.
End BaseFacts.

(** C10.  When the merge succeeds, the returned record is the base file with
    its [messages] replaced: every other field has the value it has in the
    base file, and no field is added besides [messages].  The base file is
    [message_1.json] when the folder has one, otherwise a globbed file whose
    number is the least. *)
Theorem merge_keeps_base_fields (folder : option node) (record : json) :
  Instagram.merge_conversation_messages folder = Ok (Some record) →
  ∃ (base : string * node) (base_fields fields : list (string * json)),
    base ∈ Instagram.glob_messages folder
    ∧ FS.json_load (Some base.2) = Ok (JObj base_fields)
    ∧ record = JObj fields
    ∧ (∀ k, k ≠ "messages" → Py.assoc k fields = Py.assoc k base_fields)
    ∧ (FS.child (FS.listing folder) "message_1.json" = Some base.2
         ∧ base.1 = "message_1.json"
       ∨ FS.child (FS.listing folder) "message_1.json" = None
         ∧ ∃ kb, Instagram.file_number base.1 = Ok kb
                 ∧ ∀ e k, e ∈ Instagram.glob_messages folder →
                          Instagram.file_number e.1 = Ok k → kb ≤ k).
Proof.
  intros Hmerge.
  destruct (Instagram.message_files folder) as [files|] eqn:Hfiles;
    [|by unfold Instagram.merge_conversation_messages in Hmerge; rewrite Hfiles in Hmerge].
  assert (files ≠ []) as Hne.
  { intros ->. unfold Instagram.merge_conversation_messages in Hmerge.
    by rewrite Hfiles in Hmerge. }
  rewrite (merge_unfold _ _ Hfiles Hne) in Hmerge.
  pose proof (message_files_Permutation _ _ Hfiles) as Hp.
  destruct (base_file_globbed _ _ Hp Hne) as (base & Hin & Hbase & Hwhich).
  rewrite Hbase in Hmerge.
  destruct (FS.json_load (Some base.2)) as [combined|] eqn:Hload; [|done].
  cbn in Hmerge.
  destruct (Py.sorted_by_key _ _) as [all_messages|]; [|done]. cbn in Hmerge.
  destruct combined as [| | | | |base_fields]; try done. cbn in Hmerge.
  simplify_eq.
  exists base, base_fields, (Py.assoc_set "messages" (JArr all_messages) base_fields).
  split_and!; [done..| |].
  - intros k Hk. by apply assoc_set_other.
  - destruct Hwhich as [?|[Hnone Hlast]]; [by left|right].
    split; [done|]. by eapply last_file_lowest.
Qed.

Lemma merge_keeps_base_fields_witness :
  ∃ (base : string * node) (base_fields fields : list (string * json)),
    base ∈ Instagram.glob_messages (Some Samples.two_chunks)
    ∧ FS.json_load (Some base.2) = Ok (JObj base_fields)
    ∧ JObj [("participants", JArr [JObj [("name", JStr "Ann")]; JObj [("name", JStr "Bob")]]);
            ("messages", JArr [Samples.msg "Ann" "a" 100; Samples.msg "Bob" "b" 200;
                               Samples.msg "Ann" "c" 300; Samples.msg "Bob" "d" 400])]
      = JObj fields
    ∧ (∀ k, k ≠ "messages" → Py.assoc k fields = Py.assoc k base_fields)
    ∧ (FS.child (FS.listing (Some Samples.two_chunks)) "message_1.json" = Some base.2
         ∧ base.1 = "message_1.json"
       ∨ FS.child (FS.listing (Some Samples.two_chunks)) "message_1.json" = None
         ∧ ∃ kb, Instagram.file_number base.1 = Ok kb
                 ∧ ∀ e k, e ∈ Instagram.glob_messages (Some Samples.two_chunks) →
                          Instagram.file_number e.1 = Ok k → kb ≤ k).
Proof.
  apply (merge_keeps_base_fields (Some Samples.two_chunks)). vm_compute. reflexivity.
Defined.

(** ** Vendor-A locator *)

Section LocatorFacts.
Import Instagram.
Context (fix_mojibake : string → string).

Lemma join_strings (sep : string) (parts : list json) :
  Forall (λ p, ∃ s, p = JStr s) parts → ∃ s, Text.join sep parts = Ok s.
Proof.
  induction 1 as [|p parts [s ->] _ [r IH]]; cbn; [by eexists|].
  destruct parts; [by eexists|]. rewrite IH. by eexists.
Qed.

Lemma preview_name_strings (names : list json) :
  Forall (λ p, ∃ s, p = JStr s) names → ∃ s, preview_name names = Ok s.
Proof.
  intros H. unfold preview_name.
  destruct (join_strings ", " (take 2 names)) as [s ->]; [|by eexists].
  by apply Forall_take.
Qed.

Lemma repaired_names (ps : list json) :
  forallb named_participant ps = true →
  ∃ names,
    mapM_result (λ p, name ← Py.get p "name" (JStr "Unknown"); Ok (repair fix_mojibake name)) ps
    = Ok names
    ∧ Forall (λ p, ∃ s, p = JStr s) names.
Proof.
  induction ps as [|p ps IH]; cbn; [by eexists|].
  intros [Hp Hps]%andb_true_iff. destruct (IH Hps) as (names & -> & Hnames).
  destruct p as [| | | | |fields]; try done. cbn in *.
  destruct (default _ _) as [| | |s| |]; try done. cbn.
  eexists. split; [done|]. constructor; [by eexists|done].
Qed.

(** A folder with a readable first file has a preview. *)
Lemma preview_of_readable (folder : option node) :
  readable_first_file folder = true →
  is_Some (get_conversation_preview fix_mojibake folder).
Proof.
  unfold readable_first_file, get_conversation_preview.
  destruct (FS.child _ _) as [n|]; [|done]. cbn [FS.exists_ negb].
  destruct (FS.json_load _) as [[| | | | |fields]|]; try done. cbn.
  destruct (Py.assoc "participants" fields) as [[| | | |ps|]|] eqn:Hps; try done.
  intros Hall. rewrite bool_decide_eq_true_2 by done. cbn.
  destruct (repaired_names ps Hall) as (names & -> & Hnames). cbn.
  destruct (preview_name_strings names Hnames) as [s ->]. by eexists.
Qed.

Lemma readable_has_files (folder : option node) :
  readable_first_file folder = true → glob_messages folder ≠ [].
Proof.
  unfold readable_first_file, FS.child.
  destruct (Py.assoc _ _) as [n|] eqn:Hn; [|done]. intros _ Hnil.
  apply assoc_elem_of in Hn.
  assert (("message_1.json", n) ∈ glob_messages folder) as Hin
    by (by apply list_elem_of_filter).
  rewrite Hnil in Hin. by apply elem_of_nil in Hin.
Qed.

Lemma conversation_of_readable (inbox : list string) (name : string)
    (entries : list (string * node)) :
  readable_first_file (Some (Dir entries)) = true →
  ∃ c, conversation_of fix_mojibake inbox (name, Dir entries) = Some c
       ∧ folder_name c = name ∧ path c = inbox ++ [name].
Proof.
  intros H. unfold conversation_of. cbn [FS.is_dir negb snd fst].
  pose proof (readable_has_files _ H) as Hne.
  destruct (preview_of_readable _ H) as [p Hp].
  destruct (glob_messages _); [done|]. rewrite Hp. by eexists.
Qed.
End LocatorFacts.

(** C8, as stated, fails: a folder of the inbox that holds a numbered message
    file is listed only when it has a [message_1.json] from which a preview
    can be read.  Neither a folder with [message_2.json] alone nor one whose
    [message_1.json] is not JSON is listed. *)
Lemma unlisted_conversation_folders :
  Instagram.glob_messages
    (FS.walk (Some Samples.unlisted_inbox) ["only_second"])
  = [("message_2.json",
      Samples.json_file (Samples.export ["Ann"; "Bob"] [Samples.msg "Ann" "a" 100]))]
  ∧ fst <$> Instagram.glob_messages
      (FS.walk (Some Samples.unlisted_inbox) ["broken_first"])
    = ["message_1.json"; "message_2.json"]
  ∧ Instagram.find_inbox_path (Some (Samples.archive_of Samples.unlisted_inbox))
    = Ok (Some ["your_instagram_activity"; "messages"; "inbox"])
  ∧ Instagram.find_conversations id (Some (Samples.archive_of Samples.unlisted_inbox))
    = Ok [].
Proof. by vm_compute. Qed.

(** C8, amended.  Every immediate subdirectory of the inbox that has a
    [message_1.json] holding an object whose participants, when there are
    any, are a list of objects with string names, is listed as a
    conversation, under its folder name and path. *)
Theorem find_conversations_lists_readable
    (fix_mojibake : string → string) (extracted : option node)
    (inbox : list string) (name : string) (entries : list (string * node)) :
  Instagram.find_inbox_path extracted = Ok (Some inbox) →
  (name, Dir entries) ∈ FS.listing (FS.walk extracted inbox) →
  Instagram.readable_first_file (Some (Dir entries)) = true →
  ∃ conversations c,
    Instagram.find_conversations fix_mojibake extracted = Ok conversations
    ∧ c ∈ conversations
    ∧ Instagram.folder_name c = name
    ∧ Instagram.path c = inbox ++ [name].
Proof.
  intros Hinbox Hin Hread. unfold Instagram.find_conversations. rewrite Hinbox.
  destruct (conversation_of_readable fix_mojibake inbox name entries Hread)
    as (c & Hc & Hname & Hpath).
  eexists _, c. split_and!; [done| |done..].
  rewrite sort_by_reverse_Permutation. apply list_elem_of_omap. eauto.
Qed.

Lemma find_conversations_lists_readable_witness :
  ∃ conversations c,
    Instagram.find_conversations id (Some (Samples.archive_of Samples.listed_inbox))
    = Ok conversations
    ∧ c ∈ conversations
    ∧ Instagram.folder_name c = "ann_123"
    ∧ Instagram.path c = ["your_instagram_activity"; "messages"; "inbox"] ++ ["ann_123"].
Proof.
  eapply (find_conversations_lists_readable id
            (Some (Samples.archive_of Samples.listed_inbox))).
  - by vm_compute.
  - vm_compute. left.
  - by vm_compute.
Defined.

(** ** Vendor-B locator *)

Section DiscordLocatorFacts.
Import Discord.
Context (index : json) (messages_path : list string).

Lemma conversation_of_untagged (e : string * node) :
  tagged_dm e = false → conversation_of index messages_path e = None.
Proof.
  unfold tagged_dm, conversation_of, read_channel.
  destruct (FS.is_dir _); [|done]. destruct (String.prefix "c" e.1); [|done].
  cbn [andb negb].
  destruct (FS.child _ "channel.json") as [n|]; [|done]. cbn [FS.exists_ negb].
  destruct (FS.json_load _) as [[| | | | |fields]|]; try done. cbn.
  by intros ->.
Qed.


Lemma count_messages_stored (e : string * node) :
  count_messages (Some e.2) = stored_messages e.
Proof.
  unfold count_messages, stored_messages.
  destruct (FS.child _ "messages.json") as [[f| | |]|]; try done.
  cbn. destruct (parsed f) as [[]|]; done.
Qed.

(** The unit of a direct-message channel folder, when the index can name
    it. *)
Lemma conversation_of_tagged (e : string * node) :
  tagged_dm e = true →
  conversation_of index messages_path e
  = (shown ← index_name index (channel_id_of e);
     Some {| folder_name := e.1; display_name := strip_dm_prefix shown;
             path := messages_path ++ [e.1];
             message_count := stored_messages e;
             channel_id := channel_id_of e |}).
Proof.
  rewrite <-count_messages_stored.
  unfold tagged_dm, channel_id_of, conversation_of, read_channel, index_name.
  destruct (FS.is_dir _); [|done]. destruct (String.prefix "c" e.1); [|done].
  cbn [andb negb].
  destruct (FS.child _ "channel.json") as [n|]; [|done]. cbn [FS.exists_ negb].
  destruct (FS.json_load _) as [[| | | | |fields]|]; try done.
  cbn -[Text.drop]. intros Htype. rewrite Htype. cbn -[Text.drop].
  unfold Py.get_value.
  generalize (default (JStr (Text.drop 1 e.1)) (Py.assoc "id" fields)).
  generalize (count_messages (Some e.2)).
  intros count cid. destruct index as [| | | | |o]; try (by destruct cid).
  destruct cid as [| | |k| |]; try done.
  cbn -[Text.drop String.append]. destruct (Py.assoc k o) as [[| | |s| |]|]; try done.
Qed.

Lemma conversation_of_named (e : string * node) :
  is_Some (conversation_of index messages_path e) ↔ named_dm index e = true.
Proof.
  unfold named_dm. destruct (tagged_dm e) eqn:Htag.
  - rewrite conversation_of_tagged by done. cbn [andb].
    rewrite bool_decide_eq_true.
    destruct (index_name _ _); cbn; [split; intros _; by eexists|done].
  - rewrite conversation_of_untagged by done. cbn. split; [by intros []|done].
Qed.

Lemma listed_channels (folders : list (string * node)) :
  folder_name <$> omap (conversation_of index messages_path) folders
  = fst <$> filter (λ e, named_dm index e = true) folders.
Proof.
  induction folders as [|e folders IH]; [done|].
  destruct (named_dm index e) eqn:Hnamed.
  - rewrite filter_cons_True by done. cbn. rewrite <-IH.
    pose proof (proj2 (conversation_of_named e) Hnamed) as [c Hc].
    rewrite Hc. cbn. f_equal.
    apply andb_true_iff in Hnamed as [Htag _].
    rewrite conversation_of_tagged in Hc by done.
    destruct (index_name _ _); by simplify_eq/=.
  - rewrite filter_cons_False by (by rewrite Hnamed). cbn. rewrite <-IH.
    destruct (conversation_of index messages_path e) as [c|] eqn:Hc; [|done].
    assert (named_dm index e = true) by (apply conversation_of_named; by eexists).
    congruence.
Qed.
End DiscordLocatorFacts.

Lemma Sorted_weaken {A} (R1 R2 : relation A) (l : list A) :
  (∀ a b, R1 a b → R2 a b) → Sorted R1 l → Sorted R2 l.
Proof.
  intros HR. induction 1 as [|x l _ IH Hd]; constructor; [done|].
  destruct Hd; constructor; auto.
Qed.




(** ** Vendor-B merger *)

Section ConvertFacts.
Import Discord.
Context (strptime_ms : string → option Z).

(** What a successful conversion returns. *)
Lemma convert_inv (parent folder : option node) (r : json) :
  convert_discord_to_instagram_format strptime_ms parent folder = Some r →
  ∃ source src_msgs kept participants,
    FS.json_load (FS.child (FS.listing folder) "messages.json") = Ok source
    ∧ Py.iter source = Ok src_msgs
    ∧ convert_messages strptime_ms src_msgs = Ok kept
    ∧ r = JObj ([("participants", JArr participants);
                 ("messages", JArr (reverse (Py.sort_by Z.ltb converted_timestamp kept)));
                 ("has_sender_info", JBool (existsb real_sender kept))]
                ++ if existsb real_sender kept then []
                   else [("warning", JStr warning_text)]).
Proof.
  unfold convert_discord_to_instagram_format.
  destruct (negb _); [done|].
  destruct (convert_body _ _ _) as [r'|] eqn:Hbody; [|done]. intros [= <-].
  unfold convert_body in Hbody.
  destruct (FS.json_load _) as [source|] eqn:Hsource; [|done]. cbn in Hbody.
  destruct (add_usernames _ _ _) as [[participants seen]|]; [|done]. cbn in Hbody.
  match type of Hbody with
  | (?p ≫= _) = _ => destruct p as [participants'|]; [|done]
  end. cbn in Hbody.
  destruct (Py.iter source) as [src_msgs|] eqn:Hiter; [|done]. cbn in Hbody.
  destruct (convert_messages _ _) as [kept|] eqn:Hkept; [|done]. cbn in Hbody.
  injection Hbody as <-.
  exists source, src_msgs, kept,
    (match participants' with
     | [] => [name_entry (JStr "Discord_User")]
     | _ => participants'
     end).
  split_and!; [done..|]. by destruct (existsb real_sender kept).
Qed.

Lemma convert_messages_shape (src_msgs kept : list json) :
  convert_messages strptime_ms src_msgs = Ok kept →
  Forall (λ m, ∃ sender content ts, m = converted sender content ts) kept.
Proof.
  unfold convert_messages.
  destruct (mapM_result _ _) as [each|] eqn:He; [|done]. intros [= <-].
  apply mapM_result_Ok in He. apply Forall_forall. intros m Hm.
  apply list_elem_of_omap in Hm as (om & Hom & Hid). cbn in Hid. subst om.
  apply list_elem_of_lookup in Hom as [i Hi].
  destruct (Forall2_lookup_r _ _ _ _ _ He Hi) as (msg & _ & Hmsg).
  unfold convert_message in Hmsg.
  destruct msg; try done. case_match; simplify_eq. by eexists _, _, _.
Qed.

Lemma eqb_JStr (x : json) (s : string) : Py.eqb x (JStr s) = true ↔ x = JStr s.
Proof.
  destruct x; cbn; try by split.
  rewrite String.eqb_eq. split; congruence.
Qed.

Lemma eqb_JNull (x : json) : Py.eqb x JNull = true ↔ x = JNull.
Proof. by destruct x; cbn; split. Qed.

(** [real_sender] on a converted message: the name is none of the three
    placeholders. *)
Lemma real_sender_converted (sender content : json) (ts : Z) :
  real_sender (converted sender content ts) = true
  ↔ sender ≠ JStr "Unknown" ∧ sender ≠ JStr "Discord_User" ∧ sender ≠ JNull.
Proof.
  unfold real_sender. cbn -[Py.eqb].
  rewrite negb_true_iff, !orb_false_iff.
  rewrite <-!not_true_iff_false, !eqb_JStr, eqb_JNull. intuition congruence.
Qed.
End ConvertFacts.

(** C9, as stated, fails: the conversion also counts a missing name,
    [None], as a placeholder.  A message whose author has a null [Username]
    is converted with the sender [None], which is neither ['Unknown'] nor
    ['Discord_User'], and yet [has_sender_info] is false and the warning is
    attached. *)
Lemma null_sender_is_a_placeholder :
  ∃ ts,
    Discord.convert_discord_to_instagram_format Samples.utc_clock
      (Some Samples.discord_messages_dir) (Some Samples.null_username_channel)
    = Some (JObj [("participants",
                   JArr [Discord.name_entry (JStr "bob"); Discord.name_entry (JStr "Me")]);
                  ("messages", JArr [Discord.converted JNull (JStr "a") ts]);
                  ("has_sender_info", JBool false);
                  ("warning", JStr Discord.warning_text)])
    ∧ JNull ≠ JStr "Unknown" ∧ JNull ≠ JStr "Discord_User".
Proof. eexists. by vm_compute. Qed.

(** C9, amended.  On a conversion that succeeds, [has_sender_info] is true
    if and only if some converted message has a sender name that is none of
    ['Unknown'], ['Discord_User'] and [None]; the warning is attached
    exactly when [has_sender_info] is false. *)
Theorem has_sender_info_flag
    (strptime_ms : string → option Z) (parent folder : option node) (r : json) :
  Discord.convert_discord_to_instagram_format strptime_ms parent folder = Some r →
  ∃ fields msgs (has_sender_info : bool),
    r = JObj fields
    ∧ Py.assoc "messages" fields = Some (JArr msgs)
    ∧ Py.assoc "has_sender_info" fields = Some (JBool has_sender_info)
    ∧ (has_sender_info = true ↔
         ∃ m sender, m ∈ msgs ∧ Py.getitem m "sender_name" = Ok sender
                     ∧ sender ≠ JStr "Unknown" ∧ sender ≠ JStr "Discord_User"
                     ∧ sender ≠ JNull)
    ∧ (has_sender_info = false ↔
         Py.assoc "warning" fields = Some (JStr Discord.warning_text))
    ∧ (has_sender_info = true ↔ Py.assoc "warning" fields = None).
Proof.
  intros (source & src_msgs & kept & participants & _ & _ & Hkept & ->)%convert_inv.
  pose proof (convert_messages_shape _ _ _ Hkept) as Hshape.
  eexists _, (reverse (Py.sort_by Z.ltb Discord.converted_timestamp kept)),
    (existsb Discord.real_sender kept).
  split_and!; [done|reflexivity|reflexivity| | |].
  - rewrite existsb_exists. split.
    + intros (m & Hm%list_elem_of_In & Hreal).
      rewrite Forall_forall in Hshape.
      destruct (Hshape m Hm) as (sender & content & ts & ->).
      exists (Discord.converted sender content ts), sender. split_and!.
      * by rewrite elem_of_reverse, sort_by_Permutation.
      * done.
      * by apply real_sender_converted in Hreal as (? & ? & ?).
      * by apply real_sender_converted in Hreal as (? & ? & ?).
      * by apply real_sender_converted in Hreal as (? & ? & ?).
    + intros (m & sender & Hm & Hget & H1 & H2 & H3).
      rewrite elem_of_reverse, sort_by_Permutation in Hm.
      exists m. split; [by apply list_elem_of_In|].
      rewrite Forall_forall in Hshape.
      destruct (Hshape m Hm) as (sender' & content & ts & ->).
      cbn in Hget. simplify_eq. by apply real_sender_converted.
  - by destruct (existsb _ _).
  - by destruct (existsb _ _).
Qed.

Lemma has_sender_info_flag_witness :
  ∃ fields msgs (has_sender_info : bool),
    JObj [("participants",
           JArr [Discord.name_entry (JStr "ann"); Discord.name_entry (JStr "bob")]);
          ("messages", JArr [Discord.converted (JStr "bob") (JStr "hi") 1750065900000;
                             Discord.converted (JStr "ann") (JStr "hello") 1750065852000]);
          ("has_sender_info", JBool true)]
    = JObj fields
    ∧ Py.assoc "messages" fields = Some (JArr msgs)
    ∧ Py.assoc "has_sender_info" fields = Some (JBool has_sender_info)
    ∧ (has_sender_info = true ↔
         ∃ m sender, m ∈ msgs ∧ Py.getitem m "sender_name" = Ok sender
                     ∧ sender ≠ JStr "Unknown" ∧ sender ≠ JStr "Discord_User"
                     ∧ sender ≠ JNull)
    ∧ (has_sender_info = false ↔
         Py.assoc "warning" fields = Some (JStr Discord.warning_text))
    ∧ (has_sender_info = true ↔ Py.assoc "warning" fields = None).
Proof.
  apply (has_sender_info_flag Samples.utc_clock (Some Samples.discord_messages_dir)
           (FS.walk (Some Samples.discord_messages_dir) ["c111"])).
  by vm_compute.
Defined.

(** ** Deduplication *)

(** C4, as stated, fails: neither merger removes anything.  A message that
    occurs twice in one vendor-A file and once more in another occurs three
    times in the merged record, and a vendor-B channel that holds a message
    twice is converted to a record that holds it twice. *)
Lemma mergers_keep_duplicates :
  ∃ ts,
    Instagram.merge_conversation_messages (Some Samples.repeated_chunks)
    = Ok (Some (JObj [("participants",
                       JArr [JObj [("name", JStr "Ann")]; JObj [("name", JStr "Bob")]]);
                      ("messages",
                       JArr [Samples.msg "Ann" "a" 100; Samples.msg "Ann" "a" 100;
                             Samples.msg "Ann" "a" 100])]))
    ∧ Discord.convert_discord_to_instagram_format Samples.utc_clock
        (Some Samples.discord_messages_dir) (Some Samples.repeated_channel)
      = Some (JObj [("participants", JArr [Discord.name_entry (JStr "ann")]);
                    ("messages",
                     JArr [Discord.converted (JStr "ann") (JStr "hello") ts;
                           Discord.converted (JStr "ann") (JStr "hello") ts]);
                    ("has_sender_info", JBool true)]).
Proof. eexists. by vm_compute. Qed.

(** C4, amended.  Both mergers keep every message with the multiplicity it
    has in the input.  On a vendor-A conversation folder the merged list is
    a rearrangement of the message arrays of the numbered files put
    together; on a vendor-B conversion that succeeds it is a rearrangement
    of the converted messages with non-empty content.  So the merged list
    is free of duplicates exactly when that input is. *)
Theorem mergers_keep_every_message :
  (∀ folder,
     Instagram.glob_messages folder ≠ [] → Instagram.vendorA_folder folder →
     ∃ record msgs,
       Instagram.merge_conversation_messages folder = Ok (Some (JObj record))
       ∧ Py.assoc "messages" record = Some (JArr msgs)
       ∧ msgs ≡ₚ Instagram.all_message_arrays folder
       ∧ (NoDup msgs ↔ NoDup (Instagram.all_message_arrays folder)))
  ∧ (∀ strptime_ms parent folder r,
     Discord.convert_discord_to_instagram_format strptime_ms parent folder = Some r →
     ∃ source src_msgs kept fields msgs,
       FS.json_load (FS.child (FS.listing folder) "messages.json") = Ok source
       ∧ Py.iter source = Ok src_msgs
       ∧ Discord.convert_messages strptime_ms src_msgs = Ok kept
       ∧ r = JObj fields
       ∧ Py.assoc "messages" fields = Some (JArr msgs)
       ∧ msgs ≡ₚ kept
       ∧ (NoDup msgs ↔ NoDup kept)).
Proof.
  split.
  - intros folder Hne Hwf.
    destruct (merge_vendorA folder Hwf Hne) as (files & base & Hfiles & _ & Hmerge).
    assert (Py.sort_by Z.ltb Instagram.timestamp
              (flat_map (λ e, default [] (Instagram.message_array e.2)) files)
            ≡ₚ Instagram.all_message_arrays folder) as Hperm.
    { rewrite sort_by_Permutation. unfold Instagram.all_message_arrays.
      apply message_files_Permutation in Hfiles.
      rewrite !flat_map_concat_map. by rewrite Hfiles. }
    eexists _, _. split_and!; [exact Hmerge|apply assoc_set_same|done|].
    by rewrite Hperm.
  - intros strptime_ms parent folder r
      (source & src_msgs & kept & participants & Hs & Hi & Hk & ->)%convert_inv.
    assert (reverse (Py.sort_by Z.ltb Discord.converted_timestamp kept) ≡ₚ kept)
      as Hperm by (by rewrite reverse_Permutation, sort_by_Permutation).
    eexists source, src_msgs, kept, _,
      (reverse (Py.sort_by Z.ltb Discord.converted_timestamp kept)).
    split_and!; [done..|reflexivity|done|by rewrite Hperm].
Qed.

Lemma mergers_keep_every_message_witness :
  (∃ record msgs,
     Instagram.merge_conversation_messages (Some Samples.two_chunks)
     = Ok (Some (JObj record))
     ∧ Py.assoc "messages" record = Some (JArr msgs)
     ∧ msgs ≡ₚ Instagram.all_message_arrays (Some Samples.two_chunks)
     ∧ (NoDup msgs ↔ NoDup (Instagram.all_message_arrays (Some Samples.two_chunks))))
  ∧ (∃ source src_msgs kept fields msgs,
     FS.json_load (FS.child (FS.listing (Some Samples.repeated_channel)) "messages.json")
     = Ok source
     ∧ Py.iter source = Ok src_msgs
     ∧ Discord.convert_messages Samples.utc_clock src_msgs = Ok kept
     ∧ JObj [("participants", JArr [Discord.name_entry (JStr "ann")]);
             ("messages",
              JArr [Discord.converted (JStr "ann") (JStr "hello") 1750065852000;
                    Discord.converted (JStr "ann") (JStr "hello") 1750065852000]);
             ("has_sender_info", JBool true)]
       = JObj fields
     ∧ Py.assoc "messages" fields = Some (JArr msgs)
     ∧ msgs ≡ₚ kept
     ∧ (NoDup msgs ↔ NoDup kept)).
Proof.
  destruct mergers_keep_every_message as [HA HB]. split.
  - apply (HA (Some Samples.two_chunks)).
    + vm_compute. discriminate.
    + repeat constructor; try (by eexists; vm_compute).
  - apply (HB Samples.utc_clock (Some Samples.discord_messages_dir)
             (Some Samples.repeated_channel)).
    by vm_compute.
Defined.

(** ** Worked examples *)

(** Two extractions under one identifier: only the second archive is left,
    and the neighbour is as it was. *)
Example extract_zip_twice :
  (after1 ← Zip.extract_zip Samples.write_members
              (Some [("a.txt", Samples.garbage_file); ("c.txt", Samples.garbage_file)])
              "upload"
              (Some {[ "other" := Dir [("kept.txt", Samples.garbage_file)] ]});
   Zip.extract_zip Samples.write_members
     (Some [("b.txt", Samples.garbage_file)]) "upload" after1.1)
  = Some (Some {[ "upload" := Dir [("b.txt", Samples.garbage_file)];
                  "other" := Dir [("kept.txt", Samples.garbage_file)] ]},
          Ok "upload").
Proof. by vm_compute. Qed.

(** An archive that cannot be opened leaves an empty directory behind. *)
Example extract_zip_bad_archive :
  Zip.extract_zip Samples.write_members None "upload"
    (Some {[ "upload" := Dir [("old.txt", Samples.garbage_file)] ]})
  = Some (Some {[ "upload" := Dir [] ]}, Raise).
Proof. by vm_compute. Qed.

(** Without [message_1.json] the record starts from the file with the least
    number, here [message_2.json]. *)
Example merge_later_chunks :
  Instagram.merge_conversation_messages (Some Samples.later_chunks)
  = Ok (Some (JObj [("participants", JArr [JObj [("name", JStr "Ann")]]);
                    ("messages",
                     JArr [Samples.msg "Cid" "a" 100; Samples.msg "Ann" "b" 200])])).
Proof. by vm_compute. Qed.

(** A file that is not JSON is skipped by the loop, but not as the base. *)
Example merge_skips_unreadable_chunk :
  Instagram.merge_conversation_messages
    (Some (Dir [("message_1.json",
                 Samples.json_file (Samples.export ["Ann"] [Samples.msg "Ann" "b" 200]));
                ("message_2.json", Samples.garbage_file)]))
  = Ok (Some (JObj [("participants", JArr [JObj [("name", JStr "Ann")]]);
                    ("messages", JArr [Samples.msg "Ann" "b" 200])]))
  ∧ Instagram.merge_conversation_messages
      (Some (Dir [("message_1.json", Samples.garbage_file)])) = Raise
  ∧ Instagram.merge_conversation_messages
      (Some (Dir [("message_1.json",
                   Samples.json_file (Samples.export ["Ann"] []));
                  ("message_old.json",
                   Samples.json_file (Samples.export ["Ann"] []))])) = Raise.
Proof. by vm_compute. Qed.

(** The one exception that escapes [extract_participants]: [sorted] runs
    after the [try] block and cannot order a string and a number. *)
Example extract_participants_mixed_names :
  Processor.extract_participants
    (Some (Samples.json_file
             (JObj [("participants",
                     JArr [JObj [("name", JStr "Ann")]; JObj [("name", JNum 1)]])])))
    "Instagram"
  = Raise
  ∧ Processor.extract_participants (Some Samples.two_chunks_first) "Instagram"
    = Ok [JStr "Ann"; JStr "Bob"].
Proof. by vm_compute. Qed.

(** The boundary sample of a short export counts each message once; the
    text that is hashed stands for its hash here. *)
Example fingerprints_of_short_export :
  Fingerprint.extract_message_fingerprints
    (λ sender content, Py.str sender +:+ ":" +:+ Py.str content)
    (Some Samples.two_chunks_first) 20
  = {[ "Ann:c"; "Bob:d" ]}.
Proof. by vm_compute. Qed.

(** * Further properties of the sources *)

(** ** Archive extraction and cleanup *)

Section CleanupFacts.
Import Zip Cleanup.

Lemma foldl_remove_item (items : list (string * node)) (temp : entries) (k : string) :
  foldl remove_item temp items !! k
  = if bool_decide (k ∈ items.*1) then None else temp !! k.
Proof.
  revert temp. induction items as [|[name n] items IH]; intros temp; [done|].
  cbn [foldl]. rewrite IH. cbn [fmap list_fmap fst].
  assert (remove_item temp (name, n) = delete name temp) as ->
    by (unfold remove_item; by destruct (FS.is_dir _)).
  destruct (decide (k = name)) as [->|Hne].
  - rewrite (bool_decide_eq_true_2 (name ∈ name :: _)) by left.
    rewrite lookup_delete_eq. by destruct (bool_decide _).
  - rewrite lookup_delete_ne by done.
    destruct (decide (k ∈ items.*1)) as [Hin|Hout].
    + by rewrite !bool_decide_eq_true_2 by (done || by right).
    + rewrite !bool_decide_eq_false_2; [done| |done].
      by intros [?|?]%elem_of_cons.
Qed.

Lemma cleanup_zip_spec (zip_id : string) (temp : temp_dir) :
  plain_name zip_id = true →
  free_or_directory (default ∅ temp !! zip_id) = true →
  cleanup_zip zip_id temp = Some (delete zip_id <$> temp, Ok ()).
Proof.
  intros Hplain Hfree. unfold cleanup_zip. rewrite Hplain.
  destruct temp as [d|]; [|done]. cbn in *. unfold clean_up.
  destruct (d !! zip_id) as [[]|] eqn:Hd; try done.
  by rewrite delete_id.
Qed.
End CleanupFacts.

(** X1.  For an identifier that names an entry of the temporary directory
    (a single path component).  Over nothing or a directory [cleanup_zip]
    does not raise and removes that entry and no other: nothing when
    there is none, so that a second call changes nothing; run after an
    extraction under the identifier, one that raised as well, it leaves no
    entry for the identifier and the others as they were before the
    extraction.  Over an entry that is not a directory it raises and
    removes nothing. *)
Theorem cleanup_zip_removes_extraction
    {zipfile : Type}
    (extractall : zipfile → list (string * node) → list (string * node) * result unit)
    (zip : Zip.archive) (zip_id : string) (temp : Zip.temp_dir) :
  Zip.plain_name zip_id = true →
  (Zip.free_or_directory (default ∅ temp !! zip_id) = true →
     Cleanup.cleanup_zip zip_id temp = Some (delete zip_id <$> temp, Ok ())
     ∧ Cleanup.cleanup_zip zip_id (delete zip_id <$> temp)
       = Some (delete zip_id <$> temp, Ok ())
     ∧ ∃ after r,
         Zip.extract_zip extractall zip zip_id temp = Some (after, r)
         ∧ Cleanup.cleanup_zip zip_id after
           = Some (Some (delete zip_id (default ∅ temp)), Ok ()))
  ∧ (Zip.free_or_directory (default ∅ temp !! zip_id) = false →
     Cleanup.cleanup_zip zip_id temp = Some (temp, Raise)).
Proof.
  intros Hplain. split.
  - intros Hfree. split_and!.
    + by apply cleanup_zip_spec.
    + rewrite cleanup_zip_spec; [|done|].
      * destruct temp as [d|]; [|done]. cbn. by rewrite delete_delete_eq.
      * destruct temp as [d|]; [|done]. cbn. by rewrite lookup_delete_eq.
    + rewrite (extract_zip_spec extractall zip) by done. eexists _, _.
      split; [reflexivity|]. rewrite cleanup_zip_spec; [|done|].
      * cbn. by rewrite delete_insert_eq.
      * cbn. by rewrite lookup_insert_eq.
  - intros Hfree. unfold Cleanup.cleanup_zip. rewrite Hplain.
    destruct temp as [d|]; [|done]. cbn in *. unfold Zip.clean_up.
    by destruct (d !! zip_id) as [[]|].
Qed.

Lemma cleanup_zip_removes_extraction_witness :
  Cleanup.cleanup_zip "upload" Samples.temp_with_upload
  = Some (Some {[ "other" := Dir [("kept.txt", Samples.garbage_file)] ]}, Ok ())
  ∧ Cleanup.cleanup_zip "upload" Samples.temp_with_file
    = Some (Samples.temp_with_file, Raise).
Proof.
  split.
  - destruct (cleanup_zip_removes_extraction Samples.write_members None "upload"
                Samples.temp_with_upload eq_refl) as [H _].
    destruct (H ltac:(by vm_compute)) as [H1 _]. rewrite H1. by vm_compute.
  - destruct (cleanup_zip_removes_extraction Samples.write_members None "upload"
                Samples.temp_with_file eq_refl) as [_ H].
    apply H. by vm_compute.
Defined.

(** X2.  [cleanup_all_temp] leaves the temporary directory empty, the
    files in it removed like the directories; it does nothing when the
    temporary directory does not exist. *)
Theorem cleanup_all_temp_empties (temp : Zip.temp_dir) :
  Cleanup.cleanup_all_temp temp
  = match temp with Some _ => Some ∅ | None => None end.
Proof.
  destruct temp as [d|]; [|done]. cbn. f_equal. apply map_eq. intros k.
  rewrite foldl_remove_item, lookup_empty.
  destruct (decide (k ∈ (map_to_list d).*1)) as [Hin|Hout].
  - by rewrite bool_decide_eq_true_2.
  - rewrite bool_decide_eq_false_2 by done.
    destruct (d !! k) as [n|] eqn:Hk; [|done]. destruct Hout.
    apply list_elem_of_fmap. exists (k, n). split; [done|].
    by apply elem_of_map_to_list.
Qed.

(** X3.  What [extract_zip] does when it fails, for an identifier that
    names an entry of the temporary directory.  Over an entry that is not a
    directory it raises and changes nothing.  Otherwise a file that
    [zipfile.ZipFile] rejects makes it raise and leave an empty directory
    under the identifier, in place of what was there, the other entries
    untouched; and the temporary directory exists afterwards, also when it
    did not before. *)
Theorem extract_zip_failures
    {zipfile : Type}
    (extractall : zipfile → list (string * node) → list (string * node) * result unit)
    (zip : Zip.archive) (zip_id : string) (temp : Zip.temp_dir) :
  Zip.plain_name zip_id = true →
  (Zip.free_or_directory (default ∅ temp !! zip_id) = false →
     Zip.extract_zip extractall zip zip_id temp = Some (temp, Raise))
  ∧ (Zip.free_or_directory (default ∅ temp !! zip_id) = true →
     ∃ after,
       Zip.extract_zip extractall None zip_id temp = Some (Some after, Raise)
       ∧ after !! zip_id = Some (Dir [])
       ∧ ∀ other, other ≠ zip_id → after !! other = default ∅ temp !! other).
Proof.
  intros Hplain. split; intros Hfree.
  - by apply extract_zip_blocked.
  - rewrite (extract_zip_spec extractall None) by done. eexists.
    split; [reflexivity|]. split.
    + by rewrite lookup_insert_eq.
    + intros other Hne. by rewrite lookup_insert_ne.
Qed.

Lemma extract_zip_failures_witness :
  Zip.extract_zip Samples.write_members
    (Some [("b.txt", Samples.garbage_file)]) "upload" Samples.temp_with_file
  = Some (Samples.temp_with_file, Raise)
  ∧ ∃ after,
      Zip.extract_zip Samples.write_members None "upload" None
      = Some (Some after, Raise)
      ∧ after !! "upload" = Some (Dir [])
      ∧ ∀ other, other ≠ "upload" → after !! other = default ∅ (None : Zip.temp_dir) !! other.
Proof.
  split.
  - destruct (extract_zip_failures Samples.write_members
                (Some [("b.txt", Samples.garbage_file)]) "upload"
                Samples.temp_with_file eq_refl) as [H _].
    apply H. by vm_compute.
  - destruct (extract_zip_failures Samples.write_members
                (Some [("b.txt", Samples.garbage_file)]) "upload" None eq_refl)
      as [_ H].
    apply H. by vm_compute.
Defined.

(** ** What the locators never list *)

Section LocatorSoundness.
Import Discord.

(** A unit comes only from a channel folder tagged as a direct message,
    whatever the index holds. *)
Lemma conversation_of_Some (index : json) (messages_path : list string)
    (e : string * node) (c : conversation) :
  conversation_of index messages_path e = Some c →
  tagged_dm e = true
  ∧ folder_name c = e.1 ∧ path c = messages_path ++ [e.1]
  ∧ message_count c = count_messages (Some e.2)
  ∧ channel_id c = channel_id_of e.
Proof.
  intros Hc. destruct (tagged_dm e) eqn:Htag;
    [|by rewrite conversation_of_untagged in Hc].
  split; [done|]. revert Hc Htag.
  unfold tagged_dm, channel_id_of, conversation_of, read_channel.
  destruct (FS.is_dir _); [|done]. destruct (String.prefix "c" e.1); [|done].
  cbn [andb negb].
  destruct (FS.child _ "channel.json") as [n|]; [|done]. cbn [FS.exists_ negb].
  destruct (FS.json_load _) as [[| | | | |fields]|]; try done.
  cbn -[Text.drop]. intros Hc Htype. rewrite Htype in Hc. cbn -[Text.drop] in Hc.
  destruct (Py.get_value _ _ _) as [shown|]; [|done]. cbn -[Text.drop] in Hc.
  destruct (Py.startswith _ _) as [has|]; [|done]. cbn -[Text.drop] in Hc.
  by simplify_eq.
Qed.

Lemma fallback_name_has_no_prefix (s : string) :
  String.prefix dm_prefix ("DM " +:+ s) = false.
Proof. reflexivity. Qed.

(** Without an index, the display name is made from the channel id. *)
Lemma conversation_of_no_index (messages_path : list string)
    (e : string * node) (c : conversation) :
  conversation_of (JObj []) messages_path e = Some c →
  display_name c = "DM " +:+ Py.str (channel_id c).
Proof.
  unfold conversation_of, read_channel.
  destruct (FS.is_dir _); [|done]. destruct (String.prefix "c" e.1); [|done].
  cbn [andb negb].
  destruct (FS.child _ "channel.json") as [n|]; [|done]. cbn [FS.exists_ negb].
  destruct (FS.json_load _) as [[| | | | |fields]|]; try done.
  cbn -[Text.drop]. destruct (negb _); [done|]. cbn -[Text.drop].
  generalize (default (JStr (Text.drop 1 e.1)) (Py.assoc "id" fields)).
  intros cid. unfold Py.get_value. destruct (Py.hashable cid); [|done].
  replace (match cid with JNull | _ => JStr ("DM " +:+ Py.str cid) end)
    with (JStr ("DM " +:+ Py.str cid)) by (by destruct cid).
  cbn -[String.append Py.str]. rewrite fallback_name_has_no_prefix.
  by intros [= <-].
Qed.
End LocatorSoundness.

(** X4.  The vendor-B enumeration never lists anything but a DM channel,
    whatever the index and the other files hold: every unit it returns comes
    from a directory of the messages folder whose name starts with [c] and
    whose [channel.json] has type [DM], with that folder's name, path, id
    and message count; the units are in descending order of message count;
    and an archive without a messages folder gives the empty list. *)
Theorem find_dm_conversations_sound
    (extracted : option node) (conversations : list Discord.conversation) :
  Discord.find_dm_conversations extracted = Ok conversations →
  (Discord.find_messages_path extracted = Ok None → conversations = [])
  ∧ (∀ c, c ∈ conversations →
       ∃ messages_path e,
         Discord.find_messages_path extracted = Ok (Some messages_path)
         ∧ e ∈ FS.listing (FS.walk extracted messages_path)
         ∧ Discord.tagged_dm e = true
         ∧ Discord.folder_name c = e.1
         ∧ Discord.path c = messages_path ++ [e.1]
         ∧ Discord.message_count c = Discord.count_messages (Some e.2)
         ∧ Discord.channel_id c = Discord.channel_id_of e)
  ∧ Sorted (λ a b, Discord.message_count b ≤ Discord.message_count a)%nat
      conversations.
Proof.
  unfold Discord.find_dm_conversations.
  destruct (Discord.find_messages_path extracted) as [[mp|]|] eqn:Hmp; [| |done].
  - cbn. destruct (FS.iterdir _) as [folders|] eqn:Hit; [|done]. cbn.
    intros [= <-]. split_and!; [done| |].
    + intros c Hc. rewrite sort_by_reverse_Permutation in Hc.
      apply list_elem_of_omap in Hc as (e & He & Hc).
      apply conversation_of_Some in Hc as (? & ? & ? & ? & ?).
      exists mp, e. split_and!; try done.
      destruct (FS.walk extracted mp) as [[]|]; cbn in Hit; by simplify_eq.
    + eapply Sorted_weaken; [|apply sort_by_reverse_Sorted]. cbn. lia.
  - cbn. intros [= <-]. split_and!; [done| |constructor].
    by intros c ?%elem_of_nil.
Qed.

Lemma find_dm_conversations_sound_witness :
  (Discord.find_messages_path (Some Samples.discord_archive) = Ok None →
     [ {| Discord.folder_name := "c111"; Discord.display_name := "bob#0";
          Discord.path := ["messages"; "c111"]; Discord.message_count := 2;
          Discord.channel_id := JStr "111" |} ] = [])
  ∧ (∀ c,
       c ∈ [ {| Discord.folder_name := "c111"; Discord.display_name := "bob#0";
                Discord.path := ["messages"; "c111"]; Discord.message_count := 2;
                Discord.channel_id := JStr "111" |} ] →
       ∃ messages_path e,
         Discord.find_messages_path (Some Samples.discord_archive)
         = Ok (Some messages_path)
         ∧ e ∈ FS.listing (FS.walk (Some Samples.discord_archive) messages_path)
         ∧ Discord.tagged_dm e = true
         ∧ Discord.folder_name c = e.1
         ∧ Discord.path c = messages_path ++ [e.1]
         ∧ Discord.message_count c = Discord.count_messages (Some e.2)
         ∧ Discord.channel_id c = Discord.channel_id_of e)
  ∧ Sorted (λ a b, Discord.message_count b ≤ Discord.message_count a)%nat
      [ {| Discord.folder_name := "c111"; Discord.display_name := "bob#0";
           Discord.path := ["messages"; "c111"]; Discord.message_count := 2;
           Discord.channel_id := JStr "111" |} ].
Proof.
  apply (find_dm_conversations_sound (Some Samples.discord_archive)). by vm_compute.
Defined.

Lemma load_index_json_unreadable (messages_path : option node) :
  FS.json_load (FS.child (FS.listing messages_path) "index.json") = Raise →
  Discord.load_index_json messages_path = JObj [].
Proof.
  intros H. unfold Discord.load_index_json. rewrite H. by destruct (negb _).
Qed.

Lemma named_without_index (e : string * node) :
  Discord.named_dm (JObj []) e = true
  ↔ Discord.tagged_dm e = true ∧ Py.hashable (Discord.channel_id_of e) = true.
Proof.
  unfold Discord.named_dm. rewrite andb_true_iff, bool_decide_eq_true.
  apply and_iff_compat_l. unfold Discord.index_name.
  destruct (Discord.channel_id_of e); cbn; split; first [done|by eexists|by intros []].
Qed.

(** X5.  When [index.json] is missing or cannot be parsed and the messages
    folder can be listed, the enumeration still returns every channel
    folder whose descriptor has type DM and whose channel id can be a
    dictionary key (anything but a list or an object), and only those, each
    under the display name ["DM "] followed by its channel id. *)
Theorem dm_display_name_without_index
    (extracted : option node) (messages_path : list string)
    (folders : list (string * node)) :
  Discord.find_messages_path extracted = Ok (Some messages_path) →
  FS.json_load (FS.child (FS.listing (FS.walk extracted messages_path)) "index.json")
  = Raise →
  FS.iterdir (FS.walk extracted messages_path) = Ok folders →
  ∃ conversations,
    Discord.find_dm_conversations extracted = Ok conversations
    ∧ Discord.folder_name <$> conversations
      ≡ₚ fst <$> filter (λ e, Discord.tagged_dm e = true
                              ∧ Py.hashable (Discord.channel_id_of e) = true) folders
    ∧ ∀ c, c ∈ conversations →
           Discord.display_name c = "DM " +:+ Py.str (Discord.channel_id c).
Proof.
  intros Hmp Hindex Hiter. unfold Discord.find_dm_conversations. rewrite Hmp. cbn.
  rewrite (load_index_json_unreadable _ Hindex), Hiter. cbn.
  eexists. split_and!; [done| |].
  - rewrite sort_by_reverse_Permutation, listed_channels.
    by rewrite (list_filter_iff _ _ _ named_without_index).
  - intros c Hc. rewrite sort_by_reverse_Permutation in Hc.
    apply list_elem_of_omap in Hc as (e & _ & Hc).
    by eapply conversation_of_no_index.
Qed.

Lemma dm_display_name_without_index_witness :
  ∃ conversations,
    Discord.find_dm_conversations (Some Samples.discord_no_index_archive)
    = Ok conversations
    ∧ Discord.folder_name <$> conversations = ["c333"; "c111"]
    ∧ Discord.display_name <$> conversations = ["DM 333"; "DM 111"]
    ∧ Discord.folder_name <$> conversations
      ≡ₚ fst <$> filter (λ e, Discord.tagged_dm e = true
                              ∧ Py.hashable (Discord.channel_id_of e) = true)
                   (FS.listing (FS.walk (Some Samples.discord_no_index_archive)
                                  ["messages"])).
Proof.
  destruct (dm_display_name_without_index (Some Samples.discord_no_index_archive)
              ["messages"]
              (FS.listing (FS.walk (Some Samples.discord_no_index_archive) ["messages"])))
    as (conversations & Hc & Hnames & Hshown).
  - by vm_compute.
  - by vm_compute.
  - by vm_compute.
  - exists conversations. split; [exact Hc|].
    split_and!; [| |exact Hnames]; vm_compute in Hc; injection Hc as <-; by vm_compute.
Defined.

(** ** Vendor-A locator: what it lists *)

Section InboxFacts.
Import Instagram.
Context (fix_mojibake : string → string).

Lemma conversation_of_inv (inbox : list string) (folder : string * node)
    (c : conversation) :
  conversation_of fix_mojibake inbox folder = Some c →
  ∃ p,
    FS.is_dir (Some folder.2) = true
    ∧ FS.exists_ (FS.child (FS.listing (Some folder.2)) "message_1.json") = true
    ∧ get_conversation_preview fix_mojibake (Some folder.2) = Some p
    ∧ c = {| folder_name := folder.1;
             display_name := preview_display_name p;
             path := inbox ++ [folder.1];
             participants := preview_participants p;
             message_count := count_messages (Some folder.2) |}.
Proof.
  unfold conversation_of. destruct (FS.is_dir _); [|done]. cbn [negb].
  destruct (glob_messages _); [done|].
  destruct (get_conversation_preview _ _) as [pv|] eqn:Hp; [|done].
  cbn. intros [= <-]. exists pv. split_and!; [done| |done|].
  - unfold get_conversation_preview in Hp.
    by destruct (FS.exists_ _).
  - f_equal. unfold get_conversation_preview in Hp.
    destruct (negb _); [done|].
    repeat (match type of Hp with
            | match ?r ≫= _ with _ => _ end = _ => destruct r; [|done]; cbn in Hp
            end).
    by simplify_eq.
Qed.

(** A preview is made only from a [message_1.json] that parses. *)
Lemma preview_parses (folder : option node) (p : preview) :
  get_conversation_preview fix_mojibake folder = Some p →
  ∃ data, FS.json_load (FS.child (FS.listing folder) "message_1.json") = Ok data.
Proof.
  unfold get_conversation_preview. destruct (negb _); [done|].
  destruct (FS.json_load _) as [data|]; [|done]. by exists data.
Qed.
End InboxFacts.

(** X6.  The vendor-A enumeration lists only directories of the inbox
    whose [message_1.json] parses as JSON, each with the folder's name, its
    path below the inbox and the message count of the folder; the list is
    in descending order of message count; and an archive without an inbox
    gives the empty list. *)
Theorem find_conversations_sound
    (fix_mojibake : string → string) (extracted : option node)
    (conversations : list Instagram.conversation) :
  Instagram.find_conversations fix_mojibake extracted = Ok conversations →
  (Instagram.find_inbox_path extracted = Ok None → conversations = [])
  ∧ (∀ c, c ∈ conversations →
       ∃ inbox folder data,
         Instagram.find_inbox_path extracted = Ok (Some inbox)
         ∧ folder ∈ FS.listing (FS.walk extracted inbox)
         ∧ FS.is_dir (Some folder.2) = true
         ∧ FS.json_load (FS.child (FS.listing (Some folder.2)) "message_1.json")
           = Ok data
         ∧ Instagram.folder_name c = folder.1
         ∧ Instagram.path c = inbox ++ [folder.1]
         ∧ Instagram.message_count c = Instagram.count_messages (Some folder.2))
  ∧ Sorted (λ a b, Instagram.message_count b ≤ Instagram.message_count a)%nat
      conversations.
Proof.
  unfold Instagram.find_conversations.
  destruct (Instagram.find_inbox_path extracted) as [[inbox|]|]; [| |done].
  - cbn. intros [= <-]. split_and!; [done| |].
    + intros c Hc. rewrite sort_by_reverse_Permutation in Hc.
      apply list_elem_of_omap in Hc as (folder & Hf & Hc).
      apply conversation_of_inv in Hc as (p & ? & ? & Hp & ->).
      apply preview_parses in Hp as [data Hdata].
      by exists inbox, folder, data.
    + eapply Sorted_weaken; [|apply sort_by_reverse_Sorted]. cbn. lia.
  - cbn. intros [= <-]. split_and!; [done| |constructor].
    by intros c ?%elem_of_nil.
Qed.

Lemma find_conversations_sound_witness :
  Instagram.find_conversations id (Some (Samples.archive_of Samples.mixed_inbox))
  = Ok Samples.mixed_inbox_units
  ∧ (Instagram.find_inbox_path (Some (Samples.archive_of Samples.mixed_inbox)) = Ok None →
     Samples.mixed_inbox_units = [])
  ∧ (∀ c, c ∈ Samples.mixed_inbox_units →
       ∃ inbox folder data,
         Instagram.find_inbox_path (Some (Samples.archive_of Samples.mixed_inbox))
         = Ok (Some inbox)
         ∧ folder ∈ FS.listing (FS.walk (Some (Samples.archive_of Samples.mixed_inbox)) inbox)
         ∧ FS.is_dir (Some folder.2) = true
         ∧ FS.json_load (FS.child (FS.listing (Some folder.2)) "message_1.json")
           = Ok data
         ∧ Instagram.folder_name c = folder.1
         ∧ Instagram.path c = inbox ++ [folder.1]
         ∧ Instagram.message_count c = Instagram.count_messages (Some folder.2))
  ∧ Sorted (λ a b, Instagram.message_count b ≤ Instagram.message_count a)%nat
      Samples.mixed_inbox_units.
Proof.
  assert (Instagram.find_conversations id (Some (Samples.archive_of Samples.mixed_inbox))
          = Ok Samples.mixed_inbox_units) as Hfind by (vm_compute; reflexivity).
  split; [exact Hfind|].
  exact (find_conversations_sound id (Some (Samples.archive_of Samples.mixed_inbox))
           _ Hfind).
Defined.

Section InboxPathFacts.
Import Instagram.

Lemma inbox_patterns_shape (top : list (string * node)) (pattern : list string) :
  pattern ∈ inbox_patterns top →
  pattern = direct_inbox
  ∨ ∃ item, item ∈ top ∧ FS.is_dir (Some item.2) = true
            ∧ (pattern = item.1 :: direct_inbox
               ∨ pattern = [item.1; "messages"; "inbox"]).
Proof.
  unfold inbox_patterns. intros [->|Hin]%elem_of_cons; [by left|right].
  apply list_elem_of_In, in_flat_map in Hin as (item & Hitem%list_elem_of_In & Hin).
  exists item. destruct (FS.is_dir (Some item.2)); [|by destruct Hin].
  split_and!; [done..|]. cbn in Hin. intuition.
Qed.
End InboxPathFacts.

(** X7.  In an extracted directory, [find_inbox_path] answers the inbox of
    the export root when that is a directory; whatever it answers is a
    directory and is either that path or the same path, or
    [messages/inbox], inside a directory of the top level; and it answers
    [None] only when none of these paths is a directory. *)
Theorem find_inbox_path_finds_directory
    (extracted : option node) (top : list (string * node)) :
  FS.iterdir extracted = Ok top →
  ∃ found,
    Instagram.find_inbox_path extracted = Ok found
    ∧ (FS.is_dir (FS.walk extracted direct_inbox) = true → found = Some direct_inbox)
    ∧ (∀ inbox, found = Some inbox →
         FS.is_dir (FS.walk extracted inbox) = true
         ∧ (inbox = direct_inbox
            ∨ ∃ item, item ∈ top ∧ FS.is_dir (Some item.2) = true
                      ∧ (inbox = item.1 :: direct_inbox
                         ∨ inbox = [item.1; "messages"; "inbox"])))
    ∧ (found = None →
         FS.is_dir (FS.walk extracted direct_inbox) = false
         ∧ ∀ item, item ∈ top → FS.is_dir (Some item.2) = true →
             FS.is_dir (FS.walk extracted (item.1 :: direct_inbox)) = false
             ∧ FS.is_dir (FS.walk extracted [item.1; "messages"; "inbox"]) = false).
Proof.
  intros Htop. unfold Instagram.find_inbox_path. rewrite Htop. cbn [mbind result_bind].
  eexists. split_and!; [done| | |].
  - intros Hd. unfold Instagram.inbox_patterns. cbn [List.find].
    fold direct_inbox. by rewrite Hd.
  - intros inbox Hfound. apply find_some in Hfound as [Hin%list_elem_of_In Hdir].
    split; [done|]. by apply inbox_patterns_shape.
  - intros Hnone. pose proof (find_none _ _ Hnone) as Hall. split.
    + apply Hall. by left.
    + intros item Hitem Hd.
      split; apply Hall; unfold Instagram.inbox_patterns;
        right; apply in_flat_map; exists item;
        (split; [by apply list_elem_of_In|]); rewrite Hd; cbn; auto.
Qed.

Lemma find_inbox_path_finds_directory_witness :
  ∃ found,
    Instagram.find_inbox_path (Some (Samples.archive_of Samples.listed_inbox)) = Ok found
    ∧ (FS.is_dir (FS.walk (Some (Samples.archive_of Samples.listed_inbox)) direct_inbox)
       = true → found = Some direct_inbox)
    ∧ (∀ inbox, found = Some inbox →
         FS.is_dir (FS.walk (Some (Samples.archive_of Samples.listed_inbox)) inbox) = true
         ∧ (inbox = direct_inbox
            ∨ ∃ item, item ∈ FS.listing (Some (Samples.archive_of Samples.listed_inbox))
                      ∧ FS.is_dir (Some item.2) = true
                      ∧ (inbox = item.1 :: direct_inbox
                         ∨ inbox = [item.1; "messages"; "inbox"])))
    ∧ (found = None →
         FS.is_dir (FS.walk (Some (Samples.archive_of Samples.listed_inbox)) direct_inbox)
         = false
         ∧ ∀ item, item ∈ FS.listing (Some (Samples.archive_of Samples.listed_inbox)) →
             FS.is_dir (Some item.2) = true →
             FS.is_dir (FS.walk (Some (Samples.archive_of Samples.listed_inbox))
                          (item.1 :: direct_inbox)) = false
             ∧ FS.is_dir (FS.walk (Some (Samples.archive_of Samples.listed_inbox))
                            [item.1; "messages"; "inbox"]) = false).
Proof.
  apply (find_inbox_path_finds_directory (Some (Samples.archive_of Samples.listed_inbox))).
  reflexivity.
Defined.

(** ** Vendor-A merger: order of equal timestamps, and the previewed count *)

Section StableFacts.
Context {A : Type} (key : A → Z).

Lemma insert_by_filter (x : A) (l : list A) (k : Z) :
  filter (λ y, key y = k) (Py.insert_by Z.ltb key x l)
  = filter (λ y, key y = k) (x :: l).
Proof.
  induction l as [|y l IH]; [done|]. cbn [Py.insert_by].
  destruct (Z.ltb_spec (key y) (key x)) as [Hlt|Hge]; [|done].
  destruct (decide (key y = k)) as [Hy|Hy].
  - rewrite (filter_cons_True _ y) by done. rewrite IH.
    rewrite (filter_cons_False _ x) by lia.
    rewrite (filter_cons_False _ x) by lia. by rewrite filter_cons_True.
  - rewrite (filter_cons_False _ y) by done. rewrite IH.
    destruct (decide (key x = k)).
    + rewrite !(filter_cons_True _ x) by done. by rewrite filter_cons_False.
    + rewrite !(filter_cons_False _ x) by done. by rewrite filter_cons_False.
Qed.

(** The sort is stable: elements of equal key keep their order. *)
Lemma sort_by_stable (l : list A) (k : Z) :
  filter (λ y, key y = k) (Py.sort_by Z.ltb key l) = filter (λ y, key y = k) l.
Proof.
  induction l as [|x l IH]; [done|]. cbn [Py.sort_by].
  rewrite insert_by_filter. destruct (decide (key x = k)).
  - rewrite !(filter_cons_True _ x) by done. by rewrite IH.
  - rewrite !(filter_cons_False _ x) by done. by rewrite IH.
Qed.
End StableFacts.

Section OrderFacts.
Import Instagram.

Lemma keyed_numbers (l : list (string * node)) (keyed : list (Z * (string * node))) :
  Forall2 (λ e ke, file_number e.1 = Ok ke.1 ∧ ke.2 = e) l keyed →
  keyed = (λ e, (number_of e, e)) <$> l.
Proof.
  induction 1 as [|e [k e'] l keyed [Hk He] _ IH]; [done|].
  cbn in *. subst e'. rewrite IH. unfold number_of at 2. by rewrite Hk.
Qed.

(** The reading order of the merger: highest number first. *)
Lemma message_files_sorted (folder : option node) (files : list (string * node)) :
  message_files folder = Ok files →
  Sorted (λ a b, number_of b ≤ number_of a) files.
Proof.
  intros (keyed & Hk & ->)%message_files_inv.
  rewrite (keyed_numbers _ _ Hk). unfold Py.sort_by_reverse.
  rewrite <-fmap_reverse, (sort_by_fmap Z.ltb fst (λ e, (number_of e, e))).
  rewrite <-fmap_reverse, <-list_fmap_compose, list_fmap_id.
  apply Sorted_reverse. apply (sort_by_Sorted number_of).
Qed.

Lemma foldl_count_messages (files : list (string * node)) (acc : nat) :
  Forall (λ e, is_Some (message_array e.2)) files →
  foldl (λ message_count msg_file,
           try_except
             (msg_data ← FS.json_load (Some msg_file.2);
              messages ← Py.get msg_data "messages" (JArr []);
              k ← Py.len messages;
              Ok (message_count + k)%nat)
             message_count) acc files
  = (acc + length (flat_map (λ e, default [] (message_array e.2)) files))%nat.
Proof.
  intros H. revert acc.
  induction H as [|e files [msgs He] _ IH]; intros acc; [cbn; lia|].
  cbn [foldl flat_map]. rewrite IH, He, length_app. cbn [default].
  replace (try_except _ acc) with (acc + length msgs)%nat; [unfold id; lia|].
  unfold message_array in He.
  destruct (FS.json_load _) as [[| | | | |fields]|]; try done. cbn.
  destruct (default _ _) as [| | | |l|]; try done. cbn.
  by destruct (forallb _ _); simplify_eq.
Qed.

Lemma preview_count (fix_mojibake : string → string) (folder : option node)
    (p : preview) :
  get_conversation_preview fix_mojibake folder = Some p →
  preview_message_count p = count_messages folder.
Proof.
  unfold get_conversation_preview. destruct (negb _); [done|]. intros Hp.
  repeat (match type of Hp with
          | match ?r ≫= _ with _ => _ end = _ => destruct r; [|done]; cbn in Hp
          end).
  by simplify_eq.
Qed.
End OrderFacts.

(** X8.  On a vendor-A conversation folder (whatever matches
    [message_*.json] in it has an integer suffix and holds an object whose
    [messages], when there are any, are a list of objects with an integer
    [timestamp_ms]) that has at least one such file, the merger is stable:
    the messages of any one timestamp come out in the order in which they
    are read, file after file from the highest number to the lowest and,
    inside a file, in the order of its array. *)
Theorem merge_keeps_order_of_equal_timestamps (folder : option node) :
  Instagram.glob_messages folder ≠ [] → Instagram.vendorA_folder folder →
  ∃ files record msgs,
    Instagram.merge_conversation_messages folder = Ok (Some (JObj record))
    ∧ Py.assoc "messages" record = Some (JArr msgs)
    ∧ files ≡ₚ Instagram.glob_messages folder
    ∧ Sorted (λ a b, number_of b ≤ number_of a) files
    ∧ ∀ t, filter (λ m, Instagram.timestamp m = t) msgs
           = filter (λ m, Instagram.timestamp m = t)
               (flat_map (λ e, default [] (Instagram.message_array e.2)) files).
Proof.
  intros Hne Hwf.
  destruct (merge_vendorA folder Hwf Hne) as (files & base & Hfiles & _ & Hmerge).
  eexists files, _, _. split_and!; [exact Hmerge|apply assoc_set_same| | |].
  - by apply message_files_Permutation.
  - by apply (message_files_sorted folder).
  - intros t. apply sort_by_stable.
Qed.

Lemma merge_keeps_order_of_equal_timestamps_witness :
  ∃ files record msgs,
    Instagram.merge_conversation_messages (Some Samples.same_time_chunks)
    = Ok (Some (JObj record))
    ∧ Py.assoc "messages" record = Some (JArr msgs)
    ∧ msgs = [Samples.msg "Cy" "early" 50; Samples.msg "Bob" "z" 100;
              Samples.msg "Ann" "x" 100; Samples.msg "Bob" "y" 100;
              Samples.msg "Ann" "late" 200]
    ∧ fst <$> files = ["message_2.json"; "message_1.json"]
    ∧ files ≡ₚ Instagram.glob_messages (Some Samples.same_time_chunks)
    ∧ Sorted (λ a b, number_of b ≤ number_of a) files
    ∧ ∀ t, filter (λ m, Instagram.timestamp m = t) msgs
           = filter (λ m, Instagram.timestamp m = t)
               (flat_map (λ e, default [] (Instagram.message_array e.2)) files).
Proof.
  destruct (merge_keeps_order_of_equal_timestamps (Some Samples.same_time_chunks))
    as (files & record & msgs & Hmerge & Hmsgs & Hperm & Hsorted & Hstable).
  - vm_compute. discriminate.
  - repeat constructor; try (by eexists; vm_compute).
  - exists files, record, msgs. split_and!; [done|done| | |done..].
    + vm_compute in Hmerge. injection Hmerge as <-.
      vm_compute in Hmsgs. injection Hmsgs as <-. by vm_compute.
    + vm_compute in Hperm. symmetry in Hperm.
      apply Permutation_length_2_inv in Hperm as [->| ->]; [|done].
      exfalso. apply Sorted_StronglySorted in Hsorted; [|intros ???; lia].
      apply StronglySorted_inv in Hsorted as [_ Hall].
      apply Forall_cons in Hall as [Hle _]. vm_compute in Hle. by destruct Hle.
Defined.

(** X9.  On a vendor-A conversation folder (whatever matches
    [message_*.json] in it has an integer suffix and holds an object whose
    [messages], when there are any, are a list of objects with an integer
    [timestamp_ms]) whose [message_1.json] holds an object whose
    [participants], when there are any, are a list of objects with string
    names, the message count shown by the preview is the number of messages
    the merger returns for the folder. *)
Theorem preview_counts_merged_messages
    (fix_mojibake : string → string) (folder : option node) :
  Instagram.vendorA_folder folder →
  Instagram.readable_first_file folder = true →
  ∃ p record msgs,
    Instagram.get_conversation_preview fix_mojibake folder = Some p
    ∧ Instagram.merge_conversation_messages folder = Ok (Some (JObj record))
    ∧ Py.assoc "messages" record = Some (JArr msgs)
    ∧ Instagram.preview_message_count p = length msgs.
Proof.
  intros Hwf Hread.
  destruct (preview_of_readable fix_mojibake folder Hread) as [p Hp].
  pose proof (readable_has_files folder Hread) as Hne.
  destruct (merge_vendorA folder Hwf Hne) as (files & base & Hfiles & _ & Hmerge).
  eexists p, _, _. split_and!; [done|exact Hmerge|apply assoc_set_same|].
  rewrite (preview_count _ _ _ Hp). unfold Instagram.count_messages.
  rewrite foldl_count_messages by (eapply Forall_impl; [exact Hwf|by intros ? [_ ?]]).
  rewrite sort_by_Permutation.
  apply message_files_Permutation in Hfiles.
  rewrite !flat_map_concat_map. by rewrite Hfiles.
Qed.

Lemma preview_counts_merged_messages_witness :
  ∃ p record msgs,
    Instagram.get_conversation_preview id (Some Samples.same_time_chunks) = Some p
    ∧ Instagram.merge_conversation_messages (Some Samples.same_time_chunks)
      = Ok (Some (JObj record))
    ∧ Py.assoc "messages" record = Some (JArr msgs)
    ∧ Instagram.preview_message_count p = length msgs
    ∧ length msgs = 5%nat.
Proof.
  destruct (preview_counts_merged_messages id (Some Samples.same_time_chunks))
    as (p & record & msgs & Hp & Hmerge & Hmsgs & Hcount).
  - repeat constructor; try (by eexists; vm_compute).
  - by vm_compute.
  - exists p, record, msgs. split_and!; [done..|].
    vm_compute in Hmerge. injection Hmerge as <-.
    vm_compute in Hmsgs. by injection Hmsgs as <-.
Defined.

(** ** Participant extraction *)

Section SortStringFacts.

Lemma ltb_asym (a b : string) : String.ltb a b = true → String.ltb b a = false.
Proof.
  unfold String.ltb. rewrite (String.compare_antisym b a).
  by destruct (String.compare a b).
Qed.

Lemma ltb_total (a b : string) : String.ltb b a = false → a ≠ b → String.ltb a b = true.
Proof.
  unfold String.ltb. rewrite (String.compare_antisym b a).
  destruct (String.compare a b) eqn:E; try done.
  by apply String.compare_eq_iff in E.
Qed.

Lemma insert_by_Sorted_str (x : string) (l : list string) :
  Sorted (λ a b, String.ltb b a = false) l →
  Sorted (λ a b, String.ltb b a = false) (Py.insert_by String.ltb id x l).
Proof.
  induction 1 as [|y l Hs IH Hd]; cbn; [by repeat constructor|].
  destruct (String.ltb y x) eqn:Hyx.
  - constructor; [done|].
    destruct Hd as [|z l Hyz]; cbn; [constructor; by apply ltb_asym|].
    destruct (String.ltb z x); constructor; [done|by apply ltb_asym].
  - by repeat constructor.
Qed.

Lemma sort_by_Sorted_str (l : list string) :
  Sorted (λ a b, String.ltb b a = false) (Py.sort_by String.ltb id l).
Proof.
  induction l as [|x l IH]; cbn; [constructor|]. by apply insert_by_Sorted_str.
Qed.

(** Sorting distinct strings gives a strictly ascending list. *)
Lemma sort_by_strict (l : list string) :
  NoDup l → Sorted (λ a b, String.ltb a b = true) (Py.sort_by String.ltb id l).
Proof.
  intros Hnd. rewrite <-(sort_by_Permutation String.ltb id l) in Hnd.
  pose proof (sort_by_Sorted_str l) as Hs.
  induction Hs as [|x s _ IH Hd]; [constructor|].
  apply NoDup_cons in Hnd as [Hx Hnd]. constructor; [by apply IH|].
  destruct Hd as [|y s Hxy]; constructor.
  apply ltb_total; [done|]. intros ->. apply Hx. by left.
Qed.
End SortStringFacts.

Section ParticipantFacts.
Import Processor.

Lemma existsb_eqb_JStr (s : string) (l : list string) :
  existsb (Py.eqb (JStr s)) (JStr <$> l) = bool_decide (s ∈ l).
Proof.
  induction l as [|x l IH]; [done|]. cbn [fmap list_fmap existsb].
  rewrite IH. cbn [Py.eqb Py.as_int].
  destruct (String.eqb_spec s x) as [->|Hne]; cbn.
  - symmetry. apply bool_decide_eq_true. by left.
  - apply bool_decide_ext. rewrite elem_of_cons. intuition congruence.
Qed.

Lemma add_names_entries (ps : list json) (l : list string) :
  forallb participant_entry ps = true →
  add_names ps (JStr <$> l)
  = JStr <$> foldl add_name l (omap declared_name ps).
Proof.
  revert l. induction ps as [|p ps IH]; intros l; [done|].
  intros [Hp Hps]%andb_true_iff. cbn [add_names omap list_omap].
  destruct p as [| | | | |fields]; try done. cbn in Hp |- *.
  destruct (Py.assoc "name" fields) as [[| | |s| |]|] eqn:Hn; try done; cbn.
  - unfold Py.set_insert. rewrite existsb_eqb_JStr.
    replace (if bool_decide (s ∈ l) then JStr <$> l else (JStr <$> l) ++ [JStr s])
      with (JStr <$> add_name l s)
      by (unfold add_name; destruct (bool_decide _); by rewrite ?fmap_app).
    by rewrite IH.
  - by rewrite IH.
Qed.

Lemma add_name_spec (l : list string) (n : string) :
  NoDup l → NoDup (add_name l n) ∧ ∀ s, s ∈ add_name l n ↔ s ∈ l ∨ s = n.
Proof.
  intros Hl. unfold add_name. case_bool_decide as Hn.
  - split; [done|]. intros s. split; [by left|]. by intros [?| ->].
  - split.
    + apply NoDup_app. split_and!; [done| |apply NoDup_singleton].
      intros x Hx ->%list_elem_of_singleton. done.
    + intros s. rewrite elem_of_app, list_elem_of_singleton. tauto.
Qed.

Lemma foldl_add_name (names l : list string) :
  NoDup l →
  NoDup (foldl add_name l names)
  ∧ ∀ s, s ∈ foldl add_name l names ↔ s ∈ l ∨ s ∈ names.
Proof.
  revert l. induction names as [|n names IH]; intros l Hl; cbn [foldl].
  - split; [done|]. intros s. split; [by left|]. by intros [?|?%elem_of_nil].
  - destruct (add_name_spec l n Hl) as [Hnd Hin].
    destruct (IH _ Hnd) as [? Hin']. split; [done|].
    intros s. rewrite Hin', Hin, elem_of_cons. tauto.
Qed.

(** [sorted] on a list of strings. *)
Lemma sorted_strings (l : list string) :
  Py.sorted_by_key Ok (JStr <$> l) = Ok (JStr <$> Py.sort_by String.ltb id l).
Proof.
  unfold Py.sorted_by_key.
  assert (mapM_result (λ x : json, k ← Ok x; Ok (k, x)) (JStr <$> l)
          = Ok ((λ s, (JStr s, JStr s)) <$> l)) as ->.
  { apply mapM_result_Ok. apply Forall2_fmap. by apply Forall_Forall2_diag, Forall_true. }
  cbn [mbind result_bind].
  assert (mapM (λ kx : json * json, (λ z, (z, kx.2)) <$> Py.as_str kx.1)
            ((λ s, (JStr s, JStr s)) <$> l)
          = Some ((λ s, (s, JStr s)) <$> l)) as Hstr.
  { apply mapM_Some. apply Forall2_fmap. by apply Forall_Forall2_diag, Forall_true. }
  destruct l as [|x l]; [done|].
  replace (mapM (λ kx : json * json, (λ z, (z, kx.2)) <$> Py.as_int kx.1)
             ((λ s, (JStr s, JStr s)) <$> x :: l)) with (@None (list (Z * json)))
    by done.
  rewrite Hstr. f_equal.
  rewrite (sort_by_fmap String.ltb fst (λ s, (s, JStr s))).
  by rewrite <-list_fmap_compose.
Qed.
End ParticipantFacts.

(** X10.  For an Instagram file that holds an object whose [participants]
    are a list of participant entries, [extract_participants] returns the
    declared names as strings in strictly ascending order: every declared
    name once, and nothing else. *)
Theorem extract_participants_sorted_names
    (path : option node) (fields : list (string * json)) (ps : list json) :
  FS.json_load path = Ok (JObj fields) →
  Py.assoc "participants" fields = Some (JArr ps) →
  forallb participant_entry ps = true →
  ∃ names,
    Processor.extract_participants path "Instagram" = Ok (JStr <$> names)
    ∧ (∀ s, s ∈ names ↔ s ∈ omap declared_name ps)
    ∧ Sorted (λ a b, String.ltb a b = true) names.
Proof.
  intros Hload Hps Hwf.
  destruct (foldl_add_name (omap declared_name ps) [] (NoDup_nil_2)) as [Hnd Hin].
  exists (Py.sort_by String.ltb id (foldl add_name [] (omap declared_name ps))).
  split_and!.
  - unfold Processor.extract_participants, Processor.collect_participants.
    cbn [String.eqb Ascii.eqb Bool.eqb]. rewrite Hload. cbn. rewrite Hps.
    rewrite bool_decide_eq_true_2 by done. cbn.
    change (Processor.add_names ps []) with (Processor.add_names ps (JStr <$> [])).
    rewrite (add_names_entries ps [] Hwf). apply sorted_strings.
  - intros s. rewrite sort_by_Permutation, Hin. split; [|by right].
    by intros [?%elem_of_nil|?].
  - by apply sort_by_strict.
Qed.

Lemma extract_participants_sorted_names_witness :
  ∃ names,
    Processor.extract_participants
      (Some (Samples.json_file (Samples.export ["Zed"; "Ann"; "Zed"] []))) "Instagram"
    = Ok (JStr <$> names)
    ∧ (∀ s, s ∈ names ↔
            s ∈ omap declared_name
                  [JObj [("name", JStr "Zed")]; JObj [("name", JStr "Ann")];
                   JObj [("name", JStr "Zed")]])
    ∧ Sorted (λ a b, String.ltb a b = true) names.
Proof.
  eapply (extract_participants_sorted_names
            (Some (Samples.json_file (Samples.export ["Zed"; "Ann"; "Zed"] []))));
    by vm_compute.
Defined.

(** ** Vendor-B merger: what a converted record looks like *)

Section ConvertShape.
Import Discord.
Context (strptime_ms : string → option Z).

Lemma add_usernames_entries (items : list (string * json))
    (participants seen participants' seen' : list json) :
  add_usernames items participants seen = Ok (participants', seen') →
  Forall (λ p, ∃ name, p = name_entry name) participants →
  Forall (λ p, ∃ name, p = name_entry name) participants'.
Proof.
  revert participants seen.
  induction items as [|[k u] items IH]; intros participants seen; cbn.
  - by intros [= <- <-].
  - destruct (Py.hashable u); [|done]. destruct (existsb _ _); [by apply IH|].
    intros H Hall. apply (IH _ _ H). apply Forall_app. split; [done|].
    repeat constructor. by eexists.
Qed.

Lemma index_participants_entries (index_map : json) (channel_json : option node)
    (participants : list json) :
  index_participants index_map channel_json = Ok participants →
  Forall (λ p, ∃ name, p = name_entry name) participants.
Proof.
  unfold index_participants.
  destruct (FS.json_load _) as [channel_data|]; [|done]. cbn.
  destruct (Py.get channel_data _ _) as [channel_id|]; [|done]. cbn.
  destruct (Py.truthy _); [|by intros [= <-]].
  destruct (Py.get index_map _ _) as [shown|]; [|done]. cbn.
  destruct (Py.startswith _ _) as [[]|]; [| |done]; cbn; [|by intros [= <-]].
  intros [= <-]. repeat case_match; repeat constructor; by eexists.
Qed.

(** The participants of a converted record. *)
Lemma convert_participants (parent folder : option node) (r : json) :
  convert_discord_to_instagram_format strptime_ms parent folder = Some r →
  ∃ participants,
    Py.getitem r "participants" = Ok (JArr participants)
    ∧ participants ≠ []
    ∧ Forall (λ p, ∃ name, p = name_entry name) participants.
Proof.
  unfold convert_discord_to_instagram_format.
  destruct (negb _); [done|].
  destruct (convert_body _ _ _) as [r'|] eqn:Hbody; [|done]. intros [= <-].
  unfold convert_body in Hbody.
  destruct (FS.json_load _) as [source|] eqn:Hsource; [|done]. cbn in Hbody.
  destruct (add_usernames _ _ _) as [[participants seen]|] eqn:Hadd; [|done].
  cbn in Hbody.
  apply add_usernames_entries in Hadd; [|constructor].
  match type of Hbody with
  | (?p ≫= _) = _ => destruct p as [participants'|] eqn:Hfall; [|done]
  end. cbn in Hbody.
  assert (Forall (λ p, ∃ name, p = name_entry name) participants') as Hall.
  { destruct participants; [|by simplify_eq].
    destruct (FS.exists_ _); [by eapply index_participants_entries|by simplify_eq]. }
  destruct (Py.iter source) as [src_msgs|]; [|done]. cbn in Hbody.
  destruct (convert_messages _ _) as [kept|]; [|done]. cbn in Hbody.
  injection Hbody as <-.
  exists (match participants' with
          | [] => [name_entry (JStr "Discord_User")]
          | _ => participants'
          end).
  split_and!.
  - by destruct (existsb real_sender kept).
  - by destruct participants'.
  - destruct participants'; [|done]. repeat constructor. by eexists.
Qed.

(** With its content, one source message gives one converted message. *)
Lemma convert_messages_kept (src_msgs kept : list json) :
  convert_messages strptime_ms src_msgs = Ok kept →
  Forall (λ m, ∃ sender content ts,
               m = converted sender content ts ∧ Py.truthy content = true) kept
  ∧ length kept
    = length (filter (λ m, Py.truthy (try_except (Py.get m "Contents" (JStr "")) JNull)
                           = true) src_msgs).
Proof.
  unfold convert_messages.
  destruct (mapM_result _ _) as [each|] eqn:He; [|done]. intros [= <-].
  apply mapM_result_Ok in He.
  induction He as [|msg om src each Hmsg _ [IH1 IH2]]; [by split|].
  unfold convert_message in Hmsg. destruct msg as [| | | | |fields]; try done.
  cbn [omap list_omap]. revert Hmsg.
  destruct (Py.truthy (default (JStr "") (Py.assoc "Contents" fields))) eqn:Ht;
    cbn; intros [= <-]; cbn [id].
  - rewrite decide_True by done. cbn. split; [|by rewrite IH2].
    constructor; [|done]. by eexists _, _, _.
  - rewrite decide_False by (by rewrite Ht). done.
Qed.

Lemma converted_timestamp_converted (sender content : json) (ts : Z) :
  converted_timestamp (converted sender content ts) = ts.
Proof. reflexivity. Qed.
End ConvertShape.

(** X11.  A vendor-B conversion that succeeds returns at least one
    participant, each an object with a [name]; as many messages as the
    source has messages with non-empty [Contents], each with a non-empty
    content; and the messages newest first, in descending order of
    [timestamp_ms]. *)
Theorem convert_discord_record_shape
    (strptime_ms : string → option Z) (parent folder : option node) (r : json) :
  Discord.convert_discord_to_instagram_format strptime_ms parent folder = Some r →
  ∃ source src_msgs participants msgs,
    FS.json_load (FS.child (FS.listing folder) "messages.json") = Ok source
    ∧ Py.iter source = Ok src_msgs
    ∧ Py.getitem r "participants" = Ok (JArr participants)
    ∧ participants ≠ []
    ∧ Forall (λ p, ∃ name, p = Discord.name_entry name) participants
    ∧ Py.getitem r "messages" = Ok (JArr msgs)
    ∧ Forall (λ m, ∃ sender content ts,
                 m = Discord.converted sender content ts
                 ∧ Py.truthy content = true) msgs
    ∧ length msgs
      = length (filter (λ m, Py.truthy (try_except (Py.get m "Contents" (JStr "")) JNull)
                             = true) src_msgs)
    ∧ Sorted (λ a b, Discord.converted_timestamp b ≤ Discord.converted_timestamp a) msgs.
Proof.
  intros Hr.
  destruct (convert_participants _ _ _ _ Hr) as (participants & Hp & Hne & Hall).
  apply convert_inv in Hr as (source & src_msgs & kept & ps & Hs & Hi & Hk & ->).
  destruct (convert_messages_kept _ _ _ Hk) as [Hkept Hlen].
  exists source, src_msgs, participants,
    (reverse (Py.sort_by Z.ltb Discord.converted_timestamp kept)).
  split_and!; [done..|reflexivity| | |].
  - by rewrite reverse_Permutation, sort_by_Permutation.
  - by rewrite length_reverse, sort_by_Permutation.
  - apply Sorted_reverse. apply sort_by_Sorted.
Qed.

Lemma convert_discord_record_shape_witness :
  ∃ source src_msgs participants msgs,
    FS.json_load (FS.child (FS.listing (FS.walk (Some Samples.discord_messages_dir) ["c111"]))
                    "messages.json") = Ok source
    ∧ Py.iter source = Ok src_msgs
    ∧ Py.getitem
        (JObj [("participants",
                JArr [Discord.name_entry (JStr "ann"); Discord.name_entry (JStr "bob")]);
               ("messages",
                JArr [Discord.converted (JStr "bob") (JStr "hi") 1750065900000;
                      Discord.converted (JStr "ann") (JStr "hello") 1750065852000]);
               ("has_sender_info", JBool true)]) "participants"
      = Ok (JArr participants)
    ∧ participants ≠ []
    ∧ Forall (λ p, ∃ name, p = Discord.name_entry name) participants
    ∧ Py.getitem
        (JObj [("participants",
                JArr [Discord.name_entry (JStr "ann"); Discord.name_entry (JStr "bob")]);
               ("messages",
                JArr [Discord.converted (JStr "bob") (JStr "hi") 1750065900000;
                      Discord.converted (JStr "ann") (JStr "hello") 1750065852000]);
               ("has_sender_info", JBool true)]) "messages"
      = Ok (JArr msgs)
    ∧ Forall (λ m, ∃ sender content ts,
                 m = Discord.converted sender content ts
                 ∧ Py.truthy content = true) msgs
    ∧ length msgs
      = length (filter (λ m, Py.truthy (try_except (Py.get m "Contents" (JStr "")) JNull)
                             = true) src_msgs)
    ∧ Sorted (λ a b, Discord.converted_timestamp b ≤ Discord.converted_timestamp a) msgs.
Proof.
  apply (convert_discord_record_shape Samples.utc_clock
           (Some Samples.discord_messages_dir)
           (FS.walk (Some Samples.discord_messages_dir) ["c111"])).
  by vm_compute.
Defined.

Section OldFormat.
Import Discord.
Context (strptime_ms : string → option Z).

Lemma convert_messages_no_author (src_msgs kept : list json) :
  convert_messages strptime_ms src_msgs = Ok kept →
  Forall (λ m, ∀ fields, m = JObj fields → Py.assoc "Author" fields = None) src_msgs →
  Forall (λ m, ∃ content ts, m = converted (JStr "Discord_User") content ts) kept.
Proof.
  unfold convert_messages.
  destruct (mapM_result _ _) as [each|] eqn:He; [|done]. intros [= <-].
  apply mapM_result_Ok in He.
  induction He as [|msg om src each Hmsg _ IH]; [done|].
  intros [Hno Hrest]%Forall_cons. specialize (IH Hrest).
  unfold convert_message in Hmsg. destruct msg as [| | | | |fields]; try done.
  cbn [omap list_omap]. revert Hmsg.
  destruct (negb _); intros [= <-]; cbn [id]; [done|].
  constructor; [|done]. unfold sender_of. rewrite (Hno fields eq_refl).
  by eexists _, _.
Qed.

Lemma no_real_sender (kept : list json) :
  Forall (λ m, ∃ content ts, m = converted (JStr "Discord_User") content ts) kept →
  existsb real_sender kept = false.
Proof.
  induction 1 as [|m kept (content & ts & ->) _ IH]; [done|].
  cbn [existsb]. rewrite IH, orb_false_r. apply not_true_iff_false.
  rewrite real_sender_converted. tauto.
Qed.
End OldFormat.

(** X12.  When no message of [messages.json] has an [Author], a conversion
    that succeeds reports [has_sender_info] false, carries the warning, and
    gives every converted message the sender ['Discord_User']. *)
Theorem convert_export_without_authors
    (strptime_ms : string → option Z) (parent folder : option node)
    (r source : json) (src_msgs : list json) :
  Discord.convert_discord_to_instagram_format strptime_ms parent folder = Some r →
  FS.json_load (FS.child (FS.listing folder) "messages.json") = Ok source →
  Py.iter source = Ok src_msgs →
  Forall (λ m, ∀ fields, m = JObj fields → Py.assoc "Author" fields = None) src_msgs →
  Py.getitem r "has_sender_info" = Ok (JBool false)
  ∧ Py.getitem r "warning" = Ok (JStr Discord.warning_text)
  ∧ ∃ msgs,
      Py.getitem r "messages" = Ok (JArr msgs)
      ∧ Forall (λ m, Py.getitem m "sender_name" = Ok (JStr "Discord_User")) msgs.
Proof.
  intros Hr Hsource Hiter Hno.
  apply convert_inv in Hr as (source' & src' & kept & ps & Hs & Hi & Hk & ->).
  rewrite Hsource in Hs. injection Hs as <-.
  rewrite Hiter in Hi. injection Hi as <-.
  pose proof (convert_messages_no_author _ _ _ Hk Hno) as Hkept.
  rewrite (no_real_sender _ Hkept). split_and!; [done..|].
  eexists. split; [reflexivity|].
  rewrite reverse_Permutation, sort_by_Permutation.
  eapply Forall_impl; [exact Hkept|]. by intros m (content & ts & ->).
Qed.

Lemma convert_export_without_authors_witness :
  Py.getitem
    (JObj [("participants",
            JArr [Discord.name_entry (JStr "bob"); Discord.name_entry (JStr "Me")]);
           ("messages",
            JArr [Discord.converted (JStr "Discord_User") (JStr "hi") 1750065900000;
                  Discord.converted (JStr "Discord_User") (JStr "hello") 1750065852000]);
           ("has_sender_info", JBool false);
           ("warning", JStr Discord.warning_text)]) "has_sender_info"
  = Ok (JBool false)
  ∧ Py.getitem
      (JObj [("participants",
              JArr [Discord.name_entry (JStr "bob"); Discord.name_entry (JStr "Me")]);
             ("messages",
              JArr [Discord.converted (JStr "Discord_User") (JStr "hi") 1750065900000;
                    Discord.converted (JStr "Discord_User") (JStr "hello") 1750065852000]);
             ("has_sender_info", JBool false);
             ("warning", JStr Discord.warning_text)]) "warning"
    = Ok (JStr Discord.warning_text)
  ∧ ∃ msgs,
      Py.getitem
        (JObj [("participants",
                JArr [Discord.name_entry (JStr "bob"); Discord.name_entry (JStr "Me")]);
               ("messages",
                JArr [Discord.converted (JStr "Discord_User") (JStr "hi") 1750065900000;
                      Discord.converted (JStr "Discord_User") (JStr "hello") 1750065852000]);
               ("has_sender_info", JBool false);
               ("warning", JStr Discord.warning_text)]) "messages"
      = Ok (JArr msgs)
      ∧ Forall (λ m, Py.getitem m "sender_name" = Ok (JStr "Discord_User")) msgs.
Proof.
  apply (convert_export_without_authors Samples.utc_clock
           (Some Samples.discord_messages_dir) (Some Samples.old_format_channel)
           _ (JArr [JObj [("ID", JNum 1); ("Timestamp", JStr "2025-06-16 09:24:12");
                          ("Contents", JStr "hello")];
                    JObj [("ID", JNum 2); ("Timestamp", JStr "2025-06-16 09:25:00");
                          ("Contents", JStr "hi")]])
           [JObj [("ID", JNum 1); ("Timestamp", JStr "2025-06-16 09:24:12");
                  ("Contents", JStr "hello")];
            JObj [("ID", JNum 2); ("Timestamp", JStr "2025-06-16 09:25:00");
                  ("Contents", JStr "hi")]]).
  - by vm_compute.
  - reflexivity.
  - reflexivity.
  - repeat constructor; by intros fields [= <-].
Defined.

(** ** Vendor-B merger: the map from user ids to usernames *)

Section UserMapFacts.
Import Discord.

Lemma assoc_set_keys {V} (k : string) (v : V) (o : list (string * V)) (k' : string) :
  k' ∈ (Py.assoc_set k v o).*1 ↔ k' = k ∨ k' ∈ o.*1.
Proof.
  induction o as [|[k0 v0] o IH]; cbn.
  - rewrite list_elem_of_singleton. set_unfold. tauto.
  - destruct (String.eqb_spec k k0) as [->|Hne]; cbn;
      rewrite !elem_of_cons; [tauto|]. rewrite IH. tauto.
Qed.

Lemma assoc_set_NoDup {V} (k : string) (v : V) (o : list (string * V)) :
  NoDup o.*1 → NoDup (Py.assoc_set k v o).*1.
Proof.
  induction o as [|[k0 v0] o IH]; cbn.
  - intros _. apply NoDup_singleton.
  - intros [Hk0 Ho]%NoDup_cons.
    destruct (String.eqb_spec k k0) as [->|Hne]; cbn; apply NoDup_cons.
    + done.
    + split; [|by apply IH]. rewrite assoc_set_keys. intros [?|?]; by simplify_eq.
Qed.

Lemma add_authors_spec (msgs : list json) (user_map : list (string * json)) :
  Forall (λ m, ∃ fields, m = JObj fields) msgs →
  NoDup user_map.*1 →
  NoDup (add_authors msgs user_map).*1
  ∧ ∀ k, Py.assoc k (add_authors msgs user_map)
         = match last (omap (named_author k) msgs) with
           | Some username => Some username
           | None => Py.assoc k user_map
           end.
Proof.
  intros Hall. revert user_map.
  induction Hall as [|msg msgs [fields ->] _ IH]; intros user_map Hnd; [done|].
  cbn [add_authors Py.get omap list_omap named_author].
  destruct (Py.assoc "Author" fields) as [[| | | | |author]|];
    cbn [default from_option id]; try (by apply IH).
  set (user_id := default JNull (Py.assoc "ID" author)).
  set (username := default JNull (Py.assoc "Username" author)).
  destruct (Py.truthy user_id && Py.truthy username); cbn [andb]; [|by apply IH].
  destruct (IH (Py.assoc_set (Py.str user_id) username user_map)) as [Hnd' Hlook];
    [by apply assoc_set_NoDup|].
  split; [done|]. intros k. rewrite Hlook.
  destruct (String.eqb_spec (Py.str user_id) k) as [<-|Hne].
  - rewrite last_cons, assoc_set_same. by destruct (last _).
  - by rewrite assoc_set_other.
Qed.
End UserMapFacts.

(** X13.  When [messages.json] holds a list of objects, the map of
    [build_user_id_map] has each user id once, and gives a user id the
    username of the last message whose [Author] has that id, as a string,
    and a username, both truthy; an id that no such message has is not in
    the map. *)
Theorem build_user_id_map_last_username
    (messages_json : option node) (source : json) (msgs : list json) :
  FS.json_load messages_json = Ok source →
  Py.iter source = Ok msgs →
  Forall (λ m, ∃ fields, m = JObj fields) msgs →
  NoDup (Discord.build_user_id_map messages_json).*1
  ∧ ∀ k, Py.assoc k (Discord.build_user_id_map messages_json)
         = last (omap (named_author k) msgs).
Proof.
  intros Hsource Hiter Hall. unfold Discord.build_user_id_map.
  assert (FS.exists_ messages_json = true) as ->.
  { by destruct messages_json as [[]|]. }
  rewrite Hsource. cbn. rewrite Hiter.
  destruct (add_authors_spec msgs [] Hall) as [Hnd Hlook]; [constructor|].
  split; [done|]. intros k. rewrite Hlook. by destruct (last _).
Qed.

Lemma build_user_id_map_last_username_witness :
  NoDup (Discord.build_user_id_map
           (FS.child (FS.listing (Some Samples.renamed_author_channel))
              "messages.json")).*1
  ∧ ∀ k, Py.assoc k (Discord.build_user_id_map
                       (FS.child (FS.listing (Some Samples.renamed_author_channel))
                          "messages.json"))
         = last (omap (named_author k)
                   [Samples.dmsg (JStr "7") (JStr "ann") "hello" "2025-06-16 09:24:12";
                    Samples.dmsg (JStr "8") JNull "hi" "2025-06-16 09:25:00";
                    Samples.dmsg (JStr "7") (JStr "anna") "bye" "2025-06-16 09:26:00"]).
Proof.
  apply (build_user_id_map_last_username _
           (JArr [Samples.dmsg (JStr "7") (JStr "ann") "hello" "2025-06-16 09:24:12";
                  Samples.dmsg (JStr "8") JNull "hi" "2025-06-16 09:25:00";
                  Samples.dmsg (JStr "7") (JStr "anna") "bye" "2025-06-16 09:26:00"])).
  - reflexivity.
  - reflexivity.
  - repeat constructor; by eexists.
Defined.

(** ** Fingerprints: how many, and what the store keeps of them *)

Section FingerprintFacts.
Import Fingerprint.
Context (md5_hex12 : json → json → string).

Lemma size_add_one (x : string) (X : gset string) :
  (size ({[ x ]} ∪ X) ≤ S (size X))%nat.
Proof.
  rewrite (comm_L (∪)), size_union_alt.
  assert (size (({[ x ]} : gset string) ∖ X) ≤ 1)%nat; [|lia].
  rewrite <-(size_singleton (C:=gset string) x). apply subseteq_size.
  intros y. rewrite elem_of_difference. tauto.
Qed.

Lemma boundary_length {A} (n : nat) (l : list A) :
  (0 < n)%nat → (length (boundary n l) ≤ 2 * n)%nat.
Proof.
  intros Hn. unfold boundary. destruct (Nat.eqb_spec n 0) as [->|_]; [lia|].
  rewrite length_app, length_take, length_drop. lia.
Qed.

Lemma add_fingerprints_size (msgs : list json) (fingerprints : gset string) :
  (size (add_fingerprints md5_hex12 msgs fingerprints)
   ≤ length msgs + size fingerprints)%nat.
Proof.
  revert fingerprints. induction msgs as [|msg msgs IH]; intros fps; cbn; [lia|].
  destruct msg as [| | | | |fields]; cbn; try lia.
  etrans; [apply IH|]. destruct (Py.truthy _); [|lia].
  match goal with |- context [ {[ ?x ]} ∪ fps ] =>
    pose proof (size_add_one x fps) end. lia.
Qed.

Lemma add_line_fingerprints_size (pairs : list (string * string))
    (fingerprints : gset string) :
  (size (add_line_fingerprints md5_hex12 pairs fingerprints)
   ≤ length pairs + size fingerprints)%nat.
Proof.
  unfold add_line_fingerprints. revert fingerprints.
  induction pairs as [|[sender content] pairs IH]; intros fps; cbn [foldl length];
    [lia|].
  etrans; [apply IH|]. destruct (Py.truthy _); [|lia].
  pose proof (size_add_one (md5_hex12 (JStr sender) (JStr content)) fps). lia.
Qed.

Lemma extract_size (path : option node) (n : nat) :
  (0 < n)%nat →
  (size (extract_message_fingerprints md5_hex12 path n) ≤ 2 * n)%nat.
Proof.
  intros Hn. unfold extract_message_fingerprints.
  destruct (String.eqb _ "Instagram").
  - destruct (FS.json_load path) as [data|]; cbn; [|rewrite size_empty; lia].
    destruct (Py.get data _ _) as [messages|]; cbn; [|rewrite size_empty; lia].
    unfold boundary_of.
    destruct messages; try (rewrite size_empty; lia);
      (etrans; [apply add_fingerprints_size|]); rewrite size_empty;
      match goal with |- (length (boundary _ ?l) + 0 ≤ _)%nat =>
        pose proof (boundary_length n l Hn) end; lia.
  - destruct (String.eqb _ "WhatsApp"); [|rewrite size_empty; lia].
    destruct (FS.read path) as [whole|]; [|rewrite size_empty; lia].
    etrans; [apply add_line_fingerprints_size|]. rewrite size_empty.
    pose proof (boundary_length n (msg_lines (Text.readlines whole)) Hn). lia.
Qed.
End FingerprintFacts.

(** X14.  For [n > 0], [extract_message_fingerprints] returns at most [2n]
    fingerprints, whatever the file holds. *)
Theorem fingerprints_at_most_2n
    (md5_hex12 : json → json → string) (path : option node) (n : nat) :
  (0 < n)%nat →
  (size (Fingerprint.extract_message_fingerprints md5_hex12 path n) ≤ 2 * n)%nat.
Proof. apply extract_size. Qed.

Lemma fingerprints_at_most_2n_witness :
  (size (Fingerprint.extract_message_fingerprints
           (λ sender content, Py.str sender +:+ ":" +:+ Py.str content)
           (Some Samples.two_chunks_first) 1)
   ≤ 2 * 1)%nat.
Proof.
  apply (fingerprints_at_most_2n
           (λ sender content, Py.str sender +:+ ":" +:+ Py.str content)
           (Some Samples.two_chunks_first) 1).
  lia.
Defined.

Section StoreFacts.
Import Upload.
Context (md5_hex12 : json → json → string).

Lemma assoc_set_fresh {V} (k : string) (v : V) (o : list (string * V)) :
  k ∉ o.*1 → Py.assoc_set k v o = o ++ [(k, v)].
Proof.
  induction o as [|[k0 v0] o IH]; cbn; [done|].
  rewrite not_elem_of_cons. intros [Hne Hk].
  destruct (String.eqb_spec k k0) as [->|_]; [done|]. by rewrite IH.
Qed.

Lemma NoDup_app_cons {A} (l : list A) (x : A) (k : list A) :
  NoDup (l ++ x :: k) ↔ NoDup ((l ++ [x]) ++ k).
Proof. by rewrite <-(assoc_L (++)). Qed.

(** With distinct names, the loop appends one entry for each file it keeps. *)
Lemma foldl_add_file (entries : list (string * node))
    (acc : list (string * gset string)) :
  NoDup (acc.*1 ++ entries.*1) →
  ∃ kept,
    foldl (add_file md5_hex12) acc entries = acc ++ kept
    ∧ NoDup (acc ++ kept).*1
    ∧ ∀ name fps,
        (name, fps) ∈ kept ↔
        fps ≠ ∅
        ∧ ∃ n, (name, n) ∈ entries
               ∧ is_file n = true
               ∧ Text.ends_with ".meta.json" name = false
               ∧ fps = Fingerprint.extract_message_fingerprints md5_hex12 (Some n) 20.
Proof.
  revert acc. induction entries as [|[name0 n0] entries IH]; intros acc Hnd.
  - exists []. cbn in *. rewrite !app_nil_r in *. split_and!; [done..|].
    intros name fps. split; [by intros ?%elem_of_nil|].
    by intros (_ & n & ?%elem_of_nil & _).
  - cbn [foldl]. unfold add_file at 2. cbn [fst snd].
    cbn [fmap list_fmap fst] in Hnd.
    assert (NoDup (acc.*1 ++ entries.*1)) as Hnd'.
    { apply NoDup_app in Hnd as (Ha & Hdisj & [Hn0 He]%NoDup_cons).
      apply NoDup_app. split_and!; [done| |done].
      intros x Hx Hin. apply (Hdisj _ Hx). by right. }
    assert (name0 ∉ acc.*1) as Hacc.
    { apply NoDup_app in Hnd as (_ & Hdisj & _).
      intros Hin. apply (Hdisj _ Hin). by left. }
    assert (∀ n, (name0, n) ∈ entries → False) as Hent.
    { apply NoDup_app in Hnd as (_ & _ & [Hn0 _]%NoDup_cons).
      intros n Hin. apply Hn0. apply list_elem_of_fmap. by exists (name0, n). }
    set (fps0 := Fingerprint.extract_message_fingerprints md5_hex12 (Some n0) 20).
    destruct (is_file n0 && negb (Text.ends_with ".meta.json" name0)) eqn:Hcond;
      [destruct (decide (fps0 = ∅)) as [Hempty|Hfull]|].
    + destruct (IH acc Hnd') as (kept & -> & Hnd2 & Hkept). exists kept.
      split_and!; [done..|].
      intros name fps. rewrite Hkept. split.
      * intros (Hne & n & Hin & Hrest). split; [done|]. exists n.
        split; [by right|done].
      * intros (Hne & n & [[= -> ->]|Hin]%elem_of_cons & Hrest).
        -- destruct Hrest as (_ & _ & ->). done.
        -- split; [done|]. by exists n.
    + rewrite assoc_set_fresh by done.
      destruct (IH (acc ++ [(name0, fps0)])) as (kept & -> & Hnd2 & Hkept).
      { rewrite fmap_app. cbn [fmap list_fmap fst]. by apply NoDup_app_cons. }
      exists ((name0, fps0) :: kept). rewrite <-(assoc_L (++)) in *.
      split_and!; [done..|].
      apply andb_true_iff in Hcond as [Hfile Hmeta%negb_true_iff].
      intros name fps. rewrite elem_of_cons, Hkept. split.
      * intros [[= -> ->]|(Hne & n & Hin & Hrest)].
        -- split; [done|]. exists n0. by split_and!; [left|..].
        -- split; [done|]. exists n. split; [by right|done].
      * intros (Hne & n & [[= -> ->]|Hin]%elem_of_cons & Hrest).
        -- left. by destruct Hrest as (_ & _ & ->).
        -- right. split; [done|]. by exists n.
    + destruct (IH acc Hnd') as (kept & -> & Hnd2 & Hkept). exists kept.
      split_and!; [done..|].
      intros name fps. rewrite Hkept. split.
      * intros (Hne & n & Hin & Hrest). split; [done|]. exists n.
        split; [by right|done].
      * intros (Hne & n & [[= -> ->]|Hin]%elem_of_cons & Hrest).
        -- destruct Hrest as (Hfile & Hmeta & _).
           by rewrite Hfile, Hmeta in Hcond.
        -- split; [done|]. by exists n.
Qed.

Lemma existing_fingerprints_spec (entries : list (string * node)) :
  NoDup entries.*1 →
  ∃ existing,
    get_existing_fingerprints md5_hex12 (Some (Dir entries)) = Ok existing
    ∧ NoDup existing.*1
    ∧ ∀ name fps,
        (name, fps) ∈ existing ↔
        fps ≠ ∅
        ∧ ∃ n, (name, n) ∈ entries
               ∧ is_file n = true
               ∧ Text.ends_with ".meta.json" name = false
               ∧ fps = Fingerprint.extract_message_fingerprints md5_hex12 (Some n) 20.
Proof.
  intros Hnd. destruct (foldl_add_file entries []) as (kept & Hfold & Hnd2 & Hkept);
    [done|].
  exists kept. split_and!; [by cbn; rewrite Hfold|done|done].
Qed.
End StoreFacts.

(** X15.  For a folder whose entries have distinct names,
    [get_existing_fingerprints] succeeds; its dict has each name once, and
    holds [name: fps] exactly when [name] is a file of the folder whose name
    does not end in [.meta.json] and whose fingerprints [fps] are not
    empty: no value of the dict is an empty set. *)
Theorem existing_fingerprints_of_folder
    (md5_hex12 : json → json → string) (entries : list (string * node)) :
  NoDup entries.*1 →
  ∃ existing,
    Upload.get_existing_fingerprints md5_hex12 (Some (Dir entries)) = Ok existing
    ∧ NoDup existing.*1
    ∧ ∀ name fps,
        (name, fps) ∈ existing ↔
        fps ≠ ∅
        ∧ ∃ n, (name, n) ∈ entries
               ∧ Upload.is_file n = true
               ∧ Text.ends_with ".meta.json" name = false
               ∧ fps = Fingerprint.extract_message_fingerprints md5_hex12 (Some n) 20.
Proof. apply existing_fingerprints_spec. Qed.

Lemma existing_fingerprints_of_folder_witness :
  ∃ existing,
    Upload.get_existing_fingerprints
      (λ sender content, Py.str sender +:+ ":" +:+ Py.str content)
      (Some (Dir [("a1.json", Samples.two_chunks_first);
                  ("a1.meta.json", Samples.two_chunks_first);
                  ("notes.txt", Samples.garbage_file);
                  ("sub", Samples.two_chunks)]))
    = Ok existing
    ∧ NoDup existing.*1
    ∧ ∀ name fps,
        (name, fps) ∈ existing ↔
        fps ≠ ∅
        ∧ ∃ n, (name, n) ∈ [("a1.json", Samples.two_chunks_first);
                            ("a1.meta.json", Samples.two_chunks_first);
                            ("notes.txt", Samples.garbage_file);
                            ("sub", Samples.two_chunks)]
               ∧ Upload.is_file n = true
               ∧ Text.ends_with ".meta.json" name = false
               ∧ fps = Fingerprint.extract_message_fingerprints
                         (λ sender content, Py.str sender +:+ ":" +:+ Py.str content)
                         (Some n) 20.
Proof.
  apply (existing_fingerprints_of_folder
           (λ sender content, Py.str sender +:+ ":" +:+ Py.str content)
           [("a1.json", Samples.two_chunks_first);
            ("a1.meta.json", Samples.two_chunks_first);
            ("notes.txt", Samples.garbage_file);
            ("sub", Samples.two_chunks)]).
  apply (bool_decide_unpack _). by vm_compute.
Defined.

Section ReuploadFacts.
Import Gate.

Lemma ratio_self (k : nat) :
  (1 ≤ k ≤ 40)%nat → ratio_reaches k k default_threshold = true.
Proof.
  intros Hk.
  assert (forallb (λ k, ratio_reaches k k default_threshold) (seq 1 40) = true)
    as Hall by (vm_compute; reflexivity).
  rewrite forallb_forall in Hall. apply Hall. apply in_seq. lia.
Qed.

Lemma scan_finds (new : gset string) (threshold : float)
    (items : list (string * gset string)) (cand : string * gset string) :
  new ≠ ∅ → cand ∈ items → is_match new threshold cand →
  ∃ name, scan new threshold items = (true, Some name).
Proof.
  intros Hn Hin Hm. destruct (scan_shape new threshold items) as [|Hnone]; [done|].
  apply scan_false in Hnone; [|done].
  rewrite Forall_forall in Hnone. by destruct (Hnone cand Hin).
Qed.
End ReuploadFacts.

(** X16.  A file whose fingerprints are not empty and equal those of a file
    kept in the upload folder (as when the same content is uploaded again)
    is reported as a duplicate by [check_content_overlap] against
    [get_existing_fingerprints] of that folder, with the default threshold
    and the default sample size. *)
Theorem stored_content_is_flagged
    (md5_hex12 : json → json → string) (entries : list (string * node))
    (existing : list (string * gset string)) (name : string) (n : node)
    (new : option node) :
  NoDup entries.*1 →
  Upload.get_existing_fingerprints md5_hex12 (Some (Dir entries)) = Ok existing →
  (name, n) ∈ entries →
  Upload.is_file n = true →
  Text.ends_with ".meta.json" name = false →
  Fingerprint.extract_message_fingerprints md5_hex12 new 20 ≠ ∅ →
  Fingerprint.extract_message_fingerprints md5_hex12 new 20
  = Fingerprint.extract_message_fingerprints md5_hex12 (Some n) 20 →
  ∃ filename,
    Gate.check_content_overlap
      (Fingerprint.extract_message_fingerprints md5_hex12 new 20)
      existing Gate.default_threshold
    = (true, Some filename).
Proof.
  intros Hnd Hex Hin Hfile Hmeta Hne Heq.
  destruct (existing_fingerprints_spec md5_hex12 entries Hnd)
    as (existing' & Hex' & _ & Hspec).
  rewrite Hex in Hex'. injection Hex' as <-.
  set (fps := Fingerprint.extract_message_fingerprints md5_hex12 new 20) in *.
  assert ((name, fps) ∈ existing) as Hstored.
  { apply Hspec. split; [done|]. by exists n. }
  unfold Gate.check_content_overlap. rewrite decide_False by done.
  apply (scan_finds _ _ _ (name, fps)); [done..|].
  split; [done|]. cbn [snd]. rewrite (idemp_L (∩)), Nat.min_id.
  apply ratio_self. split.
  - assert (size fps ≠ 0%nat); [|lia].
    by rewrite size_non_empty_iff, leibniz_equiv_iff.
  - apply (extract_size md5_hex12 new 20). lia.
Qed.

Lemma stored_content_is_flagged_witness :
  ∃ filename,
    Gate.check_content_overlap
      (Fingerprint.extract_message_fingerprints
         (λ sender content, Py.str sender +:+ ":" +:+ Py.str content)
         (Some Samples.two_chunks_first) 20)
      [("a1.json", {[ "Ann:c"; "Bob:d" ]})] Gate.default_threshold
    = (true, Some filename).
Proof.
  apply (stored_content_is_flagged
           (λ sender content, Py.str sender +:+ ":" +:+ Py.str content)
           [("a1.json", Samples.two_chunks_first);
            ("a1.meta.json", Samples.two_chunks_first);
            ("notes.txt", Samples.garbage_file);
            ("sub", Samples.two_chunks)]
           [("a1.json", {[ "Ann:c"; "Bob:d" ]})]
           "a1.json" Samples.two_chunks_first (Some Samples.two_chunks_first)).
  - apply (bool_decide_unpack _). by vm_compute.
  - by vm_compute.
  - by left.
  - reflexivity.
  - reflexivity.
  - apply (bool_decide_unpack _). by vm_compute.
  - reflexivity.
Defined.

(** ** Vendor-B locator: where it looks for the messages *)

(** X17.  In an extracted directory, [find_messages_path] answers
    [messages] when that entry exists; whatever it answers exists, and is
    [messages], [Messages], or one of the two inside a directory of the top
    level.  It only asks for existence: when the entry it answers is not a
    directory, [find_dm_conversations] raises; when it answers [None],
    [find_dm_conversations] returns no conversation. *)
Theorem find_messages_path_finds_entry
    (extracted : option node) (top : list (string * node)) :
  FS.iterdir extracted = Ok top →
  ∃ found,
    Discord.find_messages_path extracted = Ok found
    ∧ (FS.exists_ (FS.walk extracted ["messages"]) = true → found = Some ["messages"])
    ∧ (∀ mp, found = Some mp →
         FS.exists_ (FS.walk extracted mp) = true
         ∧ (mp = ["messages"] ∨ mp = ["Messages"]
            ∨ ∃ item, item ∈ top ∧ FS.is_dir (Some item.2) = true
                      ∧ (mp = [item.1; "messages"] ∨ mp = [item.1; "Messages"])))
    ∧ (found = None → Discord.find_dm_conversations extracted = Ok [])
    ∧ (∀ mp, found = Some mp → FS.is_dir (FS.walk extracted mp) = false →
         Discord.find_dm_conversations extracted = Raise).
Proof.
  intros Htop. unfold Discord.find_dm_conversations, Discord.find_messages_path.
  rewrite Htop. cbn [mbind result_bind].
  destruct (FS.exists_ (FS.walk extracted ["messages"])) eqn:Hlow.
  { eexists. split_and!; [done|done| |done|].
    - intros mp [= <-]. by split; [|left].
    - intros mp [= <-] Hdir. cbn [mbind result_bind].
      destruct (FS.walk extracted ["messages"]) as [[]|]; done. }
  destruct (FS.exists_ (FS.walk extracted ["Messages"])) eqn:Hcap.
  { eexists. split_and!; [done|done| |done|].
    - intros mp [= <-]. by split; [|right; left].
    - intros mp [= <-] Hdir. cbn [mbind result_bind].
      destruct (FS.walk extracted ["Messages"]) as [[]|]; done. }
  eexists. split_and!; [done|done| | |].
  - intros mp Hfound. apply find_some in Hfound as [Hin Hex]. split; [done|].
    right; right. apply in_flat_map in Hin as (item & Hitem%list_elem_of_In & Hin).
    exists item. destruct (FS.is_dir (Some item.2)); [|by destruct Hin].
    split_and!; [done..|]. cbn in Hin. intuition.
  - by intros ->.
  - intros mp -> Hdir. cbn [mbind result_bind].
    destruct (FS.walk extracted mp) as [[]|]; done.
Qed.

Lemma find_messages_path_finds_entry_witness :
  ∃ found,
    Discord.find_messages_path (Some (Dir [("export", Samples.discord_archive)]))
    = Ok found
    ∧ (FS.exists_ (FS.walk (Some (Dir [("export", Samples.discord_archive)]))
                     ["messages"]) = true → found = Some ["messages"])
    ∧ (∀ mp, found = Some mp →
         FS.exists_ (FS.walk (Some (Dir [("export", Samples.discord_archive)])) mp)
         = true
         ∧ (mp = ["messages"] ∨ mp = ["Messages"]
            ∨ ∃ item, item ∈ [("export", Samples.discord_archive)]
                      ∧ FS.is_dir (Some item.2) = true
                      ∧ (mp = [item.1; "messages"] ∨ mp = [item.1; "Messages"])))
    ∧ (found = None →
         Discord.find_dm_conversations (Some (Dir [("export", Samples.discord_archive)]))
         = Ok [])
    ∧ (∀ mp, found = Some mp →
         FS.is_dir (FS.walk (Some (Dir [("export", Samples.discord_archive)])) mp)
         = false →
         Discord.find_dm_conversations (Some (Dir [("export", Samples.discord_archive)]))
         = Raise).
Proof.
  apply (find_messages_path_finds_entry
           (Some (Dir [("export", Samples.discord_archive)]))
           [("export", Samples.discord_archive)]).
  reflexivity.
Defined.
